(** * custom-auth-system: the permission engine, embedded and verified

    A shallow embedding of the authorization core of the repository:

    - [permissions_system/models.py]   the five grant tables,
    - [permissions_system/services.py] [PermissionService],
    - [permissions_system/permissions.py] [HasResourcePermission],
    - [permissions_system/views.py]    [grant_permission_to_user].

    Python values are a small tagged union, exceptions and log records are
    threaded through an error-and-writer monad, the ORM tables are lists of
    rows and the querysets are list filters over them. *)

From Stdlib Require Import ZArith.
From stdpp Require Import base option list strings pretty gmap sets.

Local Open Scope Z_scope.

(** ** Python values, exceptions and the logging effect *)

Module Py.

(** The values a [resource_id] or a view attribute can hold. *)
Inductive PyVal : Type :=
| PyNone
| PyInt (n : Z)
| PyStr (s : string).

#[global] Instance PyVal_eq_dec : EqDecision PyVal.
Proof. solve_decision. Defined.

(** [bool(v)]: [None], [0] and the empty string are falsy. *)
Definition truthy (v : PyVal) : bool :=
  match v with
  | PyNone => false
  | PyInt n => negb (n =? 0)
  | PyStr s => negb (bool_decide (s = ""))
  end.

(** [str(v)]. *)
Definition str (v : PyVal) : string :=
  match v with
  | PyNone => "None"
  | PyInt n => pretty n
  | PyStr s => s
  end.

Inductive PyExn : Type :=
| AttributeError (type_name attr : string)
| NameError (name : string)
| ValueError (message : string)
| DoesNotExist (model : string)
| MultipleObjectsReturned (model : string).

#[global] Instance PyExn_eq_dec : EqDecision PyExn.
Proof. solve_decision. Defined.

Inductive outcome (A : Type) : Type :=
| Return (a : A)
| Raise (e : PyExn).
Arguments Return {A} a.
Arguments Raise {A} e.

Inductive LogLevel : Type := WARNING.

Record LogRecord : Type := mkLog { levelname : LogLevel; msg : string }.

(** A computation ends in a value or an exception and leaves the records
    it handed to the module's logger. *)
Definition Eff (A : Type) : Type := outcome A * list LogRecord.

Definition ret {A} (a : A) : Eff A := (Return a, []).

Definition raise {A} (e : PyExn) : Eff A := (Raise e, []).

Definition bind {A B} (c : Eff A) (k : A -> Eff B) : Eff B :=
  match c with
  | (Return a, l) => let '(o, l') := k a in (o, l ++ l')
  | (Raise e, l) => (Raise e, l)
  end.

(** [try: c  except E: h] where [handles] recognises the class [E]. *)
Definition try_except {A} (c : Eff A) (handles : PyExn -> bool) (h : Eff A)
  : Eff A :=
  match c with
  | (Raise e, l) => if handles e then let '(o, l') := h in (o, l ++ l')
                    else (Raise e, l)
  | r => r
  end.

(** [logger.warning(m)]. *)
Definition warning (m : string) : Eff unit :=
  (Return tt, [mkLog WARNING m]).

(** A name that a function body reads but never assigns is looked up in
    the globals of its module when the line runs; an unbound name raises
    [NameError]. Only string-valued globals matter to the engine. *)
Definition load_global (globals : gmap string string) (name : string)
  : Eff string :=
  match globals !! name with
  | Some v => ret v
  | None => raise (NameError name)
  end.

Definition value {A} (c : Eff A) : outcome A := fst c.
Definition records {A} (c : Eff A) : list LogRecord := snd c.

End Py.
Export Py.

Notation "x <- c ;; k" := (Py.bind c (fun x => k))
  (at level 100, c at next level, right associativity).

(** ** The data model ([accounts/models.py], [permissions_system/models.py]) *)

Module Models.

(** [accounts.models.User]; [pk] is [None] until the instance is saved. *)
Record User : Type := mkUser {
  pk : option Z;
  email : string;
  is_superuser : bool;
  is_active : bool;
  is_staff : bool
}.

Record Permission : Type := mkPermission {
  permission_id : Z;
  code : string;
  perm_resource_type : string;
  perm_action : string
}.

Record Role : Type := mkRole { role_pk : Z; role_name : string }.

Record UserRole : Type := mkUserRole {
  ur_user : Z;
  ur_role : Z;
  ur_assigned_by : option Z
}.

Record RolePermission : Type := mkRolePermission {
  rp_role : Z;
  rp_permission : Z;
  rp_granted_by : option Z
}.

Record UserPermission : Type := mkUserPermission {
  up_id : Z;
  up_user : Z;
  up_permission : Z;
  up_is_granted : bool;
  up_granted_at : Z;
  up_granted_by : option Z
}.

Record ResourcePermission : Type := mkResourcePermission {
  res_user : Z;
  res_resource_type : string;
  res_resource_id : string;
  res_permission : Z;
  res_is_granted : bool;
  res_granted_by : option Z
}.

(** The tables the engine and the administrative views query. *)
Record DB : Type := mkDB {
  users : list User;
  permissions : list Permission;
  roles : list Role;
  user_roles : list UserRole;
  role_permissions : list RolePermission;
  user_permissions : list UserPermission;
  resource_permissions : list ResourcePermission
}.

(** [Model.objects.get(...)] over the rows a filter kept: exactly one row
    is returned, none raises [DoesNotExist], several raise
    [MultipleObjectsReturned]. *)
Definition objects_get {A} (model : string) (matching : list A) : Eff A :=
  match matching with
  | [] => raise (DoesNotExist model)
  | [r] => ret r
  | _ :: _ :: _ => raise (MultipleObjectsReturned model)
  end.

Definition is_DoesNotExist (model : string) (e : PyExn) : bool :=
  bool_decide (e = DoesNotExist model).

(** The join [permission__code]: the code of the permission row a foreign
    key points to. *)
Definition permission__code (db : DB) (fk : Z) : option string :=
  code <$> head (filter (fun p => permission_id p = fk) (permissions db)).


End Models.
Export Models.

(** ** The decision engine ([permissions_system/services.py]) *)

Module PermissionService.

Section Engine.

(** The global scope of the module the functions are defined in, and the
    database the querysets run against. *)
Variable globals : gmap string string.
Variable db : DB.

(** [_check_resource_permission]: [True]/[False] from the row,
    [None] when there is no row. The lookup is that of a user with a key:
    Django refuses an unsaved instance in [get(user=user, ...)] with
    [ValueError], which the definition leaves out, so statements about
    the answer are made for users with [pk u <> None]. *)
Definition _check_resource_permission
    (user : User) (permission_code resource_type : string)
    (resource_id : PyVal) : Eff (option bool) :=
  try_except
    (resource_perm <- objects_get "ResourcePermission"
       (filter (fun r => Some (res_user r) = pk user
                         /\ res_resource_type r = resource_type
                         /\ res_resource_id r = str resource_id
                         /\ permission__code db (res_permission r)
                            = Some permission_code)
               (resource_permissions db)) ;;
     ret (Some (res_is_granted resource_perm)))
    (is_DoesNotExist "ResourcePermission")
    (ret None).

(** [_check_user_permission], for a user with a key as above. *)
Definition _check_user_permission
    (user : User) (permission_code : string) : Eff (option bool) :=
  try_except
    (user_perm <- objects_get "UserPermission"
       (filter (fun r => Some (up_user r) = pk user
                         /\ permission__code db (up_permission r)
                            = Some permission_code)
               (user_permissions db)) ;;
     ret (Some (up_is_granted user_perm)))
    (is_DoesNotExist "UserPermission")
    (ret None).

(** [UserRole.objects.filter(user=user).values_list('role_id', flat=True)] *)
Definition user_role_ids (user : User) : list Z :=
  ur_role <$> filter (fun r => Some (ur_user r) = pk user) (user_roles db).

(** [_check_role_permission]. *)
Definition _check_role_permission
    (user : User) (permission_code : string) : bool :=
  let ids := user_role_ids user in
  if bool_decide (ids = []) then false
  else
    bool_decide
      (filter (fun r => rp_role r ∈ ids
                        /\ permission__code db (rp_permission r)
                           = Some permission_code)
              (role_permissions db) <> []).

(** [check_permission]. The body reads the name [permission_code]
    without ever assigning it, so each read is a lookup in [globals]. *)
Definition check_permission
    (user : option User) (resource_type action : string)
    (resource_id : PyVal) : Eff bool :=
  match user with
  | None => raise (AttributeError "NoneType" "is_superuser")
  | Some u =>
    if is_superuser u then ret true
    else if negb (is_active u) then ret false
    else
      let lower_layers : Eff bool :=
        permission_code <- load_global globals "permission_code" ;;
        user_perm <- _check_user_permission u permission_code ;;
        match user_perm with
        | Some granted => ret granted
        | None =>
          permission_code <- load_global globals "permission_code" ;;
          let has_role_perm := _check_role_permission u permission_code in
          done_logging <-
            (if negb has_role_perm then
               permission_code <- load_global globals "permission_code" ;;
               warning ("Доступ запрещен для " +:+ email u +:+ ": "
                        +:+ permission_code)
             else ret tt) ;;
          ret has_role_perm
        end in
      if truthy resource_id then
        permission_code <- load_global globals "permission_code" ;;
        resource_perm <- _check_resource_permission
                           u permission_code resource_type resource_id ;;
        match resource_perm with
        | Some granted => ret granted
        | None => lower_layers
        end
      else lower_layers
  end.

(** The querysets of [get_user_permissions]: the codes of the roles held,
    and the codes of the direct rows with a given [is_granted]. *)
Definition role_permission_codes (user : User) : list string :=
  omap (fun r => permission__code db (rp_permission r))
       (filter (fun r => rp_role r ∈ user_role_ids user)
               (role_permissions db)).

Definition user_permission_codes (user : User) (granted : bool)
  : list string :=
  omap (fun r => permission__code db (up_permission r))
       (filter (fun r => Some (up_user r) = pk user
                         /\ up_is_granted r = granted)
               (user_permissions db)).

(** [get_user_permissions]: the list made from the set [permissions].
    The two early returns do not look at the key; the querysets after
    them are those of a user with a key (an unsaved instance makes
    [filter(user=user)] raise [ValueError], which a list cannot show). *)
Definition get_user_permissions (user : User) : list string :=
  if is_superuser user then ["*.*"]
  else if negb (is_active user) then []
  else
    let permissions : gset string := ∅ in
    let permissions := permissions ∪ list_to_set (role_permission_codes user) in
    let permissions := permissions ∪ list_to_set (user_permission_codes user true) in
    let permissions := permissions ∖ list_to_set (user_permission_codes user false) in
    elements permissions.

End Engine.

(** What [services.py] binds at module level: the imports, [logger], the
    class and the two helper functions are not strings; of the string
    names only [__name__] is read (by [logging.getLogger]). *)
Definition services_globals : gmap string string :=
  {[ "__name__" := "permissions_system.services" ]}.

End PermissionService.
Export PermissionService.

(** ** The policy gate ([permissions_system/permissions.py]) *)

Module HasResourcePermission.

(** [request.user]: nothing, Django's [AnonymousUser], or a logged-in
    [User] (the only one whose [is_authenticated] is true). *)
Inductive RequestUser : Type :=
| NoUser
| AnonymousUser
| Authenticated (u : User).

Record Request : Type := mkRequest { request_user : RequestUser }.

(** The attributes the gate reads off the view with
    [getattr(view, name, None)], and off the object. *)
Record View : Type := mkView {
  view_resource_type : option string;
  view_action : option string
}.

Record Obj : Type := mkObj { obj_id : PyVal; obj_pk : PyVal }.

Definition action_map : gmap string string :=
  {[ "list" := "read";
     "retrieve" := "read";
     "create" := "create";
     "update" := "update";
     "partial_update" := "update";
     "destroy" := "delete" ]}.

(** [action_map.get(action, action)] *)
Definition mapped_action (action : string) : string :=
  default action (action_map !! action).

(** [not x] for an attribute that is a string or missing. *)
Definition not_ (x : option string) : bool :=
  match x with
  | None => true
  | Some s => bool_decide (s = "")
  end.

Definition is_authenticated (ru : RequestUser) : bool :=
  match ru with Authenticated _ => true | _ => false end.

(** The user object handed on to the engine. [AnonymousUser] carries
    [is_superuser = is_active = False] and no key. *)
Definition principal (ru : RequestUser) : option User :=
  match ru with
  | NoUser => None
  | AnonymousUser => Some (mkUser None "" false false false)
  | Authenticated u => Some u
  end.

Section Gate.

Variable globals : gmap string string.
Variable db : DB.

Definition has_permission (request : Request) (view : View) : Eff bool :=
  if negb (is_authenticated (request_user request)) then ret false
  else
    let resource_type := view_resource_type view in
    let action := view_action view in
    match resource_type, action with
    | Some rt, Some a =>
      if not_ resource_type || not_ action then ret true
      else
        check_permission globals db (principal (request_user request))
                         rt (mapped_action a) PyNone
    | _, _ => ret true
    end.

(** [x or y] on Python values. *)
Definition or_ (x y : PyVal) : PyVal := if truthy x then x else y.

Definition has_object_permission
    (request : Request) (view : View) (obj : Obj) : Eff bool :=
  let resource_type := view_resource_type view in
  let action := view_action view in
  match resource_type, action with
  | Some rt, Some a =>
    if not_ resource_type || not_ action then ret true
    else
      let resource_id := or_ (obj_id obj) (obj_pk obj) in
      check_permission globals db (principal (request_user request))
                       rt (mapped_action a) resource_id
  | _, _ => ret true
  end.

End Gate.

End HasResourcePermission.
Export HasResourcePermission.

(** ** The administrative upsert ([permissions_system/views.py]) *)

Module Views.

(** What [GrantPermissionSerializer] finds for a declared field in
    [request.data]: nothing, something the field type rejects, or a
    value. *)
Inductive Field (A : Type) : Type :=
| Missing
| Invalid
| Valid (a : A).
Arguments Missing {A}.
Arguments Invalid {A}.
Arguments Valid {A} a.

(** The request as the view body sees it, after [IsAuthenticated] and
    [IsAdminUser] have admitted it: [request.user] is a logged-in user. *)
Record Request : Type := mkRequest {
  user : User;
  data_permission_id : Field Z;
  data_is_granted : Field bool
}.

Inductive Body : Type :=
| error (text : string)
| message (text : string)
| serializer_errors.

Record Response : Type := mkResponse { body : Body; status : Z }.

Definition HTTP_200_OK : Z := 200.
Definition HTTP_201_CREATED : Z := 201.
Definition HTTP_400_BAD_REQUEST : Z := 400.
Definition HTTP_404_NOT_FOUND : Z := 404.

(** [GrantPermissionSerializer]: [permission_id] is required,
    [is_granted] defaults to [True]. [None] when [is_valid()] fails. *)
Definition validated_data (request : Request) : option (Z * bool) :=
  match data_permission_id request, data_is_granted request with
  | Valid permission_id, Valid is_granted => Some (permission_id, is_granted)
  | Valid permission_id, Missing => Some (permission_id, true)
  | _, _ => None
  end.

(** The key the database gives a new row: above every key in use. *)
Definition next_id (table : list UserPermission) : Z :=
  1 + foldr Z.max 0 (up_id <$> table).

(** [obj.save()] on a fetched instance: the row under its key is replaced. *)
Definition save (obj : UserPermission) (table : list UserPermission)
  : list UserPermission :=
  (fun r => if decide (up_id r = up_id obj) then obj else r) <$> table.

(** [UserPermission.objects.update_or_create(user=, permission=,
    defaults={is_granted, granted_by})]: the matching row is fetched with
    [get]; a missing row is created from the lookup and the defaults, a
    found one has the defaults assigned and is saved under its key. *)
Definition update_or_create (now : Z) (table : list UserPermission)
    (user : User) (permission : Permission)
    (is_granted : bool) (granted_by : User)
  : Eff (UserPermission * bool * list UserPermission) :=
  found <- try_except
    (obj <- objects_get "UserPermission"
       (filter (fun r => Some (up_user r) = pk user
                         /\ up_permission r = permission_id permission)
               table) ;;
     ret (Some obj))
    (is_DoesNotExist "UserPermission")
    (ret None) ;;
  match found with
  | None =>
    match pk user with
    | None => raise (ValueError "unsaved related object 'user'")
    | Some user_id =>
      let obj := mkUserPermission (next_id table) user_id
                   (permission_id permission) is_granted now
                   (pk granted_by) in
      ret (obj, true, table ++ [obj])
    end
  | Some old =>
    let obj := mkUserPermission (up_id old) (up_user old) (up_permission old)
                 is_granted (up_granted_at old) (pk granted_by) in
    ret (obj, false, save obj table)
  end.

Definition set_user_permissions (db : DB) (table : list UserPermission)
  : DB :=
  mkDB (users db) (permissions db) (roles db) (user_roles db)
       (role_permissions db) table (resource_permissions db).

(** [grant_permission_to_user]: the response and the database it leaves. *)
Definition grant_permission_to_user
    (now : Z) (db : DB) (request : Request) (user_id : Z)
  : Eff (Response * DB) :=
  found_user <- try_except
    (u <- objects_get "User"
       (filter (fun u => pk u = Some user_id) (users db)) ;;
     ret (Some u))
    (is_DoesNotExist "User")
    (ret None) ;;
  match found_user with
  | None => ret (mkResponse (error "Пользователь не найден")
                            HTTP_404_NOT_FOUND, db)
  | Some target =>
    match validated_data request with
    | None => ret (mkResponse serializer_errors HTTP_400_BAD_REQUEST, db)
    | Some (permission_id, is_granted) =>
      found_permission <- try_except
        (p <- objects_get "Permission"
           (filter (fun p => Models.permission_id p = permission_id)
                   (permissions db)) ;;
         ret (Some p))
        (is_DoesNotExist "Permission")
        (ret None) ;;
      match found_permission with
      | None => ret (mkResponse (error "Разрешение не найдено")
                                HTTP_404_NOT_FOUND, db)
      | Some permission =>
        upserted <- update_or_create now (user_permissions db) target
                      permission is_granted (user request) ;;
        let '(user_perm, created, table) := upserted in
        let action_text := if is_granted then "выдано" else "запрещено" in
        let status_code :=
          if created then HTTP_201_CREATED else HTTP_200_OK in
        ret (mkResponse
               (message ("Разрешение " +:+ code permission +:+ " "
                         +:+ action_text +:+ " для пользователя "
                         +:+ email target))
               status_code,
             set_user_permissions db table)
      end
    end
  end.

End Views.

(** ** Concrete stores

    The catalogue and the roles that [seed_data.py] loads, with the users
    and override rows of the scenarios the engine is exercised on. *)

Module Scenario.

Definition catalog : list Permission :=
  [ mkPermission 1 "document.read" "document" "read";
    mkPermission 2 "document.create" "document" "create";
    mkPermission 3 "document.update" "document" "update";
    mkPermission 4 "document.delete" "document" "delete";
    mkPermission 5 "project.read" "project" "read";
    mkPermission 6 "project.create" "project" "create";
    mkPermission 7 "project.update" "project" "update";
    mkPermission 8 "project.delete" "project" "delete";
    mkPermission 9 "admin.access" "admin" "access" ].

Definition seeded_roles : list Role :=
  [ mkRole 1 "admin"; mkRole 2 "manager"; mkRole 3 "editor";
    mkRole 4 "viewer" ].

(** The links of the roles [editor] (3) and [viewer] (4). *)
Definition seeded_role_permissions : list RolePermission :=
  [ mkRolePermission 3 2 None; mkRolePermission 3 3 None;
    mkRolePermission 3 6 None;
    mkRolePermission 4 1 None; mkRolePermission 4 5 None ].

Definition root : User := mkUser (Some 1) "admin@test.com" true true true.
Definition viewer : User := mkUser (Some 4) "viewer@test.com" false true false.
Definition retired : User := mkUser (Some 5) "retired@test.com" false false false.

Definition auditor : User := mkUser (Some 6) "auditor@test.com" true true true.

Definition accounts : list User := [root; viewer; retired; auditor].

(** A superuser instance that was never saved: it has no key. *)
Definition unsaved_root : User := mkUser None "new@test.com" true true true.

(** [viewer] holds the role [viewer] only. *)
Definition seeded : DB :=
  mkDB accounts catalog seeded_roles
       [mkUserRole 4 4 None] seeded_role_permissions [] [].

(** On top of the role: a direct grant of [document.read] to [viewer], and
    a denial of it on document 7. *)
Definition layered : DB :=
  mkDB accounts catalog seeded_roles
       [mkUserRole 4 4 None] seeded_role_permissions
       [mkUserPermission 1 4 1 true 100 (Some 1)]
       [mkResourcePermission 4 "document" "7" 1 false (Some 1)].

(** [viewer] holds [editor] as well, is directly granted [admin.access]
    and directly denied [document.read]. *)
Definition two_roles : DB :=
  mkDB accounts catalog seeded_roles
       [mkUserRole 4 4 None; mkUserRole 4 3 None] seeded_role_permissions
       [mkUserPermission 1 4 9 true 100 (Some 1);
        mkUserPermission 2 4 1 false 101 (Some 1)]
       [].

(** An inactive account that was never saved. *)
Definition unsaved_retired : User := mkUser None "old@test.com" false false false.

(** [root] is denied [document.read] directly and on document 7. *)
Definition root_denied : DB :=
  mkDB accounts catalog seeded_roles
       [mkUserRole 4 4 None] seeded_role_permissions
       [mkUserPermission 1 1 1 false 100 (Some 1)]
       [mkResourcePermission 1 "document" "7" 1 false (Some 1)].

(** [retired] holds [viewer] and is granted [document.read] directly and
    on document 7. *)
Definition retired_granted : DB :=
  mkDB accounts catalog seeded_roles
       [mkUserRole 5 4 None] seeded_role_permissions
       [mkUserPermission 1 5 1 true 100 (Some 1)]
       [mkResourcePermission 5 "document" "7" 1 true (Some 1)].

(** A module scope in which the name [permission_code] is bound, as the
    engine's body expects it to be when it runs. *)
Definition bound_to (permission_code : string) : gmap string string :=
  <["permission_code" := permission_code]> services_globals.

End Scenario.

(** ** Vocabulary of the statements *)

(** A principal that is null or carries no ID. *)
Definition malformed (user : option User) : Prop :=
  match user with
  | None => True
  | Some u => pk u = None
  end.

(** A call that ends in an exception instead of a decision. *)
Definition rejected {A} (c : Eff A) : Prop := exists e, value c = Raise e.

(** The effective permissions in the words of the specification: a code
    comes with a role when the principal holds a role that carries it ... *)
Definition role_derived (db : DB) (u : User) (c : string) : Prop :=
  exists ur rp,
    ur ∈ user_roles db /\ Some (ur_user ur) = pk u
    /\ rp ∈ role_permissions db /\ rp_role rp = ur_role ur
    /\ permission__code db (rp_permission rp) = Some c.

(** ... and is overridden when a [UserPermission] row of the principal
    carries it with the given [is_granted]. *)
Definition overridden (db : DB) (u : User) (granted : bool) (c : string)
  : Prop :=
  exists r,
    r ∈ user_permissions db /\ Some (up_user r) = pk u
    /\ up_is_granted r = granted
    /\ permission__code db (up_permission r) = Some c.

(** The [UserPermission] rows of one (user, permission) pair. *)
Definition rows_for (table : list UserPermission) (user_id permission_id : Z)
  : list UserPermission :=
  filter (fun r => up_user r = user_id /\ up_permission r = permission_id)
         table.

(** What the database enforces on the [UserPermission] table: distinct
    primary keys, and [unique_together = ['user', 'permission']]. *)
Definition primary_key (table : list UserPermission) : Prop :=
  NoDup (up_id <$> table).

Definition unique_together (table : list UserPermission) : Prop :=
  forall user_id permission_id,
    (length (rows_for table user_id permission_id) <= 1)%nat.


(** ** The rest of [services.py] *)

Module Services.

(** What a view wrapped by [require_permission] ends in: the exception
    [rest_framework.exceptions.PermissionDenied] that the wrapper raises,
    or the value the view returned. *)
Inductive Guarded (A : Type) : Type :=
| PermissionDenied (detail : string)
| Returned (a : A).
Arguments PermissionDenied {A} detail.
Arguments Returned {A} a.

(** [kwargs.get(key)] *)
Definition kwargs_get (kwargs : gmap string PyVal) (key : string) : PyVal :=
  default PyNone (kwargs !! key).

Section Helpers.

Variable globals : gmap string string.
Variable db : DB.

(** [get_user_roles]: the [UserRole] rows of the user. *)
Definition get_user_roles (user : User) : list UserRole :=
  filter (fun r => Some (ur_user r) = pk user) (user_roles db).

(** The module-level [has_permission]. *)
Definition has_permission (user : option User)
    (resource_type action : string) (resource_id : PyVal) : Eff bool :=
  check_permission globals db user resource_type action resource_id.

(** [require_permission(resource_type, action)(func)] called on a request
    and the keyword arguments of the route. *)
Definition require_permission {A} (resource_type action : string)
    (func : Request -> gmap string PyVal -> Eff A)
    (request : Request) (kwargs : gmap string PyVal) : Eff (Guarded A) :=
  let resource_id := or_ (kwargs_get kwargs "pk") (kwargs_get kwargs "id") in
  allowed <- has_permission (principal (request_user request))
                            resource_type action resource_id ;;
  if negb allowed then
    ret (PermissionDenied ("У вас нет разрешения " +:+ resource_type
                           +:+ "." +:+ action))
  else
    result <- func request kwargs ;;
    ret (Returned result).

End Helpers.

End Services.

(** ** The other permission classes of [permissions.py] *)

Module IsAuthenticated.

(** [bool(request.user and request.user.is_authenticated)] *)
Definition has_permission (request : Request) : bool :=
  is_authenticated (request_user request).

End IsAuthenticated.

Module IsAdminUser.

Definition has_permission (globals : gmap string string) (db : DB)
    (request : Request) : Eff bool :=
  match request_user request with
  | Authenticated u =>
    if is_superuser u then ret true
    else check_permission globals db (Some u) "admin" "access" PyNone
  | _ => ret false
  end.

End IsAdminUser.

Module IsOwnerOrAdmin.

(** The three attributes the class looks for on the object; [None] when
    [hasattr] is false. *)
Record Owned : Type := mkOwned {
  owned_user : option User;
  owned_owner : option User;
  owned_created_by : option User
}.

(** [a == b] on two model instances: the keys are equal. An instance
    without a key equals only itself; it is no other operand that has a
    key. *)
Definition model_eq (a b : User) : bool :=
  match pk a with
  | Some k => bool_decide (pk b = Some k)
  | None => false
  end.

Definition has_object_permission (request : Request) (obj : Owned) : bool :=
  match request_user request with
  | Authenticated u =>
    if is_superuser u then true
    else
      match owned_user obj with
      | Some holder => model_eq holder u
      | None =>
        match owned_owner obj with
        | Some holder => model_eq holder u
        | None =>
          match owned_created_by obj with
          | Some holder => model_eq holder u
          | None => false
          end
        end
      end
  | _ => false
  end.

End IsOwnerOrAdmin.

(** ** The other administrative views of [views.py] *)

Module Administration.

(** A request whose body went through [AssignRoleSerializer]. *)
Record RoleRequest : Type := mkRoleRequest {
  role_admin : User;
  data_role_id : Views.Field Z
}.

(** A request whose body is read with [request.data.get]. *)
Record DataRequest : Type := mkDataRequest {
  data_admin : User;
  data : gmap string PyVal
}.

(** [AssignRoleSerializer]: [role_id] is required. *)
Definition validated_role_id (request : RoleRequest) : option Z :=
  match data_role_id request with
  | Views.Valid role_id => Some role_id
  | _ => None
  end.

Definition set_user_roles (db : DB) (table : list UserRole) : DB :=
  mkDB (users db) (permissions db) (roles db) table
       (role_permissions db) (user_permissions db) (resource_permissions db).

Definition set_role_permissions (db : DB) (table : list RolePermission)
  : DB :=
  mkDB (users db) (permissions db) (roles db) (user_roles db)
       table (user_permissions db) (resource_permissions db).

Definition response (body : Views.Body) (status : Z) : Views.Response :=
  Views.mkResponse body status.

(** [User.objects.get(id=user_id)] guarded by [except User.DoesNotExist]. *)
Definition find_user (db : DB) (user_id : Z) : Eff (option User) :=
  try_except
    (u <- objects_get "User"
       (filter (fun u => pk u = Some user_id) (users db)) ;;
     ret (Some u))
    (is_DoesNotExist "User")
    (ret None).

(** [assign_role_to_user] *)
Definition assign_role_to_user (db : DB) (request : RoleRequest)
    (user_id : Z) : Eff (Views.Response * DB) :=
  found_user <- find_user db user_id ;;
  match found_user with
  | None => ret (response (Views.error "Пользователь не найден")
                          Views.HTTP_404_NOT_FOUND, db)
  | Some target =>
    match validated_role_id request with
    | None => ret (response Views.serializer_errors
                            Views.HTTP_400_BAD_REQUEST, db)
    | Some role_id =>
      found_role <- try_except
        (r <- objects_get "Role"
           (filter (fun r => role_pk r = role_id) (roles db)) ;;
         ret (Some r))
        (is_DoesNotExist "Role")
        (ret None) ;;
      match found_role with
      | None => ret (response (Views.error "Роль не найдена")
                              Views.HTTP_404_NOT_FOUND, db)
      | Some role =>
        if bool_decide
             (filter (fun r => Some (ur_user r) = pk target
                               /\ ur_role r = role_pk role)
                     (user_roles db) <> [])
        then ret (response
                    (Views.error "Роль уже назначена этому пользователю")
                    Views.HTTP_400_BAD_REQUEST, db)
        else
          match pk target with
          | None => raise (ValueError "unsaved related object 'user'")
          | Some target_id =>
            let link := mkUserRole target_id (role_pk role)
                                   (pk (role_admin request)) in
            ret (response
                   (Views.message ("Роль " +:+ role_name role
                                   +:+ " назначена пользователю "
                                   +:+ email target))
                   Views.HTTP_201_CREATED,
                 set_user_roles db (user_roles db ++ [link]))
          end
      end
    end
  end.

(** [revoke_role_from_user]. The row that [get] returned is the only one
    of its (user, role) pair, so deleting it removes the pair's rows. *)
Definition revoke_role_from_user (db : DB) (request : RoleRequest)
    (user_id : Z) : Eff (Views.Response * DB) :=
  found_user <- find_user db user_id ;;
  match found_user with
  | None => ret (response (Views.error "Пользователь не найден")
                          Views.HTTP_404_NOT_FOUND, db)
  | Some target =>
    match validated_role_id request with
    | None => ret (response Views.serializer_errors
                            Views.HTTP_400_BAD_REQUEST, db)
    | Some role_id =>
      try_except
        (user_role <- objects_get "UserRole"
           (filter (fun r => Some (ur_user r) = pk target
                             /\ ur_role r = role_id)
                   (user_roles db)) ;;
         ret (response (Views.message "Роль отозвана у пользователя")
                       Views.HTTP_200_OK,
              set_user_roles db
                (filter (fun r => ~ (Some (ur_user r) = pk target
                                     /\ ur_role r = role_id))
                        (user_roles db))))
        (is_DoesNotExist "UserRole")
        (ret (response (Views.error "У пользователя нет этой роли")
                       Views.HTTP_404_NOT_FOUND, db))
    end
  end.

Section RawKeys.

(** Python's [int] on a string, which the ORM applies to a key given as
    text; [None] where [int] raises. *)
Variable int_ : string -> option Z.

(** The value a lookup [..._id=value] compares the key column with. A
    number beyond the integer range of the database backend, for which
    the backend raises [OverflowError], is outside the model. *)
Definition key_of (value : PyVal) : Eff (option Z) :=
  match value with
  | PyNone => ret None
  | PyInt n => ret (Some n)
  | PyStr s =>
    match int_ s with
    | Some n => ret (Some n)
    | None => raise (ValueError ("Field 'id' expected a number but got '"
                                 +:+ s +:+ "'."))
    end
  end.

(** [request.data.get('permission_id')] *)
Definition data_permission_id (request : DataRequest) : PyVal :=
  default PyNone (data request !! "permission_id").

(** [revoke_permission_from_user] *)
Definition revoke_permission_from_user (db : DB) (request : DataRequest)
    (user_id : Z) : Eff (Views.Response * DB) :=
  found_user <- find_user db user_id ;;
  match found_user with
  | None => ret (response (Views.error "Пользователь не найден")
                          Views.HTTP_404_NOT_FOUND, db)
  | Some target =>
    let permission_id := data_permission_id request in
    if negb (truthy permission_id) then
      ret (response (Views.error "Требуется permission_id")
                    Views.HTTP_400_BAD_REQUEST, db)
    else
      try_except
        (key <- key_of permission_id ;;
         user_perm <- objects_get "UserPermission"
           (filter (fun r => Some (up_user r) = pk target
                             /\ Some (up_permission r) = key)
                   (user_permissions db)) ;;
         ret (response
                (Views.message "Разрешение отозвано у пользователя")
                Views.HTTP_200_OK,
              Views.set_user_permissions db
                (filter (fun r => up_id r <> up_id user_perm)
                        (user_permissions db))))
        (is_DoesNotExist "UserPermission")
        (ret (response (Views.error "У пользователя нет этого разрешения")
                       Views.HTTP_404_NOT_FOUND, db))
  end.

(** [RoleViewSet.add_permission], on the role that [get_object] found. *)
Definition add_permission (db : DB) (request : DataRequest) (role : Role)
  : Eff (Views.Response * DB) :=
  let permission_id := data_permission_id request in
  if negb (truthy permission_id) then
    ret (response (Views.error "Требуется permission_id")
                  Views.HTTP_400_BAD_REQUEST, db)
  else
    found <- try_except
      (key <- key_of permission_id ;;
       p <- objects_get "Permission"
         (filter (fun p => Some (Models.permission_id p) = key)
                 (permissions db)) ;;
       ret (Some p))
      (is_DoesNotExist "Permission")
      (ret None) ;;
    match found with
    | None => ret (response (Views.error "Разрешение не найдено")
                            Views.HTTP_404_NOT_FOUND, db)
    | Some permission =>
      if bool_decide
           (filter (fun r => rp_role r = role_pk role
                             /\ rp_permission r
                                = Models.permission_id permission)
                   (role_permissions db) <> [])
      then ret (response
                  (Views.error "Разрешение уже добавлено к этой роли")
                  Views.HTTP_400_BAD_REQUEST, db)
      else
        let link := mkRolePermission (role_pk role)
                      (Models.permission_id permission)
                      (pk (data_admin request)) in
        ret (response
               (Views.message ("Разрешение " +:+ code permission
                               +:+ " добавлено к роли " +:+ role_name role))
               Views.HTTP_201_CREATED,
             set_role_permissions db (role_permissions db ++ [link]))
    end.

(** [RoleViewSet.remove_permission], on the role that [get_object] found. *)
Definition remove_permission (db : DB) (request : DataRequest) (role : Role)
  : Eff (Views.Response * DB) :=
  let permission_id := data_permission_id request in
  if negb (truthy permission_id) then
    ret (response (Views.error "Требуется permission_id")
                  Views.HTTP_400_BAD_REQUEST, db)
  else
    try_except
      (key <- key_of permission_id ;;
       role_perm <- objects_get "RolePermission"
         (filter (fun r => rp_role r = role_pk role
                           /\ Some (rp_permission r) = key)
                 (role_permissions db)) ;;
       ret (response (Views.message "Разрешение удалено из роли")
                     Views.HTTP_200_OK,
            set_role_permissions db
              (filter (fun r => ~ (rp_role r = role_pk role
                                   /\ Some (rp_permission r) = key))
                      (role_permissions db))))
      (is_DoesNotExist "RolePermission")
      (ret (response (Views.error "Разрешение не найдено в этой роли")
                     Views.HTTP_404_NOT_FOUND, db)).

End RawKeys.

End Administration.

(** ** Accounts ([accounts/models.py], [accounts/views.py]) *)

Module Accounts.

(** A user object with the name columns that only the account code
    reads. *)
Record Profile : Type := mkProfile {
  account : User;
  first_name : string;
  middle_name : string;
  last_name : string
}.

(** [sep.join(parts)] *)
Definition join (sep : string) (parts : list string) : string :=
  match parts with
  | [] => ""
  | first :: rest => foldl (fun acc part => acc +:+ sep +:+ part) first rest
  end.

(** [User.get_full_name] *)
Definition get_full_name (self : Profile) : string :=
  let full_name :=
    join " " (filter (fun part => part <> "")
                     [last_name self; first_name self; middle_name self]) in
  if bool_decide (full_name = "") then email (account self) else full_name.

(** [User.get_short_name] *)
Definition get_short_name (self : Profile) : string :=
  if bool_decide (first_name self = "") then email (account self)
  else first_name self.

(** What a write to the database ends in: one of the two database errors
    of [django.db], or the value of the call. *)
Inductive Saved (A : Type) : Type :=
| DatabaseError (message : string)
| IntegrityError (message : string)
| Stored (a : A).
Arguments DatabaseError {A} message.
Arguments IntegrityError {A} message.
Arguments Stored {A} a.

Definition set_users (db : DB) (table : list User) : DB :=
  mkDB table (permissions db) (roles db) (user_roles db)
       (role_permissions db) (user_permissions db) (resource_permissions db).

Definition deactivated (u : User) : User :=
  mkUser (pk u) (email u) (is_superuser u) false (is_staff u).

(** [User.soft_delete]: [is_active] is cleared on the instance and
    [save(update_fields=['is_active', 'updated_at'])] updates that column
    of the row with the instance's key. *)
Definition soft_delete (db : DB) (self : User) : Eff (Saved (User * DB)) :=
  let self := deactivated self in
  match pk self with
  | None =>
    raise (ValueError "Cannot force an update in save() with no primary key.")
  | Some key =>
    if bool_decide (filter (fun r => pk r = Some key) (users db) = [])
    then ret (DatabaseError "Save with update_fields did not affect any rows.")
    else
      ret (Stored
             (self,
              set_users db
                ((fun r => if decide (pk r = Some key) then deactivated r
                           else r) <$> users db)))
  end.

(** [delete_account_view], for the logged-in user of the request. *)
Definition delete_account_view (db : DB) (request_user : User)
  : Eff (Saved (Views.Response * DB)) :=
  deleted <- soft_delete db request_user ;;
  match deleted with
  | Stored (_, db') =>
    ret (Stored (Views.mkResponse (Views.message "Аккаунт успешно удален")
                                  Views.HTTP_200_OK, db'))
  | DatabaseError m => ret (DatabaseError m)
  | IntegrityError m => ret (IntegrityError m)
  end.

Definition HTTP_401_UNAUTHORIZED : Z := 401.

Inductive LoginBody : Type :=
| login_errors
| login_error (text : string)
| tokens (access refresh : string) (user : User).

Record LoginResponse : Type := mkLoginResponse {
  login_body : LoginBody;
  login_status : Z
}.

(** The body of a login request as [UserLoginSerializer] finds it. *)
Record LoginRequest : Type := mkLoginRequest {
  data_email : Views.Field string;
  data_password : Views.Field string
}.

(** [UserLoginSerializer]: both fields are required. *)
Definition validated_login (request : LoginRequest)
  : option (string * string) :=
  match data_email request, data_password request with
  | Views.Valid e, Views.Valid p => Some (e, p)
  | _, _ => None
  end.

Section Auth.

(** The hasher behind [user.check_password] and the token factory
    [RefreshToken.for_user] (access token, refresh token). *)
Variable check_password : User -> string -> bool.
Variable for_user : User -> string * string.

(** [login_view] *)
Definition login_view (db : DB) (request : LoginRequest)
  : Eff LoginResponse :=
  match validated_login request with
  | None => ret (mkLoginResponse login_errors Views.HTTP_400_BAD_REQUEST)
  | Some (email_, password) =>
    found <- try_except
      (u <- objects_get "User"
         (filter (fun u => email u = email_) (users db)) ;;
       ret (Some u))
      (is_DoesNotExist "User")
      (ret None) ;;
    match found with
    | None =>
      ret (mkLoginResponse (login_error "Неверный email или пароль")
                           HTTP_401_UNAUTHORIZED)
    | Some user =>
      if negb (is_active user) then
        ret (mkLoginResponse (login_error "Учетная запись деактивирована")
                             HTTP_401_UNAUTHORIZED)
      else if negb (check_password user password) then
        ret (mkLoginResponse (login_error "Неверный email или пароль")
                             HTTP_401_UNAUTHORIZED)
      else
        let refresh := for_user user in
        ret (mkLoginResponse (tokens (fst refresh) (snd refresh) user)
                             Views.HTTP_200_OK)
    end
  end.

End Auth.

(** The keyword arguments of [create_user] and [create_superuser] that set
    a flag; [None] where the caller gave none. *)
Record ExtraFields : Type := mkExtraFields {
  extra_is_staff : option bool;
  extra_is_superuser : option bool;
  extra_is_active : option bool
}.

(** The key a new user row gets: above every key in use. *)
Definition next_user_id (table : list User) : Z :=
  1 + foldr Z.max 0 (omap pk table).

Section Manager.

(** [BaseUserManager.normalize_email]. *)
Variable normalize_email : string -> string.

(** [UserManager.create_user]. The model's defaults are [is_active=True],
    [is_staff=False], [is_superuser=False]; [email] is unique. *)
Definition create_user (db : DB) (email_ : string)
    (extra_fields : ExtraFields) : Eff (Saved (User * DB)) :=
  if bool_decide (email_ = "") then
    raise (ValueError "Email обязателен для создания пользователя")
  else
    let email_ := normalize_email email_ in
    let user := mkUser None email_
                  (default false (extra_is_superuser extra_fields))
                  (default true (extra_is_active extra_fields))
                  (default false (extra_is_staff extra_fields)) in
    if bool_decide (filter (fun r => email r = email_) (users db) <> [])
    then ret (IntegrityError "UNIQUE constraint failed: accounts_user.email")
    else
      let saved := mkUser (Some (next_user_id (users db))) (email user)
                     (is_superuser user) (is_active user) (is_staff user) in
      ret (Stored (saved, set_users db (users db ++ [saved]))).

(** [dict.setdefault] on one flag. *)
Definition setdefault (field : option bool) (value : bool) : option bool :=
  match field with
  | Some given => Some given
  | None => Some value
  end.

(** [UserManager.create_superuser] *)
Definition create_superuser (db : DB) (email_ : string)
    (extra_fields : ExtraFields) : Eff (Saved (User * DB)) :=
  let extra_fields :=
    mkExtraFields (setdefault (extra_is_staff extra_fields) true)
                  (setdefault (extra_is_superuser extra_fields) true)
                  (setdefault (extra_is_active extra_fields) true) in
  if negb (bool_decide (extra_is_staff extra_fields = Some true)) then
    raise (ValueError "Суперпользователь должен иметь is_staff=True.")
  else if negb (bool_decide (extra_is_superuser extra_fields = Some true))
  then raise (ValueError "Суперпользователь должен иметь is_superuser=True.")
  else create_user db email_ extra_fields.

End Manager.

End Accounts.

(** ** Further stores *)

Module Fixtures.

(** [Scenario.layered] with rows of [retired] (user 5) added to the three
    grant tables. *)
Definition crowded : DB :=
  mkDB Scenario.accounts Scenario.catalog Scenario.seeded_roles
       [mkUserRole 5 3 None; mkUserRole 4 4 None]
       Scenario.seeded_role_permissions
       [mkUserPermission 1 4 1 true 100 (Some 1);
        mkUserPermission 2 5 1 false 101 (Some 1)]
       [mkResourcePermission 5 "document" "7" 1 true (Some 1);
        mkResourcePermission 4 "document" "7" 1 false (Some 1)].

End Fixtures.

(** ** Vocabulary of the further statements *)

(** The rows among which [_check_user_permission] and
    [_check_resource_permission] look. *)
Definition direct_rows (db : DB) (u : User) (c : string)
  : list UserPermission :=
  filter (fun r => Some (up_user r) = pk u
                   /\ permission__code db (up_permission r) = Some c)
         (user_permissions db).

Definition resource_rows (db : DB) (u : User) (c rt rid : string)
  : list ResourcePermission :=
  filter (fun r => Some (res_user r) = pk u
                   /\ res_resource_type r = rt
                   /\ res_resource_id r = rid
                   /\ permission__code db (res_permission r) = Some c)
         (resource_permissions db).

(** [Permission.code] is declared [unique=True]. *)
Definition code_unique (catalog : list Permission) : Prop :=
  forall p q, p ∈ catalog -> q ∈ catalog ->
              code p = code q -> permission_id p = permission_id q.

(** [ResourcePermission.Meta.unique_together]. *)
Definition resource_unique_together (table : list ResourcePermission)
  : Prop :=
  forall user_id rt rid permission_id,
    (length (filter (fun r => res_user r = user_id
                              /\ res_resource_type r = rt
                              /\ res_resource_id r = rid
                              /\ res_permission r = permission_id)
                    table) <= 1)%nat.

(** [UserRole.Meta.unique_together = ['user', 'role']]. *)
Definition role_unique_together (table : list UserRole) : Prop :=
  forall user_id role_id,
    (length (filter (fun r => ur_user r = user_id /\ ur_role r = role_id)
                    table) <= 1)%nat.

(** [RolePermission.Meta.unique_together = ['role', 'permission']]. *)
Definition link_unique_together (table : list RolePermission) : Prop :=
  forall role_id permission_id,
    (length (filter (fun r => rp_role r = role_id
                              /\ rp_permission r = permission_id)
                    table) <= 1)%nat.

(** A resource-level row of the user for the code on one instance. *)
Definition resource_overridden (db : DB) (u : User) (c rt rid : string)
    (granted : bool) : Prop :=
  exists r,
    r ∈ resource_permissions db /\ Some (res_user r) = pk u
    /\ res_resource_type r = rt /\ res_resource_id r = rid
    /\ permission__code db (res_permission r) = Some c
    /\ res_is_granted r = granted.

(** An answer that is an error status. *)
Definition refused (response : Views.Response) : Prop :=
  Views.status response <> Views.HTTP_200_OK
  /\ Views.status response <> Views.HTTP_201_CREATED.

(** * Properties *)

(** ** The effect monad *)

Lemma bind_ret_l {A B} (a : A) (k : A -> Eff B) : (x <- ret a ;; k x) = k a.
Proof. unfold Py.bind, ret. destruct (k a). reflexivity. Qed.

Lemma bind_raise {A B} (e : PyExn) (k : A -> Eff B) :
  (x <- raise e ;; k x) = raise e.
Proof. reflexivity. Qed.

Lemma load_global_unbound globals name :
  globals !! name = None -> load_global globals name = raise (NameError name).
Proof. intros H. unfold load_global. rewrite H. reflexivity. Qed.

Lemma load_global_bound globals name v :
  globals !! name = Some v -> load_global globals name = ret v.
Proof. intros H. unfold load_global. rewrite H. reflexivity. Qed.

Lemma services_globals_permission_code :
  services_globals !! "permission_code" = None.
Proof. reflexivity. Qed.

(** ** The lookups of the three layers never log *)

Lemma objects_get_silent {A} model (rows : list A) :
  records (objects_get model rows) = [].
Proof. destruct rows as [|r [|r' rows]]; reflexivity. Qed.

Lemma _check_resource_permission_silent db u c rt rid :
  records (_check_resource_permission db u c rt rid) = [].
Proof.
  unfold _check_resource_permission.
  match goal with |- context [objects_get ?m ?l] => destruct l as [|r [|r' rows]] end;
    reflexivity.
Qed.

Lemma _check_user_permission_silent db u c :
  records (_check_user_permission db u c) = [].
Proof.
  unfold _check_user_permission.
  match goal with |- context [objects_get ?m ?l] => destruct l as [|r [|r' rows]] end;
    reflexivity.
Qed.

(** ** The engine's gates and its unbound name *)

Lemma check_permission_superuser globals db u rt act rid :
  is_superuser u = true ->
  check_permission globals db (Some u) rt act rid = ret true.
Proof. intros Hs. unfold check_permission. rewrite Hs. reflexivity. Qed.

Lemma check_permission_inactive globals db u rt act rid :
  is_superuser u = false -> is_active u = false ->
  check_permission globals db (Some u) rt act rid = ret false.
Proof.
  intros Hs Ha. unfold check_permission. rewrite Hs, Ha. reflexivity.
Qed.

Lemma check_permission_unbound globals db u rt act rid :
  globals !! "permission_code" = None ->
  is_superuser u = false -> is_active u = true ->
  check_permission globals db (Some u) rt act rid
  = raise (NameError "permission_code").
Proof.
  intros Hg Hs Ha. unfold check_permission. rewrite Hs, Ha. simpl.
  rewrite (load_global_unbound _ _ Hg). destruct (truthy rid); reflexivity.
Qed.

Lemma check_permission_silent_or_one globals db user rt act rid :
  (length (records (check_permission globals db user rt act rid)) <= 1)%nat.
Proof.
  unfold check_permission.
  destruct user as [u|]; [|simpl; lia].
  destruct (is_superuser u); [simpl; lia|].
  destruct (is_active u); [|simpl; lia].
  unfold load_global.
  destruct (globals !! "permission_code") as [c|];
    [|destruct (truthy rid); simpl; lia].
  simpl.
  pose proof (_check_resource_permission_silent db u c rt rid) as Hr.
  pose proof (_check_user_permission_silent db u c) as Hu.
  destruct (_check_resource_permission db u c rt rid) as [[[g|]|e] lr];
    destruct (_check_user_permission db u c) as [[[g'|]|e'] lu];
    unfold records in Hr, Hu; simpl in Hr, Hu; subst lr lu;
    destruct (truthy rid); simpl;
    try destruct (_check_role_permission db u c); simpl; lia.
Qed.

(** ** The engine under a module scope that binds the name

    What the body of [check_permission] computes once [permission_code]
    resolves: the three layers in order, and one warning when the role
    layer denies. *)

Lemma check_permission_bound globals db u c rt act rid :
  globals !! "permission_code" = Some c ->
  is_superuser u = false -> is_active u = true ->
  check_permission globals db (Some u) rt act rid
  = (resource_perm <- (if truthy rid
                       then _check_resource_permission db u c rt rid
                       else ret None) ;;
     match resource_perm with
     | Some granted => ret granted
     | None =>
       user_perm <- _check_user_permission db u c ;;
       match user_perm with
       | Some granted => ret granted
       | None =>
         if _check_role_permission db u c then ret true
         else (Return false,
               [mkLog WARNING ("Доступ запрещен для " +:+ email u +:+ ": "
                               +:+ c)])
       end
     end).
Proof.
  intros Hg Hs Ha. unfold check_permission. rewrite Hs, Ha.
  unfold load_global. rewrite Hg. simpl.
  pose proof (_check_resource_permission_silent db u c rt rid) as Hr.
  pose proof (_check_user_permission_silent db u c) as Hu.
  destruct (_check_resource_permission db u c rt rid) as [[[g|]|e] lr];
    destruct (_check_user_permission db u c) as [[[g'|]|e'] lu];
    unfold records in Hr, Hu; simpl in Hr, Hu; subst lr lu;
    destruct (truthy rid); simpl;
    try destruct (_check_role_permission db u c); reflexivity.
Qed.

(** ** Decisions *)

(** C1 (the code departs from the claim). For the active non-superuser
    [viewer] and the non-empty pair [document]/[delete], for which no layer
    holds a grant row, the engine does not reach the ordinary deny: it never
    computes [permission_code], and the first read of that name ends the
    call in [NameError]. *)
Theorem C1_no_grant_ends_in_NameError :
  check_permission services_globals Scenario.seeded (Some Scenario.viewer)
                   "document" "delete" PyNone
  = (Raise (NameError "permission_code"), []).
Proof. reflexivity. Qed.

(** C2. A superuser is granted, for every resource type, action and
    resource ID and every state of the stores, explicit deny rows
    included. *)
Theorem C2_superuser_granted globals db u rt act rid :
  is_superuser u = true ->
  check_permission globals db (Some u) rt act rid = ret true.
Proof. apply check_permission_superuser. Qed.

Lemma C2_superuser_granted_witness :
  check_permission services_globals Scenario.root_denied (Some Scenario.root)
                   "document" "read" (PyStr "7")
  = ret true.
Proof. apply C2_superuser_granted. reflexivity. Defined.

(** C3. An inactive principal that is not a superuser is denied, for every
    resource type, action and resource ID and every state of the stores,
    grant rows included. *)
Theorem C3_inactive_denied globals db u rt act rid :
  is_superuser u = false -> is_active u = false ->
  check_permission globals db (Some u) rt act rid = ret false.
Proof. apply check_permission_inactive. Qed.

Lemma C3_inactive_denied_witness :
  check_permission services_globals Scenario.retired_granted
                   (Some Scenario.retired) "document" "read" (PyStr "7")
  = ret false.
Proof. apply C3_inactive_denied; reflexivity. Defined.

(** C4 (the code departs from the claim). With a resource-level denial on
    document 7, a direct grant and a role grant of [document.read] all in
    the store, the engine answers neither [false] for document 7 nor [true]
    for document 8: both calls end in [NameError] before any layer is
    consulted. *)
Theorem C4_precedence_ends_in_NameError :
  check_permission services_globals Scenario.layered (Some Scenario.viewer)
                   "document" "read" (PyStr "7")
  = (Raise (NameError "permission_code"), [])
  /\ check_permission services_globals Scenario.layered (Some Scenario.viewer)
                      "document" "read" (PyStr "8")
     = (Raise (NameError "permission_code"), []).
Proof. split; reflexivity. Qed.

(** The same store under a module scope that binds the name: the three
    layers then answer in the order the body lays out. *)
Example layered_when_bound :
  check_permission (Scenario.bound_to "document.read") Scenario.layered
                   (Some Scenario.viewer) "document" "read" (PyStr "7")
  = ret false
  /\ check_permission (Scenario.bound_to "document.read") Scenario.layered
                      (Some Scenario.viewer) "document" "read" (PyStr "8")
     = ret true.
Proof. split; reflexivity. Qed.

(** Every active non-superuser call of the engine, as the module stands,
    ends the same way. *)
Lemma check_permission_services_active db u rt act rid :
  is_superuser u = false -> is_active u = true ->
  check_permission services_globals db (Some u) rt act rid
  = raise (NameError "permission_code").
Proof. apply check_permission_unbound. reflexivity. Qed.

(** ** The principal is not validated *)

(** C7, as claimed, fails: a superuser instance without an ID is malformed
    in the claim's sense, yet the call is not rejected, it is granted. *)
Lemma C7_counterexample :
  malformed (Some Scenario.unsaved_root)
  /\ ~ rejected (check_permission services_globals Scenario.seeded
                                  (Some Scenario.unsaved_root)
                                  "document" "read" PyNone).
Proof.
  split; [reflexivity|]. intros [e He]. discriminate He.
Qed.

(** C7, amended. The engine has no check of its own on the principal. A
    null principal makes the superuser test of step 1 itself fail with the
    interpreter's [AttributeError] (a failure, not [false]); a principal
    without an ID is not rejected: as a superuser it is granted, as an
    inactive non-superuser it is denied. *)
Theorem C7_principal_not_validated globals db rt act rid :
  check_permission globals db None rt act rid
  = raise (AttributeError "NoneType" "is_superuser")
  /\ (forall u, pk u = None -> is_superuser u = true ->
        check_permission globals db (Some u) rt act rid = ret true)
  /\ (forall u, pk u = None -> is_superuser u = false -> is_active u = false ->
        check_permission globals db (Some u) rt act rid = ret false).
Proof.
  split; [reflexivity|]. split.
  - intros u _. apply check_permission_superuser.
  - intros u _. apply check_permission_inactive.
Qed.

Lemma C7_principal_not_validated_witness :
  check_permission services_globals Scenario.seeded
                   (Some Scenario.unsaved_root) "document" "read" PyNone
  = ret true
  /\ check_permission services_globals Scenario.seeded
                      (Some Scenario.unsaved_retired) "document" "read" PyNone
     = ret false.
Proof.
  pose proof (C7_principal_not_validated
                services_globals Scenario.seeded "document" "read" PyNone)
    as (_ & Hsuper & Hinactive).
  split; [apply Hsuper | apply Hinactive]; reflexivity.
Defined.

(** ** What the engine logs *)

(** C8, as claimed, fails: the denial of an inactive principal is a [false]
    decision that leaves no record at all. *)
Lemma C8_counterexample :
  value (check_permission services_globals Scenario.seeded
                          (Some Scenario.retired) "document" "read" PyNone)
  = Return false
  /\ length (records (check_permission services_globals Scenario.seeded
                                       (Some Scenario.retired)
                                       "document" "read" PyNone))
     <> 1%nat.
Proof. split; [reflexivity|]. simpl. discriminate. Qed.

(** C8, amended. A [true] decision leaves no record; the denial of an
    inactive principal leaves none either; no call leaves more than one
    record; and a record is left only with a [false] decision of the role
    fallback, reached without a [UserPermission] row. *)
Theorem C8_records_of_a_decision globals db user rt act rid :
  (value (check_permission globals db user rt act rid) = Return true ->
   records (check_permission globals db user rt act rid) = [])
  /\ (forall u, user = Some u ->
        is_superuser u = false -> is_active u = false ->
        check_permission globals db user rt act rid = (Return false, []))
  /\ (length (records (check_permission globals db user rt act rid)) <= 1)%nat
  /\ (records (check_permission globals db user rt act rid) <> [] ->
        exists u c,
          user = Some u /\ globals !! "permission_code" = Some c
          /\ value (check_permission globals db user rt act rid)
             = Return false
          /\ value (_check_user_permission db u c) = Return None
          /\ _check_role_permission db u c = false).
Proof.
  split; [|split; [|split]].
  - unfold check_permission.
    destruct user as [u|]; [|discriminate].
    destruct (is_superuser u); [reflexivity|].
    destruct (is_active u); [|discriminate].
    unfold load_global.
    destruct (globals !! "permission_code") as [c|];
      [|destruct (truthy rid); discriminate].
    simpl.
    pose proof (_check_resource_permission_silent db u c rt rid) as Hr.
    pose proof (_check_user_permission_silent db u c) as Hu.
    destruct (_check_resource_permission db u c rt rid) as [[[g|]|e] lr];
      destruct (_check_user_permission db u c) as [[[g'|]|e'] lu];
      unfold records in Hr, Hu; simpl in Hr, Hu; subst lr lu;
      destruct (truthy rid); simpl;
      try destruct (_check_role_permission db u c); simpl;
      intros; first [reflexivity | discriminate].
  - intros u -> Hs Ha. apply check_permission_inactive; assumption.
  - apply check_permission_silent_or_one.
  - destruct user as [u|]; [|intros []; reflexivity].
    destruct (is_superuser u) eqn:Hs;
      [rewrite check_permission_superuser by exact Hs; intros []; reflexivity|].
    destruct (is_active u) eqn:Ha;
      [|rewrite check_permission_inactive by assumption;
        intros []; reflexivity].
    destruct (globals !! "permission_code") as [c|] eqn:Hg;
      [|rewrite check_permission_unbound by assumption;
        intros []; reflexivity].
    rewrite (check_permission_bound _ _ _ c) by assumption.
    intros Hrec. exists u, c. split; [reflexivity|]. split; [reflexivity|].
    revert Hrec.
    pose proof (_check_resource_permission_silent db u c rt rid) as Hr.
    pose proof (_check_user_permission_silent db u c) as Hu.
    destruct (_check_resource_permission db u c rt rid) as [[[g|]|e] lr];
      destruct (_check_user_permission db u c) as [[[g'|]|e'] lu];
      unfold records in Hr, Hu; simpl in Hr, Hu; subst lr lu;
      destruct (truthy rid); simpl;
      try destruct (_check_role_permission db u c); simpl;
      intros Hrec; try (exfalso; apply Hrec; reflexivity);
      repeat split; reflexivity.
Qed.

Lemma C8_records_of_a_decision_witness :
  records (check_permission services_globals Scenario.root_denied
                            (Some Scenario.root) "document" "read"
                            (PyStr "7")) = []
  /\ check_permission services_globals Scenario.retired_granted
                      (Some Scenario.retired) "document" "read" (PyStr "7")
     = (Return false, [])
  /\ exists u c,
       Some Scenario.viewer = Some u
       /\ Scenario.bound_to "document.delete" !! "permission_code" = Some c
       /\ value (check_permission (Scenario.bound_to "document.delete")
                                  Scenario.seeded (Some Scenario.viewer)
                                  "document" "delete" PyNone)
          = Return false
       /\ value (_check_user_permission Scenario.seeded u c) = Return None
       /\ _check_role_permission Scenario.seeded u c = false.
Proof.
  split; [|split].
  - apply (proj1 (C8_records_of_a_decision
                    services_globals Scenario.root_denied
                    (Some Scenario.root) "document" "read" (PyStr "7"))).
    reflexivity.
  - apply (proj1 (proj2 (C8_records_of_a_decision
                    services_globals Scenario.retired_granted
                    (Some Scenario.retired) "document" "read" (PyStr "7")))
             Scenario.retired); reflexivity.
  - apply (proj2 (proj2 (proj2 (C8_records_of_a_decision
                    (Scenario.bound_to "document.delete") Scenario.seeded
                    (Some Scenario.viewer) "document" "delete" PyNone)))).
    discriminate.
Defined.

(** ** The resource ID *)




(** C10 (the code departs from the claim). [viewer] is granted
    [document.read] directly and by its role, and denied it on document
    7. With a falsy resource ID the resource layer is indeed not
    consulted, but the evaluation does not go on to the user and role
    layers, which would grant: it ends in [NameError] at the first read
    of [permission_code]. With the ID 7, as a number or as text, the
    resource-layer lookup that would deny is never made either. *)
Theorem C10_resource_id_ends_in_NameError :
  check_permission services_globals Scenario.layered (Some Scenario.viewer)
                   "document" "read" PyNone
  = (Raise (NameError "permission_code"), [])
  /\ check_permission services_globals Scenario.layered
                      (Some Scenario.viewer) "document" "read" (PyStr "")
     = (Raise (NameError "permission_code"), [])
  /\ check_permission services_globals Scenario.layered
                      (Some Scenario.viewer) "document" "read" (PyInt 0)
     = (Raise (NameError "permission_code"), [])
  /\ _check_user_permission Scenario.layered Scenario.viewer "document.read"
     = ret (Some true)
  /\ _check_role_permission Scenario.layered Scenario.viewer "document.read"
     = true
  /\ check_permission services_globals Scenario.layered
                      (Some Scenario.viewer) "document" "read" (PyInt 7)
     = (Raise (NameError "permission_code"), [])
  /\ check_permission services_globals Scenario.layered
                      (Some Scenario.viewer) "document" "read" (PyStr "7")
     = (Raise (NameError "permission_code"), [])
  /\ _check_resource_permission Scenario.layered Scenario.viewer
                                "document.read" "document" (PyInt 7)
     = ret (Some false).
Proof. repeat split; reflexivity. Qed.

(** ** Effective permissions *)

Lemma elem_of_role_permission_codes db u c :
  c ∈ role_permission_codes db u <-> role_derived db u c.
Proof.
  unfold role_permission_codes, role_derived, user_role_ids.
  rewrite list_elem_of_omap. split.
  - intros (rp & Hrp & Hc).
    apply list_elem_of_filter in Hrp as [Hin Hrp].
    apply list_elem_of_fmap in Hin as (ur & Hrole & Hur).
    apply list_elem_of_filter in Hur as [Hu Hur].
    exists ur, rp. auto.
  - intros (ur & rp & Hur & Hu & Hrp & Hrole & Hc).
    exists rp. split; [|exact Hc].
    apply list_elem_of_filter. split; [|exact Hrp].
    apply list_elem_of_fmap. exists ur. split; [exact Hrole|].
    apply list_elem_of_filter. auto.
Qed.

Lemma elem_of_user_permission_codes db u g c :
  c ∈ user_permission_codes db u g <-> overridden db u g c.
Proof.
  unfold user_permission_codes, overridden.
  rewrite list_elem_of_omap. split.
  - intros (r & Hr & Hc).
    apply list_elem_of_filter in Hr as [[Hu Hg] Hr]. exists r. auto.
  - intros (r & Hr & Hu & Hg & Hc). exists r. split; [|exact Hc].
    apply list_elem_of_filter. auto.
Qed.

(** C5. A superuser gets the wildcard list, an inactive non-superuser the
    empty list; every other principal that has a key gets, without
    repetition, exactly the codes that come with one of its roles or with
    a direct grant and are not directly denied, the denial being taken out
    last. *)
Theorem C5_effective_permissions db u :
  (is_superuser u = true -> get_user_permissions db u = ["*.*"])
  /\ (is_superuser u = false -> is_active u = false ->
        get_user_permissions db u = [])
  /\ (is_superuser u = false -> is_active u = true -> pk u <> None ->
        NoDup (get_user_permissions db u)
        /\ forall c,
             c ∈ get_user_permissions db u
             <-> (role_derived db u c \/ overridden db u true c)
                 /\ ~ overridden db u false c).
Proof.
  unfold get_user_permissions. split; [|split].
  - intros ->. reflexivity.
  - intros -> ->. reflexivity.
  - intros -> -> _. simpl. split; [apply NoDup_elements|].
    intros c. rewrite elem_of_elements, elem_of_difference, !elem_of_union.
    rewrite !elem_of_list_to_set.
    rewrite elem_of_role_permission_codes, !elem_of_user_permission_codes.
    rewrite elem_of_empty. tauto.
Qed.

Lemma C5_effective_permissions_witness :
  get_user_permissions Scenario.two_roles Scenario.root = ["*.*"]
  /\ get_user_permissions Scenario.two_roles Scenario.retired = []
  /\ NoDup (get_user_permissions Scenario.two_roles Scenario.viewer)
  /\ forall c,
       c ∈ get_user_permissions Scenario.two_roles Scenario.viewer
       <-> (role_derived Scenario.two_roles Scenario.viewer c
            \/ overridden Scenario.two_roles Scenario.viewer true c)
           /\ ~ overridden Scenario.two_roles Scenario.viewer false c.
Proof.
  pose proof (C5_effective_permissions Scenario.two_roles Scenario.root)
    as (Hroot & _ & _).
  pose proof (C5_effective_permissions Scenario.two_roles Scenario.retired)
    as (_ & Hretired & _).
  pose proof (C5_effective_permissions Scenario.two_roles Scenario.viewer)
    as (_ & _ & Hviewer).
  split; [apply Hroot; reflexivity|].
  split; [apply Hretired; reflexivity|].
  apply Hviewer; first [reflexivity | discriminate].
Defined.

(** The scenarios of the specification, evaluated. *)
Example effective_permissions_viewer :
  get_user_permissions Scenario.seeded Scenario.viewer
  = ["document.read"; "project.read"].
Proof. vm_compute. reflexivity. Qed.

Example effective_permissions_two_roles :
  get_user_permissions Scenario.two_roles Scenario.viewer
  = ["admin.access"; "document.create"; "document.update";
     "project.create"; "project.read"].
Proof. vm_compute. reflexivity. Qed.

(** ** The collection gate *)




(** The instance gate applies the same table and hands the object's [id],
    or else its [pk], to the engine. *)
Lemma has_object_permission_mapped globals db request view obj rt op :
  view_resource_type view = Some rt -> view_action view = Some op ->
  rt <> "" -> op <> "" ->
  has_object_permission globals db request view obj
  = check_permission globals db (principal (request_user request)) rt
                     (mapped_action op)
                     (if truthy (obj_id obj) then obj_id obj else obj_pk obj).
Proof.
  intros Hrt Hop Hrt' Hop'. unfold has_object_permission, or_.
  rewrite Hrt, Hop. simpl.
  rewrite !bool_decide_eq_false_2 by assumption. reflexivity.
Qed.

(** ** The upsert of a direct permission *)

Lemma next_id_above (table : list UserPermission) r :
  r ∈ table -> up_id r < Views.next_id table.
Proof.
  unfold Views.next_id. intros Hin.
  enough (up_id r <= foldr Z.max 0 (up_id <$> table)) by lia.
  induction table as [|x table IH]; [inversion Hin|].
  rewrite fmap_cons. cbn [foldr].
  apply elem_of_cons in Hin as [->|Hin]; [lia|].
  specialize (IH Hin). lia.
Qed.

Lemma next_id_fresh (table : list UserPermission) :
  Views.next_id table ∉ up_id <$> table.
Proof.
  intros Hin. apply list_elem_of_fmap in Hin as (r & Hid & Hr).
  apply next_id_above in Hr. lia.
Qed.

Lemma primary_key_determines (table : list UserPermission) r1 r2 :
  primary_key table -> r1 ∈ table -> r2 ∈ table ->
  up_id r1 = up_id r2 -> r1 = r2.
Proof.
  intros Hpk H1 H2 Hid.
  apply list_elem_of_lookup in H1 as [i Hi].
  apply list_elem_of_lookup in H2 as [j Hj].
  assert (i = j) as ->.
  { eapply NoDup_lookup; [exact Hpk| |].
    - rewrite list_lookup_fmap, Hi. reflexivity.
    - rewrite list_lookup_fmap, Hj. simpl. congruence. }
  congruence.
Qed.

Section Save.

Variables (table : list UserPermission) (old obj : UserPermission).
Hypothesis Hpk : primary_key table.
Hypothesis Hold : old ∈ table.
Hypothesis Hid : up_id obj = up_id old.
Hypothesis Huser : up_user obj = up_user old.
Hypothesis Hperm : up_permission obj = up_permission old.

Lemma save_row r :
  r ∈ table ->
  (r = old /\ (if decide (up_id r = up_id obj) then obj else r) = obj)
  \/ (r <> old /\ (if decide (up_id r = up_id obj) then obj else r) = r).
Proof using Hpk Hold Hid.
  intros Hr.
  destruct (decide (up_id r = up_id obj)) as [Heq|Hne].
  - left. split; [|reflexivity].
    apply (primary_key_determines table); auto. congruence.
  - right. split; [|reflexivity]. intros ->. congruence.
Qed.

Lemma save_keeps_keys :
  up_id <$> Views.save obj table = up_id <$> table.
Proof using Hpk Hold Hid.
  unfold Views.save. rewrite <- list_fmap_compose. apply list_fmap_ext.
  intros i r Hr%list_elem_of_lookup_2. simpl.
  destruct (save_row r Hr) as [[-> ->]|[_ ->]]; congruence.
Qed.

Lemma save_rows_for user_id permission_id :
  rows_for (Views.save obj table) user_id permission_id
  = Views.save obj (rows_for table user_id permission_id).
Proof using Hpk Hold Hid Huser Hperm.
  unfold rows_for, Views.save.
  set (save := fun r => if decide (up_id r = up_id obj) then obj else r).
  assert (forall l : list UserPermission, (forall r, r ∈ l -> r ∈ table) ->
    filter (fun r => up_user r = user_id /\ up_permission r = permission_id)
           (save <$> l)
    = save <$> filter (fun r => up_user r = user_id
                                /\ up_permission r = permission_id) l)
    as Hgen.
  { induction l as [|r l IH]; intros Hsub; [reflexivity|].
    assert (r ∈ table) as Hr by (apply Hsub; left).
    assert (up_user (save r) = up_user r
            /\ up_permission (save r) = up_permission r) as [Hu Hp].
    { unfold save. destruct (save_row r Hr) as [[-> ->]|[_ ->]]; auto. }
    rewrite fmap_cons.
    destruct (decide (up_user r = user_id /\ up_permission r = permission_id))
      as [Hyes|Hno].
    - rewrite (filter_cons_True _ r) by exact Hyes.
      rewrite filter_cons_True by (rewrite Hu, Hp; exact Hyes).
      rewrite fmap_cons. f_equal. apply IH. intros; apply Hsub; right; auto.
    - rewrite (filter_cons_False _ r) by exact Hno.
      rewrite filter_cons_False by (rewrite Hu, Hp; exact Hno).
      apply IH. intros; apply Hsub; right; auto. }
  apply Hgen. auto.
Qed.

End Save.

Lemma update_or_create_lookup table target permission user_id :
  pk target = Some user_id ->
  filter (fun r => Some (up_user r) = pk target
                   /\ up_permission r = permission_id permission) table
  = rows_for table user_id (permission_id permission).
Proof.
  intros Hpk. unfold rows_for. apply list_filter_iff.
  intros r. rewrite Hpk. split; intros [Hu Hp]; split; congruence.
Qed.

(** One upsert: it succeeds, reports a creation exactly when the pair had
    no row, and leaves one row for the pair, carrying the values given. *)
Lemma update_or_create_spec now table target permission granted admin user_id :
  pk target = Some user_id ->
  primary_key table ->
  (length (rows_for table user_id (permission_id permission)) <= 1)%nat ->
  exists obj table',
    Views.update_or_create now table target permission granted admin
    = ret (obj,
           bool_decide (rows_for table user_id (permission_id permission) = []),
           table')
    /\ rows_for table' user_id (permission_id permission) = [obj]
    /\ up_is_granted obj = granted
    /\ up_granted_by obj = pk admin
    /\ primary_key table'.
Proof.
  intros Htarget Hpk Hlen. unfold Views.update_or_create.
  rewrite (update_or_create_lookup _ _ _ _ Htarget).
  destruct (rows_for table user_id (permission_id permission))
    as [|old [|other rest]] eqn:Hrows.
  - (* no row: create *)
    simpl. rewrite Htarget. eexists _, _. split; [reflexivity|].
    split; [|split; [reflexivity|split; [reflexivity|]]].
    + unfold rows_for in *. rewrite filter_app, Hrows.
      rewrite filter_cons_True by (simpl; auto). reflexivity.
    + unfold primary_key. rewrite fmap_app. apply NoDup_app.
      split; [exact Hpk|]. split; [|apply NoDup_singleton].
      intros x Hx Hx'. apply list_elem_of_singleton in Hx'. subst x.
      simpl in Hx. exact (next_id_fresh table Hx).
  - (* one row: assign the defaults and save *)
    simpl.
    assert (old ∈ table /\ up_user old = user_id
            /\ up_permission old = permission_id permission)
      as (Hold & Hu & Hp).
    { assert (old ∈ rows_for table user_id (permission_id permission)) as Hin
        by (rewrite Hrows; left).
      apply list_elem_of_filter in Hin as [[? ?] ?]. auto. }
    pose proof (save_rows_for table old
                  (mkUserPermission (up_id old) (up_user old)
                     (up_permission old) granted (up_granted_at old)
                     (pk admin))
                  Hpk Hold eq_refl eq_refl eq_refl
                  user_id (permission_id permission)) as Hsaved.
    pose proof (save_keeps_keys table old
                  (mkUserPermission (up_id old) (up_user old)
                     (up_permission old) granted (up_granted_at old)
                     (pk admin))
                  Hpk Hold eq_refl) as Hkeys.
    eexists _, _. split; [reflexivity|].
    split; [|split; [reflexivity|split; [reflexivity|]]].
    + rewrite Hsaved, Hrows. unfold Views.save. simpl.
      rewrite decide_True by reflexivity. reflexivity.
    + unfold primary_key. rewrite Hkeys. exact Hpk.
  - simpl in Hlen. lia.
Qed.

(** One call of the view on an existing user and permission. *)
Lemma grant_permission_to_user_once
    now db request user_id target permission pid granted :
  filter (fun u => pk u = Some user_id) (users db) = [target] ->
  filter (fun p => permission_id p = pid) (permissions db) = [permission] ->
  Views.validated_data request = Some (pid, granted) ->
  primary_key (user_permissions db) ->
  (length (rows_for (user_permissions db) user_id pid) <= 1)%nat ->
  exists response db' row,
    Views.grant_permission_to_user now db request user_id
    = ret (response, db')
    /\ Views.status response
       = (if bool_decide (rows_for (user_permissions db) user_id pid = [])
          then Views.HTTP_201_CREATED else Views.HTTP_200_OK)
    /\ users db' = users db
    /\ permissions db' = permissions db
    /\ rows_for (user_permissions db') user_id pid = [row]
    /\ up_is_granted row = granted
    /\ up_granted_by row = pk (Views.user request)
    /\ primary_key (user_permissions db').
Proof.
  intros Huser Hperm Hvalid Hpk Hlen.
  assert (pk target = Some user_id) as Htarget.
  { assert (target ∈ filter (fun u => pk u = Some user_id) (users db)) as Hin
      by (rewrite Huser; left).
    apply list_elem_of_filter in Hin as [? _]. assumption. }
  assert (permission_id permission = pid) as Hpid.
  { assert (permission ∈ filter (fun p => permission_id p = pid)
                                (permissions db)) as Hin
      by (rewrite Hperm; left).
    apply list_elem_of_filter in Hin as [? _]. assumption. }
  subst pid.
  destruct (update_or_create_spec now (user_permissions db) target permission
              granted (Views.user request) user_id Htarget Hpk Hlen)
    as (obj & table' & Hupsert & Hrows & Hgranted & Hby & Hpk').
  unfold Views.grant_permission_to_user.
  rewrite Huser. simpl. rewrite Hvalid, Hperm. simpl. rewrite Hupsert. simpl.
  eexists _, _, obj. split; [reflexivity|]. simpl.
  split; [destruct (bool_decide _); reflexivity|].
  repeat split; assumption.
Qed.

(** C9. Issuing the grant-or-deny operation twice for one existing user
    and permission succeeds both times, the second time as an update, and
    leaves exactly one [UserPermission] row for the pair, whose
    [is_granted] and [granted_by] are those of the second issuance. *)
Theorem C9_upsert_twice
    now1 now2 db request1 request2 user_id target permission pid
    granted1 granted2 :
  filter (fun u => pk u = Some user_id) (users db) = [target] ->
  filter (fun p => permission_id p = pid) (permissions db) = [permission] ->
  Views.validated_data request1 = Some (pid, granted1) ->
  Views.validated_data request2 = Some (pid, granted2) ->
  primary_key (user_permissions db) ->
  unique_together (user_permissions db) ->
  exists response1 db1 response2 db2 row,
    Views.grant_permission_to_user now1 db request1 user_id
    = ret (response1, db1)
    /\ Views.grant_permission_to_user now2 db1 request2 user_id
       = ret (response2, db2)
    /\ Views.status response2 = Views.HTTP_200_OK
    /\ rows_for (user_permissions db2) user_id pid = [row]
    /\ up_is_granted row = granted2
    /\ up_granted_by row = pk (Views.user request2).
Proof.
  intros Huser Hperm Hvalid1 Hvalid2 Hpk Huniq.
  destruct (grant_permission_to_user_once now1 db request1 user_id target
              permission pid granted1 Huser Hperm Hvalid1 Hpk (Huniq _ _))
    as (response1 & db1 & row1 & Hcall1 & _ & Husers1 & Hperms1 & Hrows1
        & _ & _ & Hpk1).
  rewrite <- Husers1 in Huser. rewrite <- Hperms1 in Hperm.
  assert (length (rows_for (user_permissions db1) user_id pid) <= 1)%nat
    as Hlen1 by (rewrite Hrows1; simpl; lia).
  destruct (grant_permission_to_user_once now2 db1 request2 user_id target
              permission pid granted2 Huser Hperm Hvalid2 Hpk1 Hlen1)
    as (response2 & db2 & row2 & Hcall2 & Hstatus2 & _ & _ & Hrows2
        & Hgranted2 & Hby2 & _).
  exists response1, db1, response2, db2, row2.
  rewrite Hrows1 in Hstatus2.
  rewrite bool_decide_eq_false_2 in Hstatus2 by discriminate.
  auto 10.
Qed.

Lemma C9_upsert_twice_witness :
  exists response1 db1 response2 db2 row,
    Views.grant_permission_to_user 200 Scenario.seeded
      (Views.mkRequest Scenario.root (Views.Valid 1) Views.Missing) 4
    = ret (response1, db1)
    /\ Views.grant_permission_to_user 300 db1
         (Views.mkRequest Scenario.auditor (Views.Valid 1)
                          (Views.Valid false)) 4
       = ret (response2, db2)
    /\ Views.status response2 = Views.HTTP_200_OK
    /\ rows_for (user_permissions db2) 4 1 = [row]
    /\ up_is_granted row = false
    /\ up_granted_by row = Some 6.
Proof.
  apply (C9_upsert_twice 200 300 Scenario.seeded
           (Views.mkRequest Scenario.root (Views.Valid 1) Views.Missing)
           (Views.mkRequest Scenario.auditor (Views.Valid 1)
                            (Views.Valid false))
           4 Scenario.viewer
           (mkPermission 1 "document.read" "document" "read") 1 true false).
  - reflexivity.
  - reflexivity.
  - reflexivity.
  - reflexivity.
  - apply NoDup_nil_2.
  - intros u p. simpl. lia.
Defined.

(** The two calls of the witness, evaluated. *)
Example upsert_twice_run :
  exists response1 db1 response2 db2,
    Views.grant_permission_to_user 200 Scenario.seeded
      (Views.mkRequest Scenario.root (Views.Valid 1) Views.Missing) 4
    = ret (response1, db1)
    /\ Views.status response1 = Views.HTTP_201_CREATED
    /\ Views.grant_permission_to_user 300 db1
         (Views.mkRequest Scenario.auditor (Views.Valid 1)
                          (Views.Valid false)) 4
       = ret (response2, db2)
    /\ user_permissions db2 = [mkUserPermission 1 4 1 false 200 (Some 6)].
Proof. eexists _, _, _, _. repeat split; reflexivity. Qed.

(** ** The specification's scenarios under a scope that binds the name *)

Example seeded_when_bound :
  check_permission (Scenario.bound_to "document.read") Scenario.seeded
                   (Some Scenario.viewer) "document" "read" PyNone
  = ret true
  /\ check_permission (Scenario.bound_to "document.delete") Scenario.seeded
                      (Some Scenario.viewer) "document" "delete" PyNone
     = (Return false,
        [mkLog WARNING
               "Доступ запрещен для viewer@test.com: document.delete"]).
Proof. split; reflexivity. Qed.

Example resource_id_when_bound :
  check_permission (Scenario.bound_to "document.read") Scenario.layered
                   (Some Scenario.viewer) "document" "read" (PyInt 7)
  = ret false
  /\ check_permission (Scenario.bound_to "document.read") Scenario.layered
                      (Some Scenario.viewer) "document" "read" (PyInt 0)
     = ret true.
Proof. split; reflexivity. Qed.

(** * Further properties of the code *)

(** ** The lookups of the override layers *)

Lemma permission__code_row db fk c :
  permission__code db fk = Some c ->
  exists p, p ∈ permissions db /\ permission_id p = fk /\ code p = c.
Proof.
  unfold permission__code. intros Hc.
  destruct (filter (fun p => permission_id p = fk) (permissions db))
    as [|p rest] eqn:Hrows; [discriminate|].
  simpl in Hc. injection Hc as Hc.
  assert (p ∈ filter (fun p => permission_id p = fk) (permissions db)) as Hin
    by (rewrite Hrows; left).
  apply list_elem_of_filter in Hin as [Hid Hin]. eauto.
Qed.

Lemma permission__code_inj db a b c :
  code_unique (permissions db) ->
  permission__code db a = Some c -> permission__code db b = Some c -> a = b.
Proof.
  intros Huniq Ha Hb.
  apply permission__code_row in Ha as (p & Hp & <- & Hcp).
  apply permission__code_row in Hb as (q & Hq & <- & Hcq).
  apply Huniq; congruence.
Qed.

Lemma direct_rows_at_most_one db u c :
  code_unique (permissions db) -> unique_together (user_permissions db) ->
  (length (direct_rows db u c) <= 1)%nat.
Proof.
  intros Hcode Huniq.
  destruct (direct_rows db u c) as [|r1 rest] eqn:Hrows; [simpl; lia|].
  assert (r1 ∈ direct_rows db u c) as Hin by (rewrite Hrows; left).
  apply list_elem_of_filter in Hin as [[Hu Hc] _].
  rewrite <- Hrows. unfold direct_rows.
  rewrite <- (list_filter_filter_l _
                (fun r => up_user r = up_user r1
                          /\ up_permission r = up_permission r1)).
  - etrans; [apply length_filter|]. apply Huniq.
  - intros x [Hxu Hxc]. split; [congruence|].
    eapply permission__code_inj; eassumption.
Qed.

Lemma resource_rows_at_most_one db u c rt rid :
  code_unique (permissions db) ->
  resource_unique_together (resource_permissions db) ->
  (length (resource_rows db u c rt rid) <= 1)%nat.
Proof.
  intros Hcode Huniq.
  destruct (resource_rows db u c rt rid) as [|r1 rest] eqn:Hrows;
    [simpl; lia|].
  assert (r1 ∈ resource_rows db u c rt rid) as Hin by (rewrite Hrows; left).
  apply list_elem_of_filter in Hin as [(Hu & Ht & Hi & Hc) _].
  rewrite <- Hrows. unfold resource_rows.
  rewrite <- (list_filter_filter_l _
                (fun r => res_user r = res_user r1
                          /\ res_resource_type r = rt
                          /\ res_resource_id r = rid
                          /\ res_permission r = res_permission r1)).
  - etrans; [apply length_filter|]. apply Huniq.
  - intros x (Hxu & Hxt & Hxi & Hxc). repeat split; try congruence.
    eapply permission__code_inj; eassumption.
Qed.

Lemma overridden_direct_rows db u g c :
  overridden db u g c
  <-> exists r, r ∈ direct_rows db u c /\ up_is_granted r = g.
Proof.
  unfold overridden, direct_rows. split.
  - intros (r & Hr & Hu & Hg & Hc). exists r. split; [|exact Hg].
    apply list_elem_of_filter. auto.
  - intros (r & Hr & Hg). apply list_elem_of_filter in Hr as [[Hu Hc] Hr].
    exists r. auto.
Qed.

Lemma _check_user_permission_rows db u c :
  _check_user_permission db u c
  = match direct_rows db u c with
    | [] => ret None
    | [r] => ret (Some (up_is_granted r))
    | _ :: _ :: _ => raise (MultipleObjectsReturned "UserPermission")
    end.
Proof.
  unfold _check_user_permission, direct_rows.
  destruct (filter _ (user_permissions db)) as [|r [|r' rest]]; reflexivity.
Qed.

Lemma _check_resource_permission_rows db u c rt rid :
  _check_resource_permission db u c rt rid
  = match resource_rows db u c rt (str rid) with
    | [] => ret None
    | [r] => ret (Some (res_is_granted r))
    | _ :: _ :: _ => raise (MultipleObjectsReturned "ResourcePermission")
    end.
Proof.
  unfold _check_resource_permission, resource_rows.
  destruct (filter _ (resource_permissions db)) as [|r [|r' rest]];
    reflexivity.
Qed.

Lemma user_layer_answer db u c :
  code_unique (permissions db) -> unique_together (user_permissions db) ->
  exists answer,
    _check_user_permission db u c = ret answer
    /\ forall g, answer = Some g <-> overridden db u g c.
Proof.
  intros Hcode Huniq.
  pose proof (direct_rows_at_most_one db u c Hcode Huniq) as Hlen.
  rewrite _check_user_permission_rows.
  destruct (direct_rows db u c) as [|r [|r' rest]] eqn:Hrows.
  - exists None. split; [reflexivity|]. intros g.
    rewrite overridden_direct_rows, Hrows. split; [discriminate|].
    intros (r & Hr & _). inversion Hr.
  - exists (Some (up_is_granted r)). split; [reflexivity|]. intros g.
    rewrite overridden_direct_rows, Hrows. split.
    + intros [= <-]. exists r. split; [left|reflexivity].
    + intros (r' & Hr' & <-). apply list_elem_of_singleton in Hr'.
      subst r'. reflexivity.
  - simpl in Hlen. lia.
Qed.

(** X1. On a database that keeps its declared constraints
    ([Permission.code] unique, one [UserPermission] row per user and
    permission) the user-layer lookup for a user that has a key never
    raises, and it answers [Some g] exactly when the user has a row for
    the code with [is_granted = g]. *)
Theorem _check_user_permission_answer db u c :
  pk u <> None ->
  code_unique (permissions db) -> unique_together (user_permissions db) ->
  exists answer,
    _check_user_permission db u c = ret answer
    /\ forall g, answer = Some g <-> overridden db u g c.
Proof. intros _. exact (user_layer_answer db u c). Qed.

Lemma catalog_code_unique : code_unique Scenario.catalog.
Proof.
  intros p q Hp Hq. unfold Scenario.catalog in Hp, Hq.
  rewrite !elem_of_cons in Hp. rewrite !elem_of_cons in Hq.
  rewrite elem_of_nil in Hp. rewrite elem_of_nil in Hq.
  repeat (destruct Hp as [Hp|Hp]; [subst p|]); try contradiction;
    repeat (destruct Hq as [Hq|Hq]; [subst q|]); try contradiction;
    simpl; intros Hcode; first [reflexivity | discriminate Hcode].
Qed.

Lemma short_table_unique_together (table : list UserPermission) :
  (length table <= 1)%nat -> unique_together table.
Proof.
  intros Hlen u p. etrans; [apply length_filter|exact Hlen].
Qed.

Lemma _check_user_permission_answer_witness :
  exists answer,
    _check_user_permission Scenario.layered Scenario.viewer "document.read"
    = ret answer
    /\ forall g, answer = Some g
                 <-> overridden Scenario.layered Scenario.viewer g
                                "document.read".
Proof.
  apply _check_user_permission_answer.
  - discriminate.
  - exact catalog_code_unique.
  - apply short_table_unique_together. simpl. lia.
Defined.

Lemma resource_overridden_rows db u c rt rid g :
  resource_overridden db u c rt rid g
  <-> exists r, r ∈ resource_rows db u c rt rid /\ res_is_granted r = g.
Proof.
  unfold resource_overridden, resource_rows. split.
  - intros (r & Hr & Hu & Ht & Hi & Hc & Hg). exists r. split; [|exact Hg].
    apply list_elem_of_filter. auto.
  - intros (r & Hr & Hg).
    apply list_elem_of_filter in Hr as [(Hu & Ht & Hi & Hc) Hr].
    exists r. auto 10.
Qed.

Lemma resource_layer_answer db u c rt rid :
  code_unique (permissions db) ->
  resource_unique_together (resource_permissions db) ->
  exists answer,
    _check_resource_permission db u c rt rid = ret answer
    /\ forall g, answer = Some g
                 <-> resource_overridden db u c rt (str rid) g.
Proof.
  intros Hcode Huniq.
  pose proof (resource_rows_at_most_one db u c rt (str rid) Hcode Huniq)
    as Hlen.
  rewrite _check_resource_permission_rows.
  destruct (resource_rows db u c rt (str rid)) as [|r [|r' rest]] eqn:Hrows.
  - exists None. split; [reflexivity|]. intros g.
    rewrite resource_overridden_rows, Hrows. split; [discriminate|].
    intros (r & Hr & _). inversion Hr.
  - exists (Some (res_is_granted r)). split; [reflexivity|]. intros g.
    rewrite resource_overridden_rows, Hrows. split.
    + intros [= <-]. exists r. split; [left|reflexivity].
    + intros (r' & Hr' & <-). apply list_elem_of_singleton in Hr'.
      subst r'. reflexivity.
  - simpl in Hlen. lia.
Qed.

(** X2. On a database that keeps its declared constraints the
    resource-layer lookup for a user that has a key never raises, and it
    answers [Some g] exactly when the user has a row for the code on the
    instance whose [resource_id] is [str(resource_id)], with
    [is_granted = g]. *)
Theorem _check_resource_permission_answer db u c rt rid :
  pk u <> None ->
  code_unique (permissions db) ->
  resource_unique_together (resource_permissions db) ->
  exists answer,
    _check_resource_permission db u c rt rid = ret answer
    /\ forall g, answer = Some g
                 <-> resource_overridden db u c rt (str rid) g.
Proof. intros _. exact (resource_layer_answer db u c rt rid). Qed.

Lemma _check_resource_permission_answer_witness :
  exists answer,
    _check_resource_permission Scenario.layered Scenario.viewer
                               "document.read" "document" (PyInt 7)
    = ret answer
    /\ forall g, answer = Some g
                 <-> resource_overridden Scenario.layered Scenario.viewer
                       "document.read" "document" (str (PyInt 7)) g.
Proof.
  apply _check_resource_permission_answer.
  - discriminate.
  - exact catalog_code_unique.
  - intros u rt rid p. etrans; [apply length_filter|]. simpl. lia.
Defined.

(** Without the constraints the lookups fail in one way only: several
    matching rows raise [MultipleObjectsReturned]; [DoesNotExist] never
    leaves them. *)
Lemma lookups_catch_DoesNotExist db u c rt rid model :
  value (_check_user_permission db u c) <> Raise (DoesNotExist model)
  /\ value (_check_resource_permission db u c rt rid)
     <> Raise (DoesNotExist model).
Proof.
  rewrite _check_user_permission_rows, _check_resource_permission_rows.
  split.
  - destruct (direct_rows db u c) as [|r [|r' rest]]; discriminate.
  - destruct (resource_rows db u c rt (str rid)) as [|r [|r' rest]];
      discriminate.
Qed.

(** ** The role layer *)

Lemma role_layer_role_derived db u c :
  _check_role_permission db u c = true <-> role_derived db u c.
Proof.
  unfold _check_role_permission, role_derived, user_role_ids.
  case_bool_decide as Hids.
  - split; [discriminate|].
    intros (ur & rp & Hur & Hu & _).
    assert (ur_role ur ∈ ur_role <$> filter (fun r => Some (ur_user r) = pk u)
                                            (user_roles db)) as Hin.
    { apply list_elem_of_fmap. exists ur. split; [reflexivity|].
      apply list_elem_of_filter. auto. }
    rewrite Hids in Hin. inversion Hin.
  - rewrite bool_decide_eq_true. split.
    + intros Hne.
      destruct (filter _ (role_permissions db)) as [|rp rest] eqn:Hrows;
        [contradiction|].
      assert (rp ∈ rp :: rest) as Hin by left. rewrite <- Hrows in Hin.
      apply list_elem_of_filter in Hin as [[Hrole Hc] Hrp].
      apply list_elem_of_fmap in Hrole as (ur & Hrole & Hur).
      apply list_elem_of_filter in Hur as [Hu Hur].
      exists ur, rp. auto.
    + intros (ur & rp & Hur & Hu & Hrp & Hrole & Hc) Hnil.
      assert (rp ∈ filter (fun r => rp_role r ∈ ur_role <$> filter
                              (fun r => Some (ur_user r) = pk u)
                              (user_roles db)
                            /\ permission__code db (rp_permission r) = Some c)
                          (role_permissions db)) as Hin.
      { apply list_elem_of_filter. split; [split; [|exact Hc]|exact Hrp].
        apply list_elem_of_fmap. exists ur. split; [exact Hrole|].
        apply list_elem_of_filter. auto. }
      rewrite Hnil in Hin. inversion Hin.
Qed.

(** X3. The role layer grants a code exactly when the user holds a role
    that carries it. *)
Theorem _check_role_permission_role_derived db u c :
  _check_role_permission db u c = true <-> role_derived db u c.
Proof. exact (role_layer_role_derived db u c). Qed.

(** Membership in the list [get_user_permissions] returns for an active
    principal that is no superuser. *)
Lemma elem_of_get_user_permissions db u c :
  is_superuser u = false -> is_active u = true ->
  c ∈ get_user_permissions db u
  <-> (role_derived db u c \/ overridden db u true c)
      /\ ~ overridden db u false c.
Proof.
  intros Hs Ha. unfold get_user_permissions. rewrite Hs, Ha. simpl.
  rewrite elem_of_elements, elem_of_difference, !elem_of_union.
  rewrite !elem_of_list_to_set.
  rewrite elem_of_role_permission_codes, !elem_of_user_permission_codes.
  rewrite elem_of_empty. tauto.
Qed.

(** X4. For an active principal that is no superuser, on a database that
    keeps its constraints, a code is among the effective permissions
    exactly when the two lower layers of the engine would grant it: the
    user-layer lookup answers [True], or it answers nothing and the role
    layer grants. *)
Theorem effective_permissions_agree_with_layers db u c :
  is_superuser u = false -> is_active u = true ->
  code_unique (permissions db) -> unique_together (user_permissions db) ->
  c ∈ get_user_permissions db u
  <-> value (_check_user_permission db u c) = Return (Some true)
      \/ (value (_check_user_permission db u c) = Return None
          /\ _check_role_permission db u c = true).
Proof.
  intros Hs Ha Hcode Huniq.
  rewrite (elem_of_get_user_permissions db u c Hs Ha).
  rewrite role_layer_role_derived.
  destruct (user_layer_answer db u c Hcode Huniq)
    as (answer & -> & Hanswer).
  simpl. rewrite <- !Hanswer.
  destruct answer as [[|]|]; split; intros H.
  - left; reflexivity.
  - split; [right; reflexivity|discriminate].
  - destruct H as [_ H]. exfalso. apply H. reflexivity.
  - destruct H as [H|[H _]]; discriminate.
  - destruct H as [[H|H] _]; [right; split; [reflexivity|exact H]|discriminate].
  - destruct H as [H|[_ H]]; [discriminate|]. split; [left; exact H|discriminate].
Qed.

Lemma effective_permissions_agree_with_layers_witness :
  "document.read" ∈ get_user_permissions Scenario.two_roles Scenario.viewer
  <-> value (_check_user_permission Scenario.two_roles Scenario.viewer
                                    "document.read") = Return (Some true)
      \/ (value (_check_user_permission Scenario.two_roles Scenario.viewer
                                        "document.read") = Return None
          /\ _check_role_permission Scenario.two_roles Scenario.viewer
                                    "document.read" = true).
Proof.
  apply effective_permissions_agree_with_layers.
  - reflexivity.
  - reflexivity.
  - exact catalog_code_unique.
  - intros u p. unfold rows_for, Scenario.two_roles. simpl.
    rewrite !filter_cons, filter_nil.
    repeat case_decide; simpl in *; lia.
Defined.

(** ** A principal's decisions depend on its own rows only *)

Lemma filter_own_then {A} (P Q : A -> Prop)
    `{!forall x, Decision (P x), !forall x, Decision (Q x)} (l : list A) :
  filter (fun x => P x /\ Q x) l = filter Q (filter P l).
Proof.
  rewrite list_filter_filter. apply list_filter_iff. tauto.
Qed.

Lemma omap_ext_fun {A B} (f g : A -> option B) (l : list A) :
  (forall x, f x = g x) -> omap f l = omap g l.
Proof.
  intros Hfg. induction l as [|x l IH]; [reflexivity|].
  csimpl. rewrite Hfg, IH. reflexivity.
Qed.

Section Own.

Variables (db1 db2 : DB) (u : User).
Hypothesis Hcatalog : permissions db1 = permissions db2.
Hypothesis Hlinks : role_permissions db1 = role_permissions db2.
Hypothesis Hroles :
  filter (fun r => Some (ur_user r) = pk u) (user_roles db1)
  = filter (fun r => Some (ur_user r) = pk u) (user_roles db2).
Hypothesis Hdirect :
  filter (fun r => Some (up_user r) = pk u) (user_permissions db1)
  = filter (fun r => Some (up_user r) = pk u) (user_permissions db2).
Hypothesis Hresource :
  filter (fun r => Some (res_user r) = pk u) (resource_permissions db1)
  = filter (fun r => Some (res_user r) = pk u) (resource_permissions db2).

Lemma own_permission__code fk :
  permission__code db1 fk = permission__code db2 fk.
Proof using Hcatalog. unfold permission__code. rewrite Hcatalog. reflexivity. Qed.

Lemma own_user_role_ids : user_role_ids db1 u = user_role_ids db2 u.
Proof using Hroles. unfold user_role_ids. rewrite Hroles. reflexivity. Qed.

Lemma own_check_user c :
  _check_user_permission db1 u c = _check_user_permission db2 u c.
Proof using Hcatalog Hdirect.
  unfold _check_user_permission.
  rewrite !(filter_own_then (fun r => Some (up_user r) = pk u)).
  rewrite Hdirect.
  rewrite (list_filter_iff
             (fun r => permission__code db1 (up_permission r) = Some c)
             (fun r => permission__code db2 (up_permission r) = Some c))
    by (intros r; rewrite own_permission__code; reflexivity).
  reflexivity.
Qed.

Lemma own_check_resource c rt rid :
  _check_resource_permission db1 u c rt rid
  = _check_resource_permission db2 u c rt rid.
Proof using Hcatalog Hresource.
  unfold _check_resource_permission.
  rewrite !(filter_own_then (fun r => Some (res_user r) = pk u)).
  rewrite Hresource.
  rewrite (list_filter_iff
             (fun r => res_resource_type r = rt
                       /\ res_resource_id r = str rid
                       /\ permission__code db1 (res_permission r) = Some c)
             (fun r => res_resource_type r = rt
                       /\ res_resource_id r = str rid
                       /\ permission__code db2 (res_permission r) = Some c))
    by (intros r; rewrite own_permission__code; reflexivity).
  reflexivity.
Qed.

Lemma own_check_role c :
  _check_role_permission db1 u c = _check_role_permission db2 u c.
Proof using Hcatalog Hlinks Hroles.
  unfold _check_role_permission.
  rewrite own_user_role_ids, Hlinks.
  rewrite (list_filter_iff
             (fun r => rp_role r ∈ user_role_ids db2 u
                       /\ permission__code db1 (rp_permission r) = Some c)
             (fun r => rp_role r ∈ user_role_ids db2 u
                       /\ permission__code db2 (rp_permission r) = Some c))
    by (intros r; rewrite own_permission__code; reflexivity).
  reflexivity.
Qed.

Lemma own_get_user_permissions :
  get_user_permissions db1 u = get_user_permissions db2 u.
Proof using Hcatalog Hlinks Hroles Hdirect.
  unfold get_user_permissions.
  assert (role_permission_codes db1 u = role_permission_codes db2 u) as ->.
  { unfold role_permission_codes.
    rewrite own_user_role_ids, Hlinks.
    apply omap_ext_fun. intros r. apply own_permission__code. }
  assert (forall g, user_permission_codes db1 u g
                    = user_permission_codes db2 u g) as Hcodes.
  { intros g. unfold user_permission_codes.
    rewrite !(filter_own_then (fun r => Some (up_user r) = pk u)).
    rewrite Hdirect. apply omap_ext_fun.
    intros r. apply own_permission__code. }
  rewrite !Hcodes. reflexivity.
Qed.

End Own.

(** X5. Two databases with the same catalogue and role links, in which the
    principal has the same role assignments, the same direct rows and the
    same resource rows, give it the same effective permissions and the same
    decision on every query: rows of other users never matter. *)
Theorem decisions_depend_on_own_rows db1 db2 u :
  permissions db1 = permissions db2 ->
  role_permissions db1 = role_permissions db2 ->
  filter (fun r => Some (ur_user r) = pk u) (user_roles db1)
  = filter (fun r => Some (ur_user r) = pk u) (user_roles db2) ->
  filter (fun r => Some (up_user r) = pk u) (user_permissions db1)
  = filter (fun r => Some (up_user r) = pk u) (user_permissions db2) ->
  filter (fun r => Some (res_user r) = pk u) (resource_permissions db1)
  = filter (fun r => Some (res_user r) = pk u) (resource_permissions db2) ->
  get_user_permissions db1 u = get_user_permissions db2 u
  /\ (forall c rt rid,
        _check_resource_permission db1 u c rt rid
        = _check_resource_permission db2 u c rt rid
        /\ _check_user_permission db1 u c = _check_user_permission db2 u c
        /\ _check_role_permission db1 u c = _check_role_permission db2 u c)
  /\ (forall globals rt act rid,
        check_permission globals db1 (Some u) rt act rid
        = check_permission globals db2 (Some u) rt act rid).
Proof.
  intros Hcatalog Hlinks Hroles Hdirect Hresource.
  split; [apply own_get_user_permissions; assumption|].
  split.
  - intros c rt rid.
    split; [apply own_check_resource; assumption|].
    split; [apply own_check_user; assumption|].
    apply own_check_role; assumption.
  - intros globals rt act rid. unfold check_permission.
    destruct (is_superuser u); [reflexivity|].
    destruct (is_active u); [|reflexivity].
    unfold load_global.
    destruct (globals !! "permission_code") as [c|]; [|reflexivity].
    simpl.
    rewrite (own_check_resource db1 db2 u Hcatalog Hresource).
    rewrite (own_check_user db1 db2 u Hcatalog Hdirect).
    rewrite (own_check_role db1 db2 u Hcatalog Hlinks Hroles).
    reflexivity.
Qed.

Lemma decisions_depend_on_own_rows_witness :
  get_user_permissions Scenario.layered Scenario.viewer
  = get_user_permissions Fixtures.crowded Scenario.viewer
  /\ (forall c rt rid,
        _check_resource_permission Scenario.layered Scenario.viewer c rt rid
        = _check_resource_permission Fixtures.crowded Scenario.viewer c rt rid
        /\ _check_user_permission Scenario.layered Scenario.viewer c
           = _check_user_permission Fixtures.crowded Scenario.viewer c
        /\ _check_role_permission Scenario.layered Scenario.viewer c
           = _check_role_permission Fixtures.crowded Scenario.viewer c)
  /\ (forall globals rt act rid,
        check_permission globals Scenario.layered (Some Scenario.viewer)
                         rt act rid
        = check_permission globals Fixtures.crowded (Some Scenario.viewer)
                           rt act rid).
Proof.
  apply decisions_depend_on_own_rows; reflexivity.
Defined.

(** ** The decorator [require_permission] *)

Lemma check_permission_true_silent globals db user rt act rid :
  value (check_permission globals db user rt act rid) = Return true ->
  check_permission globals db user rt act rid = ret true.
Proof.
  destruct user as [u|]; [|discriminate].
  destruct (is_superuser u) eqn:Hs;
    [rewrite check_permission_superuser by exact Hs; reflexivity|].
  destruct (is_active u) eqn:Ha;
    [|rewrite check_permission_inactive by assumption; discriminate].
  destruct (globals !! "permission_code") as [c|] eqn:Hg;
    [|rewrite check_permission_unbound by assumption; discriminate].
  rewrite (check_permission_bound _ _ _ c) by assumption.
  pose proof (_check_resource_permission_silent db u c rt rid) as Hr.
  pose proof (_check_user_permission_silent db u c) as Hu.
  destruct (_check_resource_permission db u c rt rid) as [[[g|]|e] lr];
    destruct (_check_user_permission db u c) as [[[g'|]|e'] lu];
    unfold records in Hr, Hu; simpl in Hr, Hu; subst lr lu;
    destruct (truthy rid); simpl;
    try destruct (_check_role_permission db u c); simpl;
    intros H; try reflexivity; try discriminate H;
    unfold ret; f_equal; exact H.
Qed.

(** X6. The wrapped view runs only when the engine grants: on [True] the
    wrapper is the view; on [False] it ends in [PermissionDenied] with the
    message built from the resource type and the action; an exception of
    the engine passes through; and whenever the decision is not [True] the
    outcome does not depend on the view at all. The resource ID handed to
    the engine is the route's [pk], or else its [id]. *)
Theorem require_permission_guards {A} globals db rt act
    (func : Request -> gmap string PyVal -> Eff A) request kwargs :
  let decision :=
    check_permission globals db (principal (request_user request)) rt act
      (if truthy (Services.kwargs_get kwargs "pk")
       then Services.kwargs_get kwargs "pk"
       else Services.kwargs_get kwargs "id") in
  (value decision = Return true ->
     Services.require_permission globals db rt act func request kwargs
     = (result <- func request kwargs ;; ret (Services.Returned result)))
  /\ (value decision = Return false ->
        value (Services.require_permission globals db rt act func
                                           request kwargs)
        = Return (Services.PermissionDenied
                    ("У вас нет разрешения " +:+ rt +:+ "." +:+ act)))
  /\ (forall e, value decision = Raise e ->
        value (Services.require_permission globals db rt act func
                                           request kwargs) = Raise e)
  /\ (value decision <> Return true ->
        forall func' : Request -> gmap string PyVal -> Eff A,
          Services.require_permission globals db rt act func' request kwargs
          = Services.require_permission globals db rt act func
                                        request kwargs).
Proof.
  intros decision.
  unfold Services.require_permission, Services.has_permission, or_.
  fold decision.
  split; [|split; [|split]].
  - intros Htrue. apply check_permission_true_silent in Htrue.
    fold decision in Htrue. rewrite Htrue. simpl.
    destruct (func request kwargs) as [[r|e] l]; reflexivity.
  - destruct decision as [[[|]|e] l]; simpl; intros H;
      try discriminate H; try reflexivity.
  - intros e. destruct decision as [[[|]|e'] l]; simpl; intros H;
      try discriminate H. congruence.
  - intros Hnot func'. destruct decision as [[[|]|e] l]; simpl;
      try reflexivity.
    exfalso; apply Hnot; reflexivity.
Qed.

Lemma require_permission_guards_witness :
  Services.require_permission services_globals Scenario.seeded
    "document" "delete" (fun _ _ => ret 7)
    (mkRequest (Authenticated Scenario.root)) {[ "pk" := PyStr "7" ]}
  = ret (Services.Returned 7)
  /\ value (Services.require_permission services_globals Scenario.seeded
              "document" "delete" (fun _ _ => ret 7)
              (mkRequest (Authenticated Scenario.retired))
              {[ "pk" := PyStr "7" ]})
     = Return (Services.PermissionDenied
                 "У вас нет разрешения document.delete")
  /\ value (Services.require_permission services_globals Scenario.seeded
              "document" "delete" (fun _ _ => ret 7)
              (mkRequest (Authenticated Scenario.viewer))
              {[ "pk" := PyStr "7" ]})
     = Raise (NameError "permission_code").
Proof.
  split; [|split].
  - apply (proj1 (require_permission_guards services_globals Scenario.seeded
                    "document" "delete" (fun _ _ => ret 7)
                    (mkRequest (Authenticated Scenario.root))
                    {[ "pk" := PyStr "7" ]})).
    reflexivity.
  - apply (proj1 (proj2 (require_permission_guards services_globals
                    Scenario.seeded "document" "delete" (fun _ _ => ret 7)
                    (mkRequest (Authenticated Scenario.retired))
                    {[ "pk" := PyStr "7" ]}))).
    reflexivity.
  - apply (proj1 (proj2 (proj2 (require_permission_guards services_globals
                    Scenario.seeded "document" "delete" (fun _ _ => ret 7)
                    (mkRequest (Authenticated Scenario.viewer))
                    {[ "pk" := PyStr "7" ]})))).
    reflexivity.
Defined.

(** ** The permission classes *)

Lemma check_permission_falsy globals db user rt act rid :
  truthy rid = false ->
  check_permission globals db user rt act rid
  = check_permission globals db user rt act PyNone.
Proof.
  intros Hf. unfold check_permission. destruct user as [u|]; [|reflexivity].
  rewrite Hf. reflexivity.
Qed.

(** X7. [IsAdminUser] refuses whoever is not authenticated and admits a
    superuser without asking the engine; an inactive account is refused;
    and, as [services.py] stands, for every other authenticated user the
    check ends in [NameError], whatever roles and grants the user holds. *)
Theorem IsAdminUser_has_permission db request :
  (is_authenticated (request_user request) = false ->
     IsAdminUser.has_permission services_globals db request = ret false)
  /\ (forall u, request_user request = Authenticated u ->
        (is_superuser u = true ->
           IsAdminUser.has_permission services_globals db request = ret true)
        /\ (is_superuser u = false -> is_active u = false ->
              IsAdminUser.has_permission services_globals db request
              = ret false)
        /\ (is_superuser u = false -> is_active u = true ->
              IsAdminUser.has_permission services_globals db request
              = raise (NameError "permission_code"))).
Proof.
  unfold IsAdminUser.has_permission. split.
  - destruct (request_user request); [reflexivity|reflexivity|discriminate].
  - intros u ->. split; [|split].
    + intros ->. reflexivity.
    + intros Hs Ha. rewrite Hs. apply check_permission_inactive; assumption.
    + intros Hs Ha. rewrite Hs.
      apply check_permission_services_active; assumption.
Qed.

Lemma IsAdminUser_has_permission_witness :
  IsAdminUser.has_permission services_globals Scenario.seeded
                             (mkRequest AnonymousUser) = ret false
  /\ IsAdminUser.has_permission services_globals Scenario.seeded
                                (mkRequest (Authenticated Scenario.root))
     = ret true
  /\ IsAdminUser.has_permission services_globals Scenario.seeded
                                (mkRequest (Authenticated Scenario.retired))
     = ret false
  /\ IsAdminUser.has_permission services_globals Scenario.seeded
                                (mkRequest (Authenticated Scenario.viewer))
     = raise (NameError "permission_code").
Proof.
  split.
  { apply (proj1 (IsAdminUser_has_permission Scenario.seeded
                    (mkRequest AnonymousUser))). reflexivity. }
  split.
  { apply (proj1 (proj2 (IsAdminUser_has_permission Scenario.seeded
              (mkRequest (Authenticated Scenario.root)))
            Scenario.root eq_refl)). reflexivity. }
  split.
  { apply (proj1 (proj2 (proj2 (IsAdminUser_has_permission Scenario.seeded
              (mkRequest (Authenticated Scenario.retired)))
            Scenario.retired eq_refl))); reflexivity. }
  apply (proj2 (proj2 (proj2 (IsAdminUser_has_permission Scenario.seeded
            (mkRequest (Authenticated Scenario.viewer)))
          Scenario.viewer eq_refl))); reflexivity.
Defined.

(** X8. The instance gate does not test authentication and takes the
    object's [id], or else its [pk], as the resource ID. On a view without
    a resource type or an action (missing or empty) it permits every
    request; on a protected view an object whose [id] and [pk] are both
    falsy gets the decision of the call without resource ID. *)
Theorem has_object_permission_edges globals db request view obj :
  (not_ (view_resource_type view) = true \/ not_ (view_action view) = true ->
     has_object_permission globals db request view obj = ret true)
  /\ (forall rt op,
        view_resource_type view = Some rt -> view_action view = Some op ->
        rt <> "" -> op <> "" ->
        (truthy (obj_id obj) = true ->
           has_object_permission globals db request view obj
           = check_permission globals db (principal (request_user request))
                              rt (mapped_action op) (obj_id obj))
        /\ (truthy (obj_id obj) = false -> truthy (obj_pk obj) = false ->
              has_object_permission globals db request view obj
              = check_permission globals db
                                 (principal (request_user request))
                                 rt (mapped_action op) PyNone)).
Proof.
  split.
  - unfold has_object_permission.
    destruct (view_resource_type view) as [rt|],
             (view_action view) as [op|]; simpl; try reflexivity.
    intros [-> | ->]; [reflexivity|]. rewrite orb_true_r. reflexivity.
  - intros rt op Hrt Hop Hrt' Hop'.
    rewrite (has_object_permission_mapped globals db request view obj rt op)
      by assumption.
    split.
    + intros ->. reflexivity.
    + intros -> Hpk. apply check_permission_falsy. exact Hpk.
Qed.

Lemma has_object_permission_edges_witness :
  has_object_permission services_globals Scenario.seeded (mkRequest NoUser)
                        (mkView (Some "") (Some "retrieve"))
                        (mkObj (PyInt 7) PyNone)
  = ret true
  /\ has_object_permission (Scenario.bound_to "document.read")
                           Scenario.layered
                           (mkRequest (Authenticated Scenario.viewer))
                           (mkView (Some "document") (Some "retrieve"))
                           (mkObj (PyInt 7) PyNone)
     = check_permission (Scenario.bound_to "document.read") Scenario.layered
                        (Some Scenario.viewer) "document"
                        (mapped_action "retrieve") (PyInt 7)
  /\ has_object_permission (Scenario.bound_to "document.read")
                           Scenario.layered
                           (mkRequest (Authenticated Scenario.viewer))
                           (mkView (Some "document") (Some "retrieve"))
                           (mkObj (PyInt 0) PyNone)
     = check_permission (Scenario.bound_to "document.read") Scenario.layered
                        (Some Scenario.viewer) "document"
                        (mapped_action "retrieve") PyNone.
Proof.
  split.
  { apply (proj1 (has_object_permission_edges services_globals
                    Scenario.seeded (mkRequest NoUser)
                    (mkView (Some "") (Some "retrieve"))
                    (mkObj (PyInt 7) PyNone))).
    left. reflexivity. }
  split.
  { apply (proj1 (proj2 (has_object_permission_edges
              (Scenario.bound_to "document.read") Scenario.layered
              (mkRequest (Authenticated Scenario.viewer))
              (mkView (Some "document") (Some "retrieve"))
              (mkObj (PyInt 7) PyNone))
            "document" "retrieve" eq_refl eq_refl
            ltac:(discriminate) ltac:(discriminate))).
    reflexivity. }
  apply (proj2 (proj2 (has_object_permission_edges
            (Scenario.bound_to "document.read") Scenario.layered
            (mkRequest (Authenticated Scenario.viewer))
            (mkView (Some "document") (Some "retrieve"))
            (mkObj (PyInt 0) PyNone))
          "document" "retrieve" eq_refl eq_refl
          ltac:(discriminate) ltac:(discriminate))); reflexivity.
Defined.

(** X9. The collection gate refuses every request that
    [IsAuthenticated] refuses, whatever the view, and treats a view whose
    resource type or action is the empty string as unprotected. *)
Theorem has_permission_edges globals db request view :
  (IsAuthenticated.has_permission request = false ->
     has_permission globals db request view = ret false)
  /\ (IsAuthenticated.has_permission request = true ->
      view_resource_type view = Some "" \/ view_action view = Some "" ->
      has_permission globals db request view = ret true).
Proof.
  unfold IsAuthenticated.has_permission, has_permission. split.
  - intros ->. reflexivity.
  - intros -> Hempty. simpl.
    destruct (view_resource_type view) as [rt|],
             (view_action view) as [op|]; try reflexivity.
    simpl. destruct Hempty as [[= ->] | [= ->]]; [reflexivity|].
    rewrite orb_true_r. reflexivity.
Qed.

Lemma has_permission_edges_witness :
  has_permission services_globals Scenario.seeded (mkRequest AnonymousUser)
                 (mkView None None) = ret false
  /\ has_permission services_globals Scenario.seeded
                    (mkRequest (Authenticated Scenario.viewer))
                    (mkView (Some "document") (Some "")) = ret true.
Proof.
  split.
  - apply (proj1 (has_permission_edges services_globals Scenario.seeded
                    (mkRequest AnonymousUser) (mkView None None))).
    reflexivity.
  - apply (proj2 (has_permission_edges services_globals Scenario.seeded
                    (mkRequest (Authenticated Scenario.viewer))
                    (mkView (Some "document") (Some "")))).
    + reflexivity.
    + right. reflexivity.
Defined.

(** X10. [IsOwnerOrAdmin] refuses whoever is not authenticated and admits
    a superuser. For any other saved user the first attribute the object
    has, in the order [user], [owner], [created_by], decides alone, by
    equality of keys; an object with none of the three is refused. *)
Theorem IsOwnerOrAdmin_first_attribute_decides request obj :
  (is_authenticated (request_user request) = false ->
     IsOwnerOrAdmin.has_object_permission request obj = false)
  /\ (forall u k, request_user request = Authenticated u -> pk u = Some k ->
        (is_superuser u = true ->
           IsOwnerOrAdmin.has_object_permission request obj = true)
        /\ (is_superuser u = false ->
              (forall holder, IsOwnerOrAdmin.owned_user obj = Some holder ->
                 IsOwnerOrAdmin.has_object_permission request obj
                 = bool_decide (pk holder = Some k))
              /\ (IsOwnerOrAdmin.owned_user obj = None ->
                  forall holder,
                    IsOwnerOrAdmin.owned_owner obj = Some holder ->
                    IsOwnerOrAdmin.has_object_permission request obj
                    = bool_decide (pk holder = Some k))
              /\ (IsOwnerOrAdmin.owned_user obj = None ->
                  IsOwnerOrAdmin.owned_owner obj = None ->
                  forall holder,
                    IsOwnerOrAdmin.owned_created_by obj = Some holder ->
                    IsOwnerOrAdmin.has_object_permission request obj
                    = bool_decide (pk holder = Some k))
              /\ (IsOwnerOrAdmin.owned_user obj = None ->
                  IsOwnerOrAdmin.owned_owner obj = None ->
                  IsOwnerOrAdmin.owned_created_by obj = None ->
                  IsOwnerOrAdmin.has_object_permission request obj
                  = false))).
Proof.
  assert (forall holder u k, pk u = Some k ->
            IsOwnerOrAdmin.model_eq holder u
            = bool_decide (pk holder = Some k)) as Heq.
  { intros holder u k Hk. unfold IsOwnerOrAdmin.model_eq. rewrite Hk.
    destruct (pk holder) as [k'|]; [|reflexivity].
    apply bool_decide_ext. split; congruence. }
  unfold IsOwnerOrAdmin.has_object_permission. split.
  - destruct (request_user request); [reflexivity|reflexivity|discriminate].
  - intros u k -> Hk. split; [intros ->; reflexivity|].
    intros ->. repeat split.
    + intros holder ->. apply Heq, Hk.
    + intros -> holder ->. apply Heq, Hk.
    + intros -> -> holder ->. apply Heq, Hk.
    + intros -> -> ->. reflexivity.
Qed.

Lemma IsOwnerOrAdmin_first_attribute_decides_witness :
  IsOwnerOrAdmin.has_object_permission (mkRequest AnonymousUser)
    (IsOwnerOrAdmin.mkOwned (Some Scenario.viewer) None None) = false
  /\ IsOwnerOrAdmin.has_object_permission
       (mkRequest (Authenticated Scenario.root))
       (IsOwnerOrAdmin.mkOwned (Some Scenario.viewer) None None) = true
  /\ IsOwnerOrAdmin.has_object_permission
       (mkRequest (Authenticated Scenario.viewer))
       (IsOwnerOrAdmin.mkOwned (Some Scenario.retired)
                               (Some Scenario.viewer) None)
     = bool_decide (pk Scenario.retired = Some 4).
Proof.
  split.
  { apply (proj1 (IsOwnerOrAdmin_first_attribute_decides
                    (mkRequest AnonymousUser)
                    (IsOwnerOrAdmin.mkOwned (Some Scenario.viewer) None None))).
    reflexivity. }
  split.
  { apply (proj1 (proj2 (IsOwnerOrAdmin_first_attribute_decides
              (mkRequest (Authenticated Scenario.root))
              (IsOwnerOrAdmin.mkOwned (Some Scenario.viewer) None None))
            Scenario.root 1 eq_refl eq_refl)).
    reflexivity. }
  apply (proj1 (proj2 (proj2 (IsOwnerOrAdmin_first_attribute_decides
            (mkRequest (Authenticated Scenario.viewer))
            (IsOwnerOrAdmin.mkOwned (Some Scenario.retired)
                                    (Some Scenario.viewer) None))
          Scenario.viewer 4 eq_refl eq_refl) eq_refl)).
  reflexivity.
Defined.

(** ** Assigning and revoking roles *)

Lemma find_user_found db user_id target :
  filter (fun u => pk u = Some user_id) (users db) = [target] ->
  Administration.find_user db user_id = ret (Some target)
  /\ pk target = Some user_id.
Proof.
  intros Hrows. unfold Administration.find_user. rewrite Hrows.
  split; [reflexivity|].
  assert (target ∈ filter (fun u => pk u = Some user_id) (users db)) as Hin
    by (rewrite Hrows; left).
  apply list_elem_of_filter in Hin as [? _]. assumption.
Qed.

Lemma find_role_found db role_id role :
  filter (fun r => role_pk r = role_id) (roles db) = [role] ->
  role_pk role = role_id.
Proof.
  intros Hrows.
  assert (role ∈ filter (fun r => role_pk r = role_id) (roles db)) as Hin
    by (rewrite Hrows; left).
  apply list_elem_of_filter in Hin as [? _]. assumption.
Qed.

Lemma set_user_roles_same db : Administration.set_user_roles db (user_roles db) = db.
Proof. destruct db; reflexivity. Qed.

Lemma filter_none_complement {A} (P : A -> Prop)
    `{!forall x, Decision (P x)} (l : list A) :
  filter P l = [] -> filter (fun x => ~ P x) l = l.
Proof.
  induction l as [|x l IH]; [reflexivity|].
  rewrite filter_cons. case_decide as HP; [discriminate|].
  intros Hnil. rewrite filter_cons_True by exact HP. f_equal. auto.
Qed.

Lemma assign_role_to_user_new db request user_id target role role_id :
  filter (fun u => pk u = Some user_id) (users db) = [target] ->
  filter (fun r => role_pk r = role_id) (roles db) = [role] ->
  Administration.validated_role_id request = Some role_id ->
  filter (fun r => ur_user r = user_id /\ ur_role r = role_id)
         (user_roles db) = [] ->
  Administration.assign_role_to_user db request user_id
  = ret (Administration.response
           (Views.message ("Роль " +:+ role_name role
                           +:+ " назначена пользователю " +:+ email target))
           Views.HTTP_201_CREATED,
         Administration.set_user_roles db
           (user_roles db
            ++ [mkUserRole user_id role_id
                           (pk (Administration.role_admin request))])).
Proof.
  intros Huser Hrole Hvalid Hfree.
  destruct (find_user_found db user_id target Huser) as [Hfind Hpk].
  pose proof (find_role_found db role_id role Hrole) as Hrid.
  unfold Administration.assign_role_to_user.
  rewrite Hfind. simpl. rewrite Hvalid, Hrole. simpl.
  rewrite (list_filter_iff _
             (fun r => ur_user r = user_id /\ ur_role r = role_id))
    by (intros r; rewrite Hpk, Hrid; split; intros [? ?]; split; congruence).
  rewrite Hfree. simpl. rewrite Hpk, Hrid. reflexivity.
Qed.

Lemma assign_role_to_user_held db request user_id target role role_id :
  filter (fun u => pk u = Some user_id) (users db) = [target] ->
  filter (fun r => role_pk r = role_id) (roles db) = [role] ->
  Administration.validated_role_id request = Some role_id ->
  filter (fun r => ur_user r = user_id /\ ur_role r = role_id)
         (user_roles db) <> [] ->
  Administration.assign_role_to_user db request user_id
  = ret (Administration.response
           (Views.error "Роль уже назначена этому пользователю")
           Views.HTTP_400_BAD_REQUEST,
         db).
Proof.
  intros Huser Hrole Hvalid Hheld.
  destruct (find_user_found db user_id target Huser) as [Hfind Hpk].
  pose proof (find_role_found db role_id role Hrole) as Hrid.
  unfold Administration.assign_role_to_user.
  rewrite Hfind. simpl. rewrite Hvalid, Hrole. simpl.
  rewrite (list_filter_iff _
             (fun r => ur_user r = user_id /\ ur_role r = role_id))
    by (intros r; rewrite Hpk, Hrid; split; intros [? ?]; split; congruence).
  rewrite bool_decide_eq_true_2 by exact Hheld. reflexivity.
Qed.

(** X11. Assigning a role that an existing user does not hold yet answers
    201 and appends exactly one link, recording who assigned it; assigning
    it again answers 400 and leaves the database as the first call left
    it. *)
Theorem assign_role_twice db request1 request2 user_id target role role_id :
  filter (fun u => pk u = Some user_id) (users db) = [target] ->
  filter (fun r => role_pk r = role_id) (roles db) = [role] ->
  Administration.validated_role_id request1 = Some role_id ->
  Administration.validated_role_id request2 = Some role_id ->
  filter (fun r => ur_user r = user_id /\ ur_role r = role_id)
         (user_roles db) = [] ->
  exists response1 db1 response2,
    Administration.assign_role_to_user db request1 user_id
    = ret (response1, db1)
    /\ Views.status response1 = Views.HTTP_201_CREATED
    /\ user_roles db1
       = user_roles db
         ++ [mkUserRole user_id role_id
                        (pk (Administration.role_admin request1))]
    /\ Administration.assign_role_to_user db1 request2 user_id
       = ret (response2, db1)
    /\ Views.status response2 = Views.HTTP_400_BAD_REQUEST.
Proof.
  intros Huser Hrole Hvalid1 Hvalid2 Hfree.
  eexists _, _, _.
  split; [apply (assign_role_to_user_new db request1 user_id target role
                   role_id); assumption|].
  split; [reflexivity|]. split; [reflexivity|].
  assert (Administration.assign_role_to_user
            (Administration.set_user_roles db
               (user_roles db
                ++ [mkUserRole user_id role_id
                      (pk (Administration.role_admin request1))]))
            request2 user_id
          = ret (Administration.response
                   (Views.error "Роль уже назначена этому пользователю")
                   Views.HTTP_400_BAD_REQUEST,
                 Administration.set_user_roles db
                   (user_roles db
                    ++ [mkUserRole user_id role_id
                          (pk (Administration.role_admin request1))])))
    as Hsecond.
  { apply (assign_role_to_user_held _ request2 user_id target role role_id);
      try assumption.
    simpl. rewrite filter_app, Hfree.
    rewrite filter_cons_True by (simpl; auto). discriminate. }
  split; [exact Hsecond|reflexivity].
Qed.

Lemma assign_role_twice_witness :
  exists response1 db1 response2,
    Administration.assign_role_to_user Scenario.seeded
      (Administration.mkRoleRequest Scenario.root (Views.Valid 3)) 4
    = ret (response1, db1)
    /\ Views.status response1 = Views.HTTP_201_CREATED
    /\ user_roles db1
       = user_roles Scenario.seeded ++ [mkUserRole 4 3 (Some 1)]
    /\ Administration.assign_role_to_user db1
         (Administration.mkRoleRequest Scenario.auditor (Views.Valid 3)) 4
       = ret (response2, db1)
    /\ Views.status response2 = Views.HTTP_400_BAD_REQUEST.
Proof.
  apply (assign_role_twice Scenario.seeded
           (Administration.mkRoleRequest Scenario.root (Views.Valid 3))
           (Administration.mkRoleRequest Scenario.auditor (Views.Valid 3))
           4 Scenario.viewer (mkRole 3 "editor") 3); reflexivity.
Defined.

(** X12. Revoking a role right after it was assigned answers 200 and
    gives back the database as it was before the assignment; revoking a
    role the user does not hold answers 404 and changes nothing. *)
Theorem assign_then_revoke_role db request1 request2 user_id target role
    role_id :
  filter (fun u => pk u = Some user_id) (users db) = [target] ->
  filter (fun r => role_pk r = role_id) (roles db) = [role] ->
  Administration.validated_role_id request1 = Some role_id ->
  Administration.validated_role_id request2 = Some role_id ->
  filter (fun r => ur_user r = user_id /\ ur_role r = role_id)
         (user_roles db) = [] ->
  (exists response0,
     Administration.revoke_role_from_user db request2 user_id
     = ret (response0, db)
     /\ Views.status response0 = Views.HTTP_404_NOT_FOUND)
  /\ exists response1 db1 response2,
       Administration.assign_role_to_user db request1 user_id
       = ret (response1, db1)
       /\ Administration.revoke_role_from_user db1 request2 user_id
          = ret (response2, db)
       /\ Views.status response2 = Views.HTTP_200_OK.
Proof.
  intros Huser Hrole Hvalid1 Hvalid2 Hfree.
  destruct (find_user_found db user_id target Huser) as [Hfind Hpk].
  assert (forall table : list UserRole,
            filter (fun r => Some (ur_user r) = pk target
                             /\ ur_role r = role_id) table
            = filter (fun r => ur_user r = user_id /\ ur_role r = role_id)
                     table) as Hsame.
  { intros table. apply list_filter_iff. intros r. rewrite Hpk.
    split; intros [? ?]; split; congruence. }
  split.
  - eexists. unfold Administration.revoke_role_from_user.
    rewrite Hfind. simpl. rewrite Hvalid2, Hsame, Hfree.
    split; reflexivity.
  - eexists _, _, _.
    split; [apply (assign_role_to_user_new db request1 user_id target role
                     role_id); assumption|].
    enough (Administration.revoke_role_from_user
              (Administration.set_user_roles db
                 (user_roles db
                  ++ [mkUserRole user_id role_id
                        (pk (Administration.role_admin request1))]))
              request2 user_id
            = ret (Administration.response
                     (Views.message "Роль отозвана у пользователя")
                     Views.HTTP_200_OK, db)) as Hrevoke
      by (split; [exact Hrevoke|reflexivity]).
    unfold Administration.revoke_role_from_user.
    assert (Administration.find_user
              (Administration.set_user_roles db
                 (user_roles db
                  ++ [mkUserRole user_id role_id
                        (pk (Administration.role_admin request1))]))
              user_id = ret (Some target)) as -> by exact Hfind.
    simpl. rewrite Hvalid2, Hsame, filter_app, Hfree.
    rewrite filter_cons_True by (simpl; auto). simpl.
    rewrite (list_filter_iff
               (fun r => ~ (Some (ur_user r) = pk target
                            /\ ur_role r = role_id))
               (fun r => ~ (ur_user r = user_id /\ ur_role r = role_id)))
      by (intros r; rewrite Hpk; split; intros Hn [? ?]; apply Hn;
          split; congruence).
    rewrite filter_app, (filter_none_complement _ _ Hfree).
    rewrite filter_cons_False by (simpl; tauto).
    rewrite filter_nil, app_nil_r.
    destruct db; reflexivity.
Qed.

Lemma assign_then_revoke_role_witness :
  (exists response0,
     Administration.revoke_role_from_user Scenario.seeded
       (Administration.mkRoleRequest Scenario.auditor (Views.Valid 3)) 4
     = ret (response0, Scenario.seeded)
     /\ Views.status response0 = Views.HTTP_404_NOT_FOUND)
  /\ exists response1 db1 response2,
       Administration.assign_role_to_user Scenario.seeded
         (Administration.mkRoleRequest Scenario.root (Views.Valid 3)) 4
       = ret (response1, db1)
       /\ Administration.revoke_role_from_user db1
            (Administration.mkRoleRequest Scenario.auditor (Views.Valid 3)) 4
          = ret (response2, Scenario.seeded)
       /\ Views.status response2 = Views.HTTP_200_OK.
Proof.
  apply (assign_then_revoke_role Scenario.seeded
           (Administration.mkRoleRequest Scenario.root (Views.Valid 3))
           (Administration.mkRoleRequest Scenario.auditor (Views.Valid 3))
           4 Scenario.viewer (mkRole 3 "editor") 3); reflexivity.
Defined.

(** ** What an error answer leaves behind *)

Lemma bind_Return {A B} (a : A) l (k : A -> Eff B) :
  Py.bind (Return a, l) k = (value (k a), l ++ records (k a)).
Proof. unfold Py.bind. destruct (k a). reflexivity. Qed.

Lemma bind_Raise {A B} e l (k : A -> Eff B) :
  Py.bind (Raise e, l) k = (Raise e, l).
Proof. reflexivity. Qed.

Ltac run_view :=
  unfold ret, raise;
  repeat first
    [ rewrite bind_Return
    | rewrite bind_Raise
    | progress cbn [value records fst snd try_except]
    | match goal with
      | |- context [match ?x with _ => _ end] => is_var x; destruct x
      end
    | match goal with
      | |- context [Py.bind ?c _] =>
        lazymatch c with
        | (_, _) => fail
        | _ => destruct c as [[?|?] ?] eqn:?
        end
      end
    | match goal with
      | |- context [match ?x with _ => _ end] =>
        lazymatch x with
        | (_, _) => fail
        | _ => destruct x eqn:?
        end
      end ].

Ltac kept_or_not_refused :=
  intros Hrun [H200 H201]; revert Hrun; run_view; intros Hrun;
  try discriminate Hrun; inversion Hrun; subst; simpl in *;
  try reflexivity; try (exfalso; apply H200; reflexivity);
  try (exfalso; apply H201; reflexivity).

Lemma assign_role_to_user_refused_keeps db request user_id response db' l :
  Administration.assign_role_to_user db request user_id
  = (Return (response, db'), l) ->
  refused response -> db' = db.
Proof.
  unfold Administration.assign_role_to_user. kept_or_not_refused.
Qed.

Lemma revoke_role_from_user_refused_keeps db request user_id response db' l :
  Administration.revoke_role_from_user db request user_id
  = (Return (response, db'), l) ->
  refused response -> db' = db.
Proof.
  unfold Administration.revoke_role_from_user.
  kept_or_not_refused.
Qed.

Lemma grant_permission_to_user_refused_keeps now db request user_id
    response db' l :
  Views.grant_permission_to_user now db request user_id
  = (Return (response, db'), l) ->
  refused response -> db' = db.
Proof.
  unfold Views.grant_permission_to_user. kept_or_not_refused.
Qed.

Lemma revoke_permission_from_user_refused_keeps int_ db request user_id
    response db' l :
  Administration.revoke_permission_from_user int_ db request user_id
  = (Return (response, db'), l) ->
  refused response -> db' = db.
Proof.
  unfold Administration.revoke_permission_from_user.
  kept_or_not_refused.
Qed.

Lemma add_permission_refused_keeps int_ db request role response db' l :
  Administration.add_permission int_ db request role
  = (Return (response, db'), l) ->
  refused response -> db' = db.
Proof.
  unfold Administration.add_permission. kept_or_not_refused.
Qed.

Lemma remove_permission_refused_keeps int_ db request role response db' l :
  Administration.remove_permission int_ db request role
  = (Return (response, db'), l) ->
  refused response -> db' = db.
Proof.
  unfold Administration.remove_permission.
  kept_or_not_refused.
Qed.

(** X13. None of the six administrative views writes when it answers with
    an error status: whenever the answer is neither 200 nor 201 the
    database it leaves is the one it was given. *)
Theorem refused_answers_keep_the_database
    int_ now db user_id role role_request grant_request data_request
    response db' l :
  refused response ->
  (Administration.assign_role_to_user db role_request user_id
   = (Return (response, db'), l) -> db' = db)
  /\ (Administration.revoke_role_from_user db role_request user_id
      = (Return (response, db'), l) -> db' = db)
  /\ (Views.grant_permission_to_user now db grant_request user_id
      = (Return (response, db'), l) -> db' = db)
  /\ (Administration.revoke_permission_from_user int_ db data_request user_id
      = (Return (response, db'), l) -> db' = db)
  /\ (Administration.add_permission int_ db data_request role
      = (Return (response, db'), l) -> db' = db)
  /\ (Administration.remove_permission int_ db data_request role
      = (Return (response, db'), l) -> db' = db).
Proof.
  intros Hrefused. repeat split; intros Hrun.
  - eapply assign_role_to_user_refused_keeps; eassumption.
  - eapply revoke_role_from_user_refused_keeps; eassumption.
  - eapply grant_permission_to_user_refused_keeps; eassumption.
  - eapply revoke_permission_from_user_refused_keeps; eassumption.
  - eapply add_permission_refused_keeps; eassumption.
  - eapply remove_permission_refused_keeps; eassumption.
Qed.

Lemma refused_answers_keep_the_database_witness :
  refused (Administration.response (Views.error "Пользователь не найден")
                                   Views.HTTP_404_NOT_FOUND)
  /\ Administration.assign_role_to_user Scenario.seeded
       (Administration.mkRoleRequest Scenario.root (Views.Valid 4)) 99
     = (Return (Administration.response
                  (Views.error "Пользователь не найден")
                  Views.HTTP_404_NOT_FOUND,
                Scenario.seeded), [])
  /\ Scenario.seeded = Scenario.seeded.
Proof.
  split; [split; discriminate|]. split; [reflexivity|].
  apply (proj1 (refused_answers_keep_the_database
                  (fun _ => None) 0 Scenario.seeded 99 (mkRole 4 "viewer")
                  (Administration.mkRoleRequest Scenario.root (Views.Valid 4))
                  (Views.mkRequest Scenario.root (Views.Valid 1) Views.Missing)
                  (Administration.mkDataRequest Scenario.root ∅)
                  (Administration.response
                     (Views.error "Пользователь не найден")
                     Views.HTTP_404_NOT_FOUND)
                  Scenario.seeded []
                  ltac:(split; discriminate))).
  reflexivity.
Defined.

(** ** The upsert keeps the constraints and touches one pair only *)

Lemma update_or_create_outcome
    now table target permission granted admin obj created table' l :
  Views.update_or_create now table target permission granted admin
  = (Return (obj, created, table'), l) ->
  up_is_granted obj = granted
  /\ up_granted_by obj = pk admin
  /\ Some (up_user obj) = pk target
  /\ up_permission obj = permission_id permission
  /\ ((created = true /\ table' = table ++ [obj]
       /\ up_id obj = Views.next_id table
       /\ filter (fun r => Some (up_user r) = pk target
                           /\ up_permission r = permission_id permission)
                 table = [])
      \/ (created = false /\ table' = Views.save obj table
          /\ exists old,
               old ∈ table /\ up_id obj = up_id old
               /\ up_user obj = up_user old
               /\ up_permission obj = up_permission old)).
Proof.
  unfold Views.update_or_create.
  destruct (filter _ table) as [|old [|other rest]] eqn:Hrows; simpl.
  - destruct (pk target) as [target_id|] eqn:Hpk; [|discriminate].
    intros [= <- <- <- <-]. simpl. repeat split; try reflexivity.
    left. repeat split; reflexivity.
  - intros [= <- <- <- <-]. simpl.
    assert (old ∈ filter (fun r => Some (up_user r) = pk target
                                   /\ up_permission r
                                      = permission_id permission) table)
      as Hin by (rewrite Hrows; left).
    apply list_elem_of_filter in Hin as [[Hu Hp] Hold].
    repeat split; try reflexivity; try assumption.
    right. repeat split. exists old. auto.
  - discriminate.
Qed.

Lemma rows_for_app table1 table2 u p :
  rows_for (table1 ++ table2) u p = rows_for table1 u p ++ rows_for table2 u p.
Proof. apply filter_app. Qed.

Lemma save_other_rows (table : list UserPermission) old obj u p :
  primary_key table -> old ∈ table -> up_id obj = up_id old ->
  (up_user old <> u \/ up_permission old <> p) ->
  Views.save obj (rows_for table u p) = rows_for table u p.
Proof.
  intros Hpk Hold Hid Hother. unfold Views.save.
  rewrite <- (list_fmap_id (rows_for table u p)) at 2.
  apply list_fmap_ext. intros i r Hr%list_elem_of_lookup_2.
  apply list_elem_of_filter in Hr as [[Hu Hp] Hr].
  destruct (save_row table old obj Hpk Hold Hid r Hr) as [[-> _]|[_ ->]];
    [|reflexivity].
  exfalso. destruct Hother; congruence.
Qed.

Lemma update_or_create_keeps
    now table target permission granted admin obj created table' l :
  Views.update_or_create now table target permission granted admin
  = (Return (obj, created, table'), l) ->
  primary_key table -> unique_together table ->
  primary_key table' /\ unique_together table'
  /\ forall u p, (up_user obj <> u \/ up_permission obj <> p) ->
                 rows_for table' u p = rows_for table u p.
Proof.
  intros Hrun Hpk Huniq.
  apply update_or_create_outcome in Hrun
    as (_ & _ & Huser & Hperm
        & [(-> & -> & Hid & Hfree)|(-> & -> & old & Hold & Hid & Hu & Hp)]).
  - assert (rows_for table (up_user obj) (up_permission obj) = []) as Hnone.
    { rewrite <- Hfree. apply list_filter_iff. intros r.
      rewrite <- Huser, Hperm. split; intros [? ?]; split; congruence. }
    split; [|split].
    + unfold primary_key. rewrite fmap_app. apply NoDup_app.
      split; [exact Hpk|]. split; [|apply NoDup_singleton].
      intros x Hx Hx'. apply list_elem_of_singleton in Hx'. subst x.
      simpl in Hx. rewrite Hid in Hx. exact (next_id_fresh table Hx).
    + intros u p. rewrite rows_for_app, length_app.
      destruct (decide (up_user obj = u /\ up_permission obj = p))
        as [[<- <-]|Hne].
      * rewrite Hnone. simpl. etrans; [apply length_filter|]. simpl. lia.
      * unfold rows_for at 2. rewrite filter_cons_False by exact Hne.
        rewrite filter_nil. simpl. rewrite Nat.add_0_r. apply Huniq.
    + intros u p Hother. rewrite rows_for_app.
      unfold rows_for at 2. rewrite filter_cons_False by tauto.
      rewrite filter_nil. apply app_nil_r.
  - split; [|split].
    + unfold primary_key. rewrite (save_keeps_keys table old obj) by auto.
      exact Hpk.
    + intros u p. rewrite (save_rows_for table old obj) by auto.
      unfold Views.save. rewrite length_fmap. apply Huniq.
    + intros u p Hother. rewrite (save_rows_for table old obj) by auto.
      apply (save_other_rows table old); auto.
      rewrite <- Hu, <- Hp. exact Hother.
Qed.

Lemma grant_permission_to_user_keeps
    now db request user_id response db' l :
  Views.grant_permission_to_user now db request user_id
  = (Return (response, db'), l) ->
  (users db' = users db /\ permissions db' = permissions db
   /\ roles db' = roles db /\ user_roles db' = user_roles db
   /\ role_permissions db' = role_permissions db
   /\ resource_permissions db' = resource_permissions db)
  /\ (primary_key (user_permissions db) ->
      unique_together (user_permissions db) ->
      primary_key (user_permissions db')
      /\ unique_together (user_permissions db')
      /\ forall u p,
           (u <> user_id \/ Views.data_permission_id request <> Views.Valid p) ->
           rows_for (user_permissions db') u p
           = rows_for (user_permissions db) u p).
Proof.
  unfold Views.grant_permission_to_user.
  destruct (try_except _ (is_DoesNotExist "User") _)
    as [[[target|]|e] l0] eqn:Hfind; rewrite ?bind_Return, ?bind_Raise;
    cbn [value records fst snd]; [| |discriminate].
  2:{ intros [= <- <- <-]. repeat split; auto. }
  assert (pk target = Some user_id) as Hpk.
  { revert Hfind. unfold try_except, objects_get.
    destruct (filter (fun u => pk u = Some user_id) (users db))
      as [|t [|t' rest]] eqn:Hrows; simpl; try discriminate.
    intros [= <- <-].
    assert (t ∈ filter (fun u => pk u = Some user_id) (users db)) as Hin
      by (rewrite Hrows; left).
    apply list_elem_of_filter in Hin as [? _]. assumption. }
  destruct (Views.validated_data request) as [[pid granted]|] eqn:Hvalid.
  2:{ intros [= <- <- <-]. repeat split; auto. }
  assert (Views.data_permission_id request = Views.Valid pid) as Hpid.
  { revert Hvalid. unfold Views.validated_data.
    destruct (Views.data_permission_id request),
             (Views.data_is_granted request); congruence. }
  destruct (try_except _ (is_DoesNotExist "Permission") _)
    as [[[permission|]|e] l1] eqn:Hperm; rewrite ?bind_Return, ?bind_Raise;
    cbn [value records fst snd]; [| |discriminate].
  2:{ intros [= <- <- <-]. repeat split; auto. }
  assert (permission_id permission = pid) as Hid.
  { revert Hperm. unfold try_except, objects_get.
    destruct (filter (fun p => permission_id p = pid) (permissions db))
      as [|t [|t' rest]] eqn:Hrows; simpl; try discriminate.
    intros [= <- <-].
    assert (t ∈ filter (fun p => permission_id p = pid) (permissions db))
      as Hin by (rewrite Hrows; left).
    apply list_elem_of_filter in Hin as [? _]. assumption. }
  destruct (Views.update_or_create now (user_permissions db) target
              permission granted (Views.user request))
    as [[[[obj created] table']|e] l2] eqn:Hupsert;
    rewrite ?bind_Return, ?bind_Raise; cbn [value records fst snd];
    [|discriminate].
  intros [= <- <- <-]. split; [repeat split; reflexivity|].
  intros Hkey Huniq.
  destruct (update_or_create_keeps _ _ _ _ _ _ _ _ _ _ Hupsert Hkey Huniq)
    as (Hkey' & Huniq' & Hother).
  split; [exact Hkey'|]. split; [exact Huniq'|].
  intros u p Hne. apply Hother.
  apply update_or_create_outcome in Hupsert as (_ & _ & Hu & Hp & _).
  rewrite Hpk in Hu. injection Hu as Hu. rewrite Hu, Hp, Hid.
  destruct Hne as [Hne|Hne]; [left; congruence|right].
  intros <-. apply Hne. exact Hpid.
Qed.

(** X14. Whatever it answers, [grant_permission_to_user] writes to the
    [UserPermission] table only; it keeps the table's primary key and its
    [unique_together] constraint; and it leaves the rows of every pair
    other than the (user, permission) it was called for as they were. *)
Theorem grant_permission_to_user_frame
    now db request user_id response db' l :
  Views.grant_permission_to_user now db request user_id
  = (Return (response, db'), l) ->
  (users db' = users db /\ permissions db' = permissions db
   /\ roles db' = roles db /\ user_roles db' = user_roles db
   /\ role_permissions db' = role_permissions db
   /\ resource_permissions db' = resource_permissions db)
  /\ (primary_key (user_permissions db) ->
      unique_together (user_permissions db) ->
      primary_key (user_permissions db')
      /\ unique_together (user_permissions db')
      /\ forall u p,
           (u <> user_id \/ Views.data_permission_id request <> Views.Valid p) ->
           rows_for (user_permissions db') u p
           = rows_for (user_permissions db) u p).
Proof. exact (grant_permission_to_user_keeps now db request user_id response db' l). Qed.

Lemma filter_all {A} (P : A -> Prop) `{!forall x, Decision (P x)}
    (l : list A) :
  (forall x, x ∈ l -> P x) -> filter P l = l.
Proof.
  induction l as [|x l IH]; intros Hall; [reflexivity|].
  rewrite filter_cons_True by (apply Hall; left).
  f_equal. apply IH. intros y Hy. apply Hall. right. exact Hy.
Qed.

Lemma small_table_unique_together (r1 r2 : UserPermission) :
  (up_user r1 <> up_user r2 \/ up_permission r1 <> up_permission r2) ->
  unique_together [r1; r2].
Proof.
  intros Hne u p. unfold rows_for. rewrite !filter_cons, filter_nil.
  repeat case_decide; simpl; lia.
Qed.

Lemma grant_permission_to_user_frame_witness :
  exists response db',
    Views.grant_permission_to_user 300 Fixtures.crowded
      (Views.mkRequest Scenario.root (Views.Valid 5) Views.Missing) 4
    = (Return (response, db'), [])
    /\ primary_key (user_permissions db')
    /\ unique_together (user_permissions db')
    /\ rows_for (user_permissions db') 5 1
       = rows_for (user_permissions Fixtures.crowded) 5 1.
Proof.
  eexists _, _. split; [reflexivity|].
  assert (primary_key (user_permissions Fixtures.crowded)) as Hkey0.
  { unfold primary_key. simpl. apply NoDup_cons. split.
    - rewrite list_elem_of_singleton. discriminate.
    - apply NoDup_singleton. }
  assert (unique_together (user_permissions Fixtures.crowded)) as Huniq0.
  { apply small_table_unique_together. left. discriminate. }
  destruct (proj2 (grant_permission_to_user_frame 300 Fixtures.crowded
              (Views.mkRequest Scenario.root (Views.Valid 5) Views.Missing) 4
              _ _ [] eq_refl) Hkey0 Huniq0)
    as (Hkey & Huniq & Hother).
  split; [exact Hkey|]. split; [exact Huniq|].
  apply Hother. left. discriminate.
Defined.

(** ** Revoking a direct permission *)

Lemma find_permission_found db pid permission :
  filter (fun p => permission_id p = pid) (permissions db) = [permission] ->
  permission_id permission = pid
  /\ permission__code db pid = Some (code permission).
Proof.
  intros Hrows.
  assert (permission ∈ filter (fun p => permission_id p = pid)
                              (permissions db)) as Hin
    by (rewrite Hrows; left).
  apply list_elem_of_filter in Hin as [? _]. split; [assumption|].
  unfold permission__code. rewrite Hrows. reflexivity.
Qed.

Lemma grant_permission_to_user_creates
    now db request user_id target permission pid granted :
  filter (fun u => pk u = Some user_id) (users db) = [target] ->
  filter (fun p => permission_id p = pid) (permissions db) = [permission] ->
  Views.validated_data request = Some (pid, granted) ->
  rows_for (user_permissions db) user_id pid = [] ->
  exists response,
    Views.grant_permission_to_user now db request user_id
    = ret (response,
           Views.set_user_permissions db
             (user_permissions db
              ++ [mkUserPermission (Views.next_id (user_permissions db))
                    user_id pid granted now (pk (Views.user request))]))
    /\ Views.status response = Views.HTTP_201_CREATED.
Proof.
  intros Huser Hperm Hvalid Hfree.
  destruct (find_user_found db user_id target Huser) as [_ Hpk].
  destruct (find_permission_found db pid permission Hperm) as [Hpid _].
  unfold Views.grant_permission_to_user.
  rewrite Huser. simpl. rewrite Hvalid, Hperm. simpl.
  unfold Views.update_or_create.
  rewrite (update_or_create_lookup _ _ _ _ Hpk), Hpid, Hfree. simpl.
  rewrite Hpk, ?Hpid. simpl. eexists. split; reflexivity.
Qed.

(** X15. Revoking a direct permission right after it was created answers
    200 and gives back exactly the database as it was before the grant. *)
Theorem grant_then_revoke_permission
    int_ now db request1 request2 user_id target permission pid granted :
  filter (fun u => pk u = Some user_id) (users db) = [target] ->
  filter (fun p => permission_id p = pid) (permissions db) = [permission] ->
  Views.validated_data request1 = Some (pid, granted) ->
  Administration.data request2 !! "permission_id" = Some (PyInt pid) ->
  pid <> 0 ->
  rows_for (user_permissions db) user_id pid = [] ->
  exists response1 db1 response2,
    Views.grant_permission_to_user now db request1 user_id
    = ret (response1, db1)
    /\ Views.status response1 = Views.HTTP_201_CREATED
    /\ Administration.revoke_permission_from_user int_ db1 request2 user_id
       = ret (response2, db)
    /\ Views.status response2 = Views.HTTP_200_OK.
Proof.
  intros Huser Hperm Hvalid Hdata Hpid Hfree.
  destruct (grant_permission_to_user_creates now db request1 user_id target
              permission pid granted Huser Hperm Hvalid Hfree)
    as (response1 & Hgrant & Hstatus).
  destruct (find_user_found db user_id target Huser) as [Hfind Hpk].
  eexists _, _, _. split; [exact Hgrant|]. split; [exact Hstatus|].
  enough (Administration.revoke_permission_from_user int_
            (Views.set_user_permissions db
               (user_permissions db
                ++ [mkUserPermission (Views.next_id (user_permissions db))
                      user_id pid granted now (pk (Views.user request1))]))
            request2 user_id
          = ret (Administration.response
                   (Views.message "Разрешение отозвано у пользователя")
                   Views.HTTP_200_OK, db)) as Hrevoke
    by (split; [exact Hrevoke|reflexivity]).
  unfold Administration.revoke_permission_from_user.
  assert (Administration.find_user
            (Views.set_user_permissions db
               (user_permissions db
                ++ [mkUserPermission (Views.next_id (user_permissions db))
                      user_id pid granted now (pk (Views.user request1))]))
            user_id = ret (Some target)) as -> by exact Hfind.
  simpl. unfold Administration.data_permission_id. rewrite Hdata. simpl.
  replace (pid =? 0) with false by (symmetry; apply Z.eqb_neq, Hpid).
  simpl.
  rewrite (list_filter_iff
             (fun r => Some (up_user r) = pk target
                       /\ Some (up_permission r) = Some pid)
             (fun r => up_user r = user_id /\ up_permission r = pid))
    by (intros r; rewrite Hpk; split; intros [? ?]; split; congruence).
  rewrite filter_app. unfold rows_for in Hfree. rewrite Hfree.
  rewrite filter_cons_True by (simpl; auto). simpl.
  rewrite filter_app.
  rewrite filter_cons_False by (simpl; intros Hne; apply Hne; reflexivity).
  rewrite filter_nil, app_nil_r.
  replace (filter _ (user_permissions db)) with (user_permissions db).
  - destruct db; reflexivity.
  - symmetry. apply filter_all.
    intros r Hr. apply next_id_above in Hr. simpl. lia.
Qed.

Lemma grant_then_revoke_permission_witness :
  exists response1 db1 response2,
    Views.grant_permission_to_user 200 Scenario.seeded
      (Views.mkRequest Scenario.root (Views.Valid 2) (Views.Valid false)) 4
    = ret (response1, db1)
    /\ Views.status response1 = Views.HTTP_201_CREATED
    /\ Administration.revoke_permission_from_user (fun _ => None) db1
         (Administration.mkDataRequest Scenario.auditor
            {[ "permission_id" := PyInt 2 ]}) 4
       = ret (response2, Scenario.seeded)
    /\ Views.status response2 = Views.HTTP_200_OK.
Proof.
  apply (grant_then_revoke_permission (fun _ => None) 200 Scenario.seeded
           (Views.mkRequest Scenario.root (Views.Valid 2) (Views.Valid false))
           (Administration.mkDataRequest Scenario.auditor
              {[ "permission_id" := PyInt 2 ]})
           4 Scenario.viewer
           (mkPermission 2 "document.create" "document" "create") 2 false);
    try reflexivity.
  discriminate.
Defined.

(** ** A permission key read from the raw request body *)

(** X16. The three views that read [permission_id] with
    [request.data.get] ([add_permission], [remove_permission] and, once
    it has found the user, [revoke_permission_from_user]) answer 400 when
    it is missing or falsy (the number 0 and the empty string included)
    and leave the database as it is; a text that [int] rejects makes the
    lookup raise [ValueError], which no handler of the view catches; a
    text that [int] accepts is looked up as that number. *)
Theorem raw_permission_id int_ db request role :
  (truthy (Administration.data_permission_id request) = false ->
     Administration.add_permission int_ db request role
     = ret (Administration.response (Views.error "Требуется permission_id")
                                    Views.HTTP_400_BAD_REQUEST, db)
     /\ Administration.remove_permission int_ db request role
        = ret (Administration.response
                 (Views.error "Требуется permission_id")
                 Views.HTTP_400_BAD_REQUEST, db)
     /\ forall user_id target,
          Administration.find_user db user_id = ret (Some target) ->
          Administration.revoke_permission_from_user int_ db request user_id
          = ret (Administration.response
                   (Views.error "Требуется permission_id")
                   Views.HTTP_400_BAD_REQUEST, db))
  /\ (forall s, Administration.data_permission_id request = PyStr s ->
        s <> "" -> int_ s = None ->
        (exists m, Administration.add_permission int_ db request role
                   = raise (ValueError m))
        /\ (exists m, Administration.remove_permission int_ db request role
                      = raise (ValueError m))
        /\ forall user_id target,
             Administration.find_user db user_id = ret (Some target) ->
             exists m, Administration.revoke_permission_from_user
                         int_ db request user_id
                       = raise (ValueError m))
  /\ (forall s n, Administration.data_permission_id request = PyStr s ->
        s <> "" -> int_ s = Some n -> n <> 0 ->
        let request' :=
          Administration.mkDataRequest (Administration.data_admin request)
            (<["permission_id" := PyInt n]> (Administration.data request)) in
        Administration.add_permission int_ db request role
        = Administration.add_permission int_ db request' role
        /\ Administration.remove_permission int_ db request role
           = Administration.remove_permission int_ db request' role
        /\ forall user_id,
             Administration.revoke_permission_from_user
               int_ db request user_id
             = Administration.revoke_permission_from_user
                 int_ db request' user_id).
Proof.
  split; [|split].
  - intros Hfalsy.
    unfold Administration.add_permission, Administration.remove_permission,
      Administration.revoke_permission_from_user.
    rewrite Hfalsy. split; [reflexivity|]. split; [reflexivity|].
    intros user_id target Hfound. rewrite Hfound, bind_ret_l. reflexivity.
  - intros s Hvalue Hs Hint.
    unfold Administration.add_permission, Administration.remove_permission,
      Administration.revoke_permission_from_user.
    rewrite Hvalue. simpl. rewrite bool_decide_eq_false_2 by exact Hs.
    simpl. rewrite Hint.
    split; [eexists; reflexivity|]. split; [eexists; reflexivity|].
    intros user_id target Hfound. rewrite Hfound, bind_ret_l.
    eexists. reflexivity.
  - intros s n Hvalue Hs Hint Hn request'.
    assert (Administration.data_permission_id request' = PyInt n) as Hvalue'.
    { unfold Administration.data_permission_id, request'. simpl.
      rewrite lookup_insert_eq. reflexivity. }
    unfold Administration.add_permission, Administration.remove_permission,
      Administration.revoke_permission_from_user.
    rewrite Hvalue, Hvalue'. simpl.
    rewrite bool_decide_eq_false_2 by exact Hs.
    replace (n =? 0) with false by (symmetry; apply Z.eqb_neq, Hn).
    simpl. rewrite Hint. repeat split; reflexivity.
Qed.

Lemma raw_permission_id_witness :
  Administration.revoke_permission_from_user (fun _ => None) Scenario.seeded
    (Administration.mkDataRequest Scenario.root
                                  {[ "permission_id" := PyInt 0 ]})
    4
  = ret (Administration.response (Views.error "Требуется permission_id")
                                 Views.HTTP_400_BAD_REQUEST, Scenario.seeded)
  /\ (exists m,
        Administration.revoke_permission_from_user (fun _ => None)
          Scenario.seeded
          (Administration.mkDataRequest Scenario.root
             {[ "permission_id" := PyStr "one" ]})
          4
        = raise (ValueError m))
  /\ Administration.add_permission (fun _ => Some 2) Scenario.seeded
       (Administration.mkDataRequest Scenario.root
                                     {[ "permission_id" := PyStr "2" ]})
       (mkRole 4 "viewer")
     = Administration.add_permission (fun _ => Some 2) Scenario.seeded
         (Administration.mkDataRequest Scenario.root
            (<["permission_id" := PyInt 2]>
               {[ "permission_id" := PyStr "2" ]}))
         (mkRole 4 "viewer").
Proof.
  split; [|split].
  - pose proof (proj1 (raw_permission_id (fun _ => None) Scenario.seeded
                  (Administration.mkDataRequest Scenario.root
                     {[ "permission_id" := PyInt 0 ]})
                  (mkRole 4 "viewer"))) as Hfalsy.
    destruct Hfalsy as (_ & _ & Hrevoke); [reflexivity|].
    apply (Hrevoke 4 Scenario.viewer). reflexivity.
  - pose proof (proj1 (proj2 (raw_permission_id (fun _ => None)
                  Scenario.seeded
                  (Administration.mkDataRequest Scenario.root
                     {[ "permission_id" := PyStr "one" ]})
                  (mkRole 4 "viewer"))) "one")
      as Htext.
    destruct Htext as (_ & _ & Hrevoke);
      [reflexivity | discriminate | reflexivity |].
    apply (Hrevoke 4 Scenario.viewer). reflexivity.
  - pose proof (proj2 (proj2 (raw_permission_id (fun _ => Some 2)
                  Scenario.seeded
                  (Administration.mkDataRequest Scenario.root
                     {[ "permission_id" := PyStr "2" ]})
                  (mkRole 4 "viewer"))) "2" 2)
      as Hnumber.
    apply Hnumber; first [reflexivity | discriminate].
Defined.

(** ** What a direct grant or denial does to the effective permissions *)

Lemma same_catalog_same_codes db db' :
  permissions db' = permissions db ->
  forall fk, permission__code db' fk = permission__code db fk.
Proof. intros Hsame fk. unfold permission__code. rewrite Hsame. reflexivity. Qed.

(** X17. After [grant_permission_to_user] has written a denial for an
    existing user that is no superuser, the permission's code is not among
    the user's effective permissions, whatever its roles carry; after it
    has written a grant for an active user, on a catalogue with unique
    codes, the code is among them. *)
Theorem upsert_decides_effective_permission
    now db request user_id target permission pid granted :
  filter (fun u => pk u = Some user_id) (users db) = [target] ->
  filter (fun p => permission_id p = pid) (permissions db) = [permission] ->
  Views.validated_data request = Some (pid, granted) ->
  primary_key (user_permissions db) ->
  unique_together (user_permissions db) ->
  is_superuser target = false ->
  exists response db',
    Views.grant_permission_to_user now db request user_id
    = ret (response, db')
    /\ (granted = false ->
        code permission ∉ get_user_permissions db' target)
    /\ (granted = true -> is_active target = true ->
        code_unique (permissions db) ->
        code permission ∈ get_user_permissions db' target).
Proof.
  intros Huser Hperm Hvalid Hkey Huniq Hsuper.
  destruct (grant_permission_to_user_once now db request user_id target
              permission pid granted Huser Hperm Hvalid Hkey (Huniq _ _))
    as (response & db' & row & Hrun & _ & _ & Hcatalog & Hrows & Hflag
        & _ & _).
  destruct (find_user_found db user_id target Huser) as [_ Hpk].
  destruct (find_permission_found db pid permission Hperm) as [_ Hcode].
  rewrite <- (same_catalog_same_codes db db' Hcatalog) in Hcode.
  assert (row ∈ rows_for (user_permissions db') user_id pid) as Hrow
    by (rewrite Hrows; left).
  apply list_elem_of_filter in Hrow as [[Hu Hp] Hrow].
  assert (overridden db' target granted (code permission)) as Hover.
  { exists row. rewrite Hpk, Hu, Hp. auto. }
  exists response, db'. split; [exact Hrun|]. split.
  - intros ->. destruct (is_active target) eqn:Hactive.
    + rewrite (elem_of_get_user_permissions db' target _ Hsuper Hactive).
      tauto.
    + unfold get_user_permissions. rewrite Hsuper, Hactive. simpl.
      apply not_elem_of_nil.
  - intros -> Hactive Hunique.
    rewrite (elem_of_get_user_permissions db' target _ Hsuper Hactive).
    split; [right; exact Hover|].
    intros (r & Hr & Hru & Hrg & Hrc).
    assert (up_permission r = pid) as Hrp.
    { eapply (permission__code_inj db'); [|exact Hrc|exact Hcode].
      rewrite Hcatalog. exact Hunique. }
    assert (r ∈ rows_for (user_permissions db') user_id pid) as Hin.
    { apply list_elem_of_filter. split; [|exact Hr]. split; [|exact Hrp].
      rewrite Hpk in Hru. congruence. }
    rewrite Hrows in Hin. apply list_elem_of_singleton in Hin. subst r.
    congruence.
Qed.

Lemma upsert_decides_effective_permission_witness :
  (exists response db',
     Views.grant_permission_to_user 300 Scenario.seeded
       (Views.mkRequest Scenario.root (Views.Valid 1) (Views.Valid false)) 4
     = ret (response, db')
     /\ "document.read" ∉ get_user_permissions db' Scenario.viewer)
  /\ (exists response db',
        Views.grant_permission_to_user 300 Scenario.seeded
          (Views.mkRequest Scenario.root (Views.Valid 4) Views.Missing) 4
        = ret (response, db')
        /\ "document.delete" ∈ get_user_permissions db' Scenario.viewer).
Proof.
  assert (primary_key (user_permissions Scenario.seeded)) as Hkey
    by apply NoDup_nil_2.
  assert (unique_together (user_permissions Scenario.seeded)) as Huniq
    by (intros u p; simpl; lia).
  split.
  - destruct (upsert_decides_effective_permission 300 Scenario.seeded
                (Views.mkRequest Scenario.root (Views.Valid 1)
                                 (Views.Valid false))
                4 Scenario.viewer
                (mkPermission 1 "document.read" "document" "read") 1 false
                eq_refl eq_refl eq_refl Hkey Huniq eq_refl)
      as (response & db' & Hrun & Hdeny & _).
    exists response, db'. split; [exact Hrun|]. apply Hdeny. reflexivity.
  - destruct (upsert_decides_effective_permission 300 Scenario.seeded
                (Views.mkRequest Scenario.root (Views.Valid 4) Views.Missing)
                4 Scenario.viewer
                (mkPermission 4 "document.delete" "document" "delete") 4 true
                eq_refl eq_refl eq_refl Hkey Huniq eq_refl)
      as (response & db' & Hrun & _ & Hgrant).
    exists response, db'. split; [exact Hrun|].
    apply Hgrant; [reflexivity|reflexivity|exact catalog_code_unique].
Defined.

(** ** What assigning a role and extending a role do *)

(** X18. Once [assign_role_to_user] has answered 201, every code that the
    role carries is role-derived for the user: the role layer grants it,
    and for an active user that is no superuser it is among the effective
    permissions unless a direct denial takes it out. *)
Theorem assigned_role_takes_effect
    db request user_id target role role_id c :
  filter (fun u => pk u = Some user_id) (users db) = [target] ->
  filter (fun r => role_pk r = role_id) (roles db) = [role] ->
  Administration.validated_role_id request = Some role_id ->
  filter (fun r => ur_user r = user_id /\ ur_role r = role_id)
         (user_roles db) = [] ->
  (exists rp, rp ∈ role_permissions db /\ rp_role rp = role_id
              /\ permission__code db (rp_permission rp) = Some c) ->
  exists response db',
    Administration.assign_role_to_user db request user_id
    = ret (response, db')
    /\ Views.status response = Views.HTTP_201_CREATED
    /\ _check_role_permission db' target c = true
    /\ (is_superuser target = false -> is_active target = true ->
        ~ overridden db target false c ->
        c ∈ get_user_permissions db' target).
Proof.
  intros Huser Hrole Hvalid Hfree (rp & Hrp & Hrprole & Hcode).
  destruct (find_user_found db user_id target Huser) as [_ Hpk].
  eexists _, _.
  split; [apply (assign_role_to_user_new db request user_id target role
                   role_id); assumption|].
  set (db' := Administration.set_user_roles db
                (user_roles db
                 ++ [mkUserRole user_id role_id
                       (pk (Administration.role_admin request))])).
  assert (role_derived db' target c) as Hderived.
  { exists (mkUserRole user_id role_id
              (pk (Administration.role_admin request))), rp.
    simpl. split; [apply elem_of_app; right; left|].
    rewrite Hpk. auto. }
  split; [reflexivity|].
  split; [apply role_layer_role_derived; exact Hderived|].
  intros Hsuper Hactive Hfreeofdenial.
  apply (elem_of_get_user_permissions db' target c Hsuper Hactive).
  split; [left; exact Hderived|exact Hfreeofdenial].
Qed.

Lemma assigned_role_takes_effect_witness :
  exists response db',
    Administration.assign_role_to_user Scenario.seeded
      (Administration.mkRoleRequest Scenario.root (Views.Valid 3)) 4
    = ret (response, db')
    /\ Views.status response = Views.HTTP_201_CREATED
    /\ _check_role_permission db' Scenario.viewer "document.create" = true
    /\ (is_superuser Scenario.viewer = false ->
        is_active Scenario.viewer = true ->
        ~ overridden Scenario.seeded Scenario.viewer false "document.create" ->
        "document.create" ∈ get_user_permissions db' Scenario.viewer).
Proof.
  apply (assigned_role_takes_effect Scenario.seeded
           (Administration.mkRoleRequest Scenario.root (Views.Valid 3))
           4 Scenario.viewer (mkRole 3 "editor") 3 "document.create");
    try reflexivity.
  exists (mkRolePermission 3 2 None). split; [|split; reflexivity].
  left.
Defined.

Lemma set_role_permissions_same db :
  Administration.set_role_permissions db (role_permissions db) = db.
Proof. destruct db; reflexivity. Qed.

Section AddPermission.

Variables (int_ : string -> option Z) (db : DB)
          (request : Administration.DataRequest) (role : Role)
          (permission : Permission) (pid : Z).
Hypothesis Hdata :
  Administration.data request !! "permission_id" = Some (PyInt pid).
Hypothesis Hpid : pid <> 0.
Hypothesis Hperm :
  filter (fun p => permission_id p = pid) (permissions db) = [permission].

Lemma raw_key_read :
  Administration.data_permission_id request = PyInt pid
  /\ truthy (PyInt pid) = true.
Proof using Hdata Hpid.
  unfold Administration.data_permission_id. rewrite Hdata.
  split; [reflexivity|]. simpl. apply negb_true_iff, Z.eqb_neq, Hpid.
Qed.

Lemma add_permission_new :
  filter (fun r => rp_role r = role_pk role /\ rp_permission r = pid)
         (role_permissions db) = [] ->
  Administration.add_permission int_ db request role
  = ret (Administration.response
           (Views.message ("Разрешение " +:+ code permission
                           +:+ " добавлено к роли " +:+ role_name role))
           Views.HTTP_201_CREATED,
         Administration.set_role_permissions db
           (role_permissions db
            ++ [mkRolePermission (role_pk role) pid
                  (pk (Administration.data_admin request))])).
Proof using Hdata Hpid Hperm.
  intros Hfree. destruct raw_key_read as [Hvalue Htruthy].
  destruct (find_permission_found db pid permission Hperm) as [Hid _].
  unfold Administration.add_permission. rewrite Hvalue, Htruthy. simpl.
  rewrite (list_filter_iff (fun p => Some (permission_id p) = Some pid)
                           (fun p => permission_id p = pid))
    by (intros p; split; congruence).
  rewrite Hperm. simpl. rewrite Hid, Hfree. reflexivity.
Qed.

Lemma add_permission_held :
  filter (fun r => rp_role r = role_pk role /\ rp_permission r = pid)
         (role_permissions db) <> [] ->
  Administration.add_permission int_ db request role
  = ret (Administration.response
           (Views.error "Разрешение уже добавлено к этой роли")
           Views.HTTP_400_BAD_REQUEST, db).
Proof using Hdata Hpid Hperm.
  intros Hheld. destruct raw_key_read as [Hvalue Htruthy].
  destruct (find_permission_found db pid permission Hperm) as [Hid _].
  unfold Administration.add_permission. rewrite Hvalue, Htruthy. simpl.
  rewrite (list_filter_iff (fun p => Some (permission_id p) = Some pid)
                           (fun p => permission_id p = pid))
    by (intros p; split; congruence).
  rewrite Hperm. simpl. rewrite Hid.
  rewrite bool_decide_eq_true_2 by exact Hheld. reflexivity.
Qed.

Lemma remove_permission_found link :
  filter (fun r => rp_role r = role_pk role /\ rp_permission r = pid)
         (role_permissions db) = [link] ->
  Administration.remove_permission int_ db request role
  = ret (Administration.response
           (Views.message "Разрешение удалено из роли") Views.HTTP_200_OK,
         Administration.set_role_permissions db
           (filter (fun r => ~ (rp_role r = role_pk role
                                /\ rp_permission r = pid))
                   (role_permissions db))).
Proof using Hdata Hpid.
  intros Hrows. destruct raw_key_read as [Hvalue Htruthy].
  unfold Administration.remove_permission. rewrite Hvalue, Htruthy. simpl.
  rewrite (list_filter_iff
             (fun r => rp_role r = role_pk role
                       /\ Some (rp_permission r) = Some pid)
             (fun r => rp_role r = role_pk role /\ rp_permission r = pid))
    by (intros r; split; intros [? ?]; split; congruence).
  rewrite Hrows. simpl.
  rewrite (list_filter_iff
             (fun r => ~ (rp_role r = role_pk role
                          /\ Some (rp_permission r) = Some pid))
             (fun r => ~ (rp_role r = role_pk role /\ rp_permission r = pid)))
    by (intros r; split; intros Hn [? ?]; apply Hn; split; congruence).
  reflexivity.
Qed.

Lemma remove_permission_missing :
  filter (fun r => rp_role r = role_pk role /\ rp_permission r = pid)
         (role_permissions db) = [] ->
  Administration.remove_permission int_ db request role
  = ret (Administration.response
           (Views.error "Разрешение не найдено в этой роли")
           Views.HTTP_404_NOT_FOUND, db).
Proof using Hdata Hpid.
  intros Hrows. destruct raw_key_read as [Hvalue Htruthy].
  unfold Administration.remove_permission. rewrite Hvalue, Htruthy. simpl.
  rewrite (list_filter_iff
             (fun r => rp_role r = role_pk role
                       /\ Some (rp_permission r) = Some pid)
             (fun r => rp_role r = role_pk role /\ rp_permission r = pid))
    by (intros r; split; intros [? ?]; split; congruence).
  rewrite Hrows. reflexivity.
Qed.

End AddPermission.

(** X19. Adding to a role a permission it does not carry yet answers 201
    and appends one link; from then on the role layer grants the
    permission's code to every user that holds the role; adding it again
    answers 400 and leaves the database as the first call left it. *)
Theorem add_permission_takes_effect
    int_ db request1 request2 role permission pid :
  Administration.data request1 !! "permission_id" = Some (PyInt pid) ->
  Administration.data request2 !! "permission_id" = Some (PyInt pid) ->
  pid <> 0 ->
  filter (fun p => permission_id p = pid) (permissions db) = [permission] ->
  filter (fun r => rp_role r = role_pk role /\ rp_permission r = pid)
         (role_permissions db) = [] ->
  exists response1 db1 response2,
    Administration.add_permission int_ db request1 role
    = ret (response1, db1)
    /\ Views.status response1 = Views.HTTP_201_CREATED
    /\ role_permissions db1
       = role_permissions db
         ++ [mkRolePermission (role_pk role) pid
               (pk (Administration.data_admin request1))]
    /\ (forall u, role_pk role ∈ user_role_ids db u ->
          _check_role_permission db1 u (code permission) = true)
    /\ Administration.add_permission int_ db1 request2 role
       = ret (response2, db1)
    /\ Views.status response2 = Views.HTTP_400_BAD_REQUEST.
Proof.
  intros Hdata1 Hdata2 Hpid Hperm Hfree.
  set (db1 := Administration.set_role_permissions db
                (role_permissions db
                 ++ [mkRolePermission (role_pk role) pid
                       (pk (Administration.data_admin request1))])).
  assert (Administration.add_permission int_ db1 request2 role
          = ret (Administration.response
                   (Views.error "Разрешение уже добавлено к этой роли")
                   Views.HTTP_400_BAD_REQUEST, db1)) as Hsecond.
  { apply (add_permission_held int_ db1 request2 role permission pid);
      try assumption.
    simpl. rewrite filter_app, Hfree.
    rewrite filter_cons_True by (simpl; auto). discriminate. }
  eexists _, db1, _.
  split; [apply (add_permission_new int_ db request1 role permission pid);
          assumption|].
  split; [reflexivity|]. split; [reflexivity|].
  split; [|split; [exact Hsecond|reflexivity]].
  intros u Hholds. apply role_layer_role_derived.
  apply list_elem_of_fmap in Hholds as (ur & Hrole & Hur).
  apply list_elem_of_filter in Hur as [Hu Hur].
  exists ur, (mkRolePermission (role_pk role) pid
                (pk (Administration.data_admin request1))).
  simpl. split; [exact Hur|]. split; [exact Hu|].
  split; [apply elem_of_app; right; left|]. split; [exact Hrole|].
  apply (find_permission_found db pid permission Hperm).
Qed.

Lemma add_permission_takes_effect_witness :
  exists response1 db1 response2,
    Administration.add_permission (fun _ => None) Scenario.seeded
      (Administration.mkDataRequest Scenario.root
                                    {[ "permission_id" := PyInt 4 ]})
      (mkRole 4 "viewer")
    = ret (response1, db1)
    /\ Views.status response1 = Views.HTTP_201_CREATED
    /\ role_permissions db1
       = role_permissions Scenario.seeded ++ [mkRolePermission 4 4 (Some 1)]
    /\ (forall u, 4 ∈ user_role_ids Scenario.seeded u ->
          _check_role_permission db1 u "document.delete" = true)
    /\ Administration.add_permission (fun _ => None) db1
         (Administration.mkDataRequest Scenario.auditor
                                       {[ "permission_id" := PyInt 4 ]})
         (mkRole 4 "viewer")
       = ret (response2, db1)
    /\ Views.status response2 = Views.HTTP_400_BAD_REQUEST.
Proof.
  apply (add_permission_takes_effect (fun _ => None) Scenario.seeded
           (Administration.mkDataRequest Scenario.root
                                         {[ "permission_id" := PyInt 4 ]})
           (Administration.mkDataRequest Scenario.auditor
                                         {[ "permission_id" := PyInt 4 ]})
           (mkRole 4 "viewer")
           (mkPermission 4 "document.delete" "document" "delete") 4);
    first [reflexivity | discriminate].
Defined.

(** X20. Removing from a role a permission it does not carry answers 404
    and changes nothing; removing it right after it was added answers 200
    and gives back exactly the database as it was before. *)
Theorem add_then_remove_permission
    int_ db request1 request2 role permission pid :
  Administration.data request1 !! "permission_id" = Some (PyInt pid) ->
  Administration.data request2 !! "permission_id" = Some (PyInt pid) ->
  pid <> 0 ->
  filter (fun p => permission_id p = pid) (permissions db) = [permission] ->
  filter (fun r => rp_role r = role_pk role /\ rp_permission r = pid)
         (role_permissions db) = [] ->
  (exists response0,
     Administration.remove_permission int_ db request2 role
     = ret (response0, db)
     /\ Views.status response0 = Views.HTTP_404_NOT_FOUND)
  /\ exists response1 db1 response2,
       Administration.add_permission int_ db request1 role
       = ret (response1, db1)
       /\ Administration.remove_permission int_ db1 request2 role
          = ret (response2, db)
       /\ Views.status response2 = Views.HTTP_200_OK.
Proof.
  intros Hdata1 Hdata2 Hpid Hperm Hfree. split.
  - eexists. split;
      [apply (remove_permission_missing int_ db request2 role pid);
       assumption|reflexivity].
  - set (link := mkRolePermission (role_pk role) pid
                   (pk (Administration.data_admin request1))).
    set (db1 := Administration.set_role_permissions db
                  (role_permissions db ++ [link])).
    assert (Administration.remove_permission int_ db1 request2 role
            = ret (Administration.response
                     (Views.message "Разрешение удалено из роли")
                     Views.HTTP_200_OK, db)) as Hremove.
    { rewrite (remove_permission_found int_ db1 request2 role pid Hdata2
                 Hpid link)
        by (simpl; rewrite filter_app, Hfree;
            rewrite filter_cons_True by (simpl; auto); reflexivity).
      simpl. rewrite filter_app, (filter_none_complement _ _ Hfree).
      rewrite filter_cons_False by (simpl; tauto).
      rewrite filter_nil, app_nil_r. destruct db; reflexivity. }
    eexists _, db1, _.
    split; [apply (add_permission_new int_ db request1 role permission pid);
            assumption|].
    split; [exact Hremove|reflexivity].
Qed.

Lemma add_then_remove_permission_witness :
  (exists response0,
     Administration.remove_permission (fun _ => None) Scenario.seeded
       (Administration.mkDataRequest Scenario.auditor
                                     {[ "permission_id" := PyInt 4 ]})
       (mkRole 4 "viewer")
     = ret (response0, Scenario.seeded)
     /\ Views.status response0 = Views.HTTP_404_NOT_FOUND)
  /\ exists response1 db1 response2,
       Administration.add_permission (fun _ => None) Scenario.seeded
         (Administration.mkDataRequest Scenario.root
                                       {[ "permission_id" := PyInt 4 ]})
         (mkRole 4 "viewer")
       = ret (response1, db1)
       /\ Administration.remove_permission (fun _ => None) db1
            (Administration.mkDataRequest Scenario.auditor
                                          {[ "permission_id" := PyInt 4 ]})
            (mkRole 4 "viewer")
          = ret (response2, Scenario.seeded)
       /\ Views.status response2 = Views.HTTP_200_OK.
Proof.
  apply (add_then_remove_permission (fun _ => None) Scenario.seeded
           (Administration.mkDataRequest Scenario.root
                                         {[ "permission_id" := PyInt 4 ]})
           (Administration.mkDataRequest Scenario.auditor
                                         {[ "permission_id" := PyInt 4 ]})
           (mkRole 4 "viewer")
           (mkPermission 4 "document.delete" "document" "delete") 4);
    first [reflexivity | discriminate].
Defined.

(** ** The other views keep the constraints of the tables they write *)

Lemma length_filter_filter {A} (P Q : A -> Prop)
    `{!forall x, Decision (P x), !forall x, Decision (Q x)} (l : list A) :
  (length (filter P (filter Q l)) <= length (filter P l))%nat.
Proof.
  rewrite list_filter_filter.
  rewrite (list_filter_iff _ (fun a => Q a /\ P a)) by tauto.
  rewrite <- list_filter_filter. apply length_filter.
Qed.

Lemma bool_decide_nonempty_false {A} (l : list A) `{!Decision (l <> [])} :
  bool_decide (l <> []) = false -> l = [].
Proof.
  intros H. apply bool_decide_eq_false in H.
  destruct l; [reflexivity|]. exfalso. apply H. discriminate.
Qed.

Lemma assign_role_to_user_keeps db request user_id response db' l :
  Administration.assign_role_to_user db request user_id
  = (Return (response, db'), l) ->
  role_unique_together (user_roles db) ->
  role_unique_together (user_roles db').
Proof.
  unfold Administration.assign_role_to_user. intros Hrun Huniq. revert Hrun.
  destruct (Administration.find_user db user_id) as [[[target|]|e] l0];
    rewrite ?bind_Return, ?bind_Raise; cbn [value records fst snd];
    [| |discriminate].
  2:{ intros [= <- <- <-]. exact Huniq. }
  destruct (Administration.validated_role_id request) as [role_id|].
  2:{ intros [= <- <- <-]. exact Huniq. }
  destruct (try_except _ (is_DoesNotExist "Role") _) as [[[role|]|e] l1];
    rewrite ?bind_Return, ?bind_Raise; cbn [value records fst snd];
    [| |discriminate].
  2:{ intros [= <- <- <-]. exact Huniq. }
  case_bool_decide as Hheld.
  { intros [= <- <- <-]. exact Huniq. }
  destruct (pk target) as [target_id|] eqn:Hpk; [|discriminate].
  intros [= <- <- <-]. simpl.
  assert (filter (fun x => Some (ur_user x) = Some target_id
                           /\ ur_role x = role_pk role) (user_roles db)
          = []) as Hfree.
  { exact Hheld. }
  intros u r. rewrite filter_app, length_app.
  rewrite filter_cons, filter_nil. case_decide as Hlink; simpl.
  - destruct Hlink as [<- <-]. simpl.
    rewrite (list_filter_iff _
               (fun x => Some (ur_user x) = Some target_id
                         /\ ur_role x = role_pk role))
      by (intros x; split; intros [? ?]; split; congruence).
    rewrite Hfree. simpl. lia.
  - rewrite Nat.add_0_r. apply Huniq.
Qed.

Lemma revoke_role_from_user_keeps db request user_id response db' l :
  Administration.revoke_role_from_user db request user_id
  = (Return (response, db'), l) ->
  role_unique_together (user_roles db) ->
  role_unique_together (user_roles db').
Proof.
  unfold Administration.revoke_role_from_user. intros Hrun Huniq. revert Hrun.
  destruct (Administration.find_user db user_id) as [[[target|]|e] l0];
    rewrite ?bind_Return, ?bind_Raise; cbn [value records fst snd];
    [| |discriminate].
  2:{ intros [= <- <- <-]. exact Huniq. }
  destruct (Administration.validated_role_id request) as [role_id|].
  2:{ intros [= <- <- <-]. exact Huniq. }
  destruct (objects_get "UserRole" _) as [[link|e] l1];
    rewrite ?bind_Return, ?bind_Raise; cbn [value records fst snd try_except].
  - intros [= <- <- <-]. simpl. intros u r.
    etrans; [apply length_filter_filter|apply Huniq].
  - destruct (is_DoesNotExist "UserRole" e); [|discriminate].
    intros [= <- <- <-]. exact Huniq.
Qed.

Lemma add_permission_keeps int_ db request role response db' l :
  Administration.add_permission int_ db request role
  = (Return (response, db'), l) ->
  link_unique_together (role_permissions db) ->
  link_unique_together (role_permissions db').
Proof.
  unfold Administration.add_permission. intros Hrun Huniq. revert Hrun.
  destruct (negb (truthy (Administration.data_permission_id request))).
  { intros [= <- <- <-]. exact Huniq. }
  destruct (try_except _ (is_DoesNotExist "Permission") _)
    as [[[permission|]|e] l1];
    rewrite ?bind_Return, ?bind_Raise; cbn [value records fst snd];
    [| |discriminate].
  2:{ intros [= <- <- <-]. exact Huniq. }
  case_bool_decide as Hheld.
  { intros [= <- <- <-]. exact Huniq. }
  intros [= <- <- <-]. simpl.
  assert (filter (fun x => rp_role x = role_pk role
                           /\ rp_permission x = permission_id permission)
                 (role_permissions db) = []) as Hfree.
  { exact Hheld. }
  intros r p. rewrite filter_app, length_app.
  rewrite filter_cons, filter_nil. case_decide as Hlink; simpl.
  - destruct Hlink as [<- <-]. simpl. rewrite Hfree. simpl. lia.
  - rewrite Nat.add_0_r. apply Huniq.
Qed.

Lemma remove_permission_keeps int_ db request role response db' l :
  Administration.remove_permission int_ db request role
  = (Return (response, db'), l) ->
  link_unique_together (role_permissions db) ->
  link_unique_together (role_permissions db').
Proof.
  unfold Administration.remove_permission. intros Hrun Huniq. revert Hrun.
  destruct (negb (truthy (Administration.data_permission_id request))).
  { intros [= <- <- <-]. exact Huniq. }
  destruct (Administration.key_of int_ _) as [[key|e] l0];
    rewrite ?bind_Return, ?bind_Raise; cbn [value records fst snd try_except].
  - destruct (objects_get "RolePermission" _) as [[link|e] l1];
      rewrite ?bind_Return, ?bind_Raise;
      cbn [value records fst snd try_except].
    + intros [= <- <- <-]. simpl. intros r p.
      etrans; [apply length_filter_filter|apply Huniq].
    + destruct (is_DoesNotExist "RolePermission" e); [|discriminate].
      intros [= <- <- <-]. exact Huniq.
  - destruct (is_DoesNotExist "RolePermission" e); [|discriminate].
    intros [= <- <- <-]. exact Huniq.
Qed.

Lemma revoke_permission_from_user_keeps int_ db request user_id
    response db' l :
  Administration.revoke_permission_from_user int_ db request user_id
  = (Return (response, db'), l) ->
  primary_key (user_permissions db) -> unique_together (user_permissions db) ->
  primary_key (user_permissions db') /\ unique_together (user_permissions db').
Proof.
  unfold Administration.revoke_permission_from_user.
  intros Hrun Hkey Huniq. revert Hrun.
  destruct (Administration.find_user db user_id) as [[[target|]|e] l0];
    rewrite ?bind_Return, ?bind_Raise; cbn [value records fst snd];
    [| |discriminate].
  2:{ intros [= <- <- <-]. auto. }
  destruct (negb (truthy (Administration.data_permission_id request))).
  { intros [= <- <- <-]. auto. }
  destruct (Administration.key_of int_ _) as [[key|e] l1];
    rewrite ?bind_Return, ?bind_Raise; cbn [value records fst snd try_except].
  - destruct (objects_get "UserPermission" _) as [[row|e] l2];
      rewrite ?bind_Return, ?bind_Raise;
      cbn [value records fst snd try_except].
    + intros [= <- <- <-]. simpl. split.
      * unfold primary_key. eapply sublist_NoDup; [exact Hkey|].
        apply fmap_sublist, sublist_filter.
      * intros u p. etrans; [apply length_filter_filter|apply Huniq].
    + destruct (is_DoesNotExist "UserPermission" e); [|discriminate].
      intros [= <- <- <-]. auto.
  - destruct (is_DoesNotExist "UserPermission" e); [|discriminate].
    intros [= <- <- <-]. auto.
Qed.

(** X21. The five other administrative views keep the uniqueness that the
    models declare for the table they write: [assign_role_to_user] and
    [revoke_role_from_user] keep one [UserRole] row per (user, role),
    [add_permission] and [remove_permission] one [RolePermission] row per
    (role, permission), and [revoke_permission_from_user] keeps the keys
    and the one-row-per-pair rule of [UserPermission]. *)
Theorem views_keep_unique_together
    int_ db role_request data_request user_id role response db' l :
  (Administration.assign_role_to_user db role_request user_id
   = (Return (response, db'), l) ->
   role_unique_together (user_roles db) ->
   role_unique_together (user_roles db'))
  /\ (Administration.revoke_role_from_user db role_request user_id
      = (Return (response, db'), l) ->
      role_unique_together (user_roles db) ->
      role_unique_together (user_roles db'))
  /\ (Administration.add_permission int_ db data_request role
      = (Return (response, db'), l) ->
      link_unique_together (role_permissions db) ->
      link_unique_together (role_permissions db'))
  /\ (Administration.remove_permission int_ db data_request role
      = (Return (response, db'), l) ->
      link_unique_together (role_permissions db) ->
      link_unique_together (role_permissions db'))
  /\ (Administration.revoke_permission_from_user int_ db data_request user_id
      = (Return (response, db'), l) ->
      primary_key (user_permissions db) ->
      unique_together (user_permissions db) ->
      primary_key (user_permissions db')
      /\ unique_together (user_permissions db')).
Proof.
  split; [apply assign_role_to_user_keeps|].
  split; [apply revoke_role_from_user_keeps|].
  split; [apply add_permission_keeps|].
  split; [apply remove_permission_keeps|].
  apply revoke_permission_from_user_keeps.
Qed.

Lemma views_keep_unique_together_witness :
  exists response db',
    Administration.assign_role_to_user Scenario.seeded
      (Administration.mkRoleRequest Scenario.root (Views.Valid 3)) 4
    = (Return (response, db'), [])
    /\ role_unique_together (user_roles db').
Proof.
  eexists _, _. split; [reflexivity|].
  eapply (proj1 (views_keep_unique_together (fun _ => None) Scenario.seeded
                   (Administration.mkRoleRequest Scenario.root (Views.Valid 3))
                   (Administration.mkDataRequest Scenario.root ∅)
                   4 (mkRole 4 "viewer") _ _ [])).
  - reflexivity.
  - intros u r. etrans; [apply length_filter|]. simpl. lia.
Defined.

(** ** Names of an account *)

Lemma string_append_assoc (a b c : string) :
  (a +:+ b) +:+ c = a +:+ (b +:+ c).
Proof.
  induction a as [|x a IH]; [reflexivity|].
  change (String x ((a +:+ b) +:+ c) = String x (a +:+ (b +:+ c))).
  rewrite IH. reflexivity.
Qed.

Lemma string_append_nonempty_l (a b : string) : a <> "" -> a +:+ b <> "".
Proof. destruct a; [contradiction|discriminate]. Qed.

Lemma join_cons_nonempty sep (part : string) rest :
  part <> "" -> Accounts.join sep (part :: rest) <> "".
Proof.
  unfold Accounts.join. revert part.
  induction rest as [|next rest IH]; intros part Hpart; [exact Hpart|].
  simpl. apply IH. apply string_append_nonempty_l, Hpart.
Qed.

Ltac full_name_pattern :=
  rewrite !filter_cons, filter_nil;
  repeat first
    [ rewrite decide_True by assumption
    | rewrite decide_False by (intros Hn; apply Hn; reflexivity) ];
  cbn [Accounts.join foldl];
  first
    [ rewrite bool_decide_eq_false_2 by assumption
    | rewrite bool_decide_eq_false_2
        by (repeat apply string_append_nonempty_l; assumption) ];
  rewrite ?string_append_assoc; reflexivity.

(** X22. [get_full_name] is the non-empty names among last, first and
    middle, in that order, with one space between two names and none for
    a name that is missing: each of the seven ways in which some name is
    present is written out. When all three are empty it is the e-mail
    address. It is empty only when the names and the e-mail address are
    all empty; [get_short_name] is the first name, or the e-mail address
    when the first name is empty. *)
Theorem account_names self :
  (Accounts.last_name self <> "" -> Accounts.first_name self <> "" ->
   Accounts.middle_name self <> "" ->
   Accounts.get_full_name self
   = Accounts.last_name self +:+ " " +:+ Accounts.first_name self
     +:+ " " +:+ Accounts.middle_name self)
  /\ (Accounts.last_name self <> "" -> Accounts.first_name self <> "" ->
      Accounts.middle_name self = "" ->
      Accounts.get_full_name self
      = Accounts.last_name self +:+ " " +:+ Accounts.first_name self)
  /\ (Accounts.last_name self <> "" -> Accounts.first_name self = "" ->
      Accounts.middle_name self <> "" ->
      Accounts.get_full_name self
      = Accounts.last_name self +:+ " " +:+ Accounts.middle_name self)
  /\ (Accounts.last_name self = "" -> Accounts.first_name self <> "" ->
      Accounts.middle_name self <> "" ->
      Accounts.get_full_name self
      = Accounts.first_name self +:+ " " +:+ Accounts.middle_name self)
  /\ (Accounts.last_name self <> "" -> Accounts.first_name self = "" ->
      Accounts.middle_name self = "" ->
      Accounts.get_full_name self = Accounts.last_name self)
  /\ (Accounts.last_name self = "" -> Accounts.first_name self <> "" ->
      Accounts.middle_name self = "" ->
      Accounts.get_full_name self = Accounts.first_name self)
  /\ (Accounts.last_name self = "" -> Accounts.first_name self = "" ->
      Accounts.middle_name self <> "" ->
      Accounts.get_full_name self = Accounts.middle_name self)
  /\ (Accounts.last_name self = "" -> Accounts.first_name self = "" ->
      Accounts.middle_name self = "" ->
      Accounts.get_full_name self = email (Accounts.account self))
  /\ (Accounts.get_full_name self = ""
      <-> Accounts.last_name self = "" /\ Accounts.first_name self = ""
          /\ Accounts.middle_name self = ""
          /\ email (Accounts.account self) = "")
  /\ (Accounts.first_name self <> "" ->
      Accounts.get_short_name self = Accounts.first_name self)
  /\ (Accounts.first_name self = "" ->
      Accounts.get_short_name self = email (Accounts.account self)).
Proof.
  unfold Accounts.get_full_name, Accounts.get_short_name.
  destruct self as [u first middle last]. simpl.
  repeat match goal with |- _ /\ _ => split end.
  - intros Hl Hf Hm. full_name_pattern.
  - intros Hl Hf ->. full_name_pattern.
  - intros Hl -> Hm. full_name_pattern.
  - intros -> Hf Hm. full_name_pattern.
  - intros Hl -> ->. full_name_pattern.
  - intros -> Hf ->. full_name_pattern.
  - intros -> -> Hm. full_name_pattern.
  - intros -> -> ->. reflexivity.
  - destruct (filter (fun part => part <> "") [last; first; middle])
      as [|part rest] eqn:Hparts.
    + assert (last = "" /\ first = "" /\ middle = "") as (-> & -> & ->).
      { revert Hparts. rewrite !filter_cons, filter_nil.
        destruct (decide (last <> "")) as [Hl|Hl]; [discriminate|].
        destruct (decide (first <> "")) as [Hf|Hf]; [discriminate|].
        destruct (decide (middle <> "")) as [Hm|Hm]; [discriminate|].
        intros _. repeat split; apply dec_stable; assumption. }
      simpl. tauto.
    + assert (part ∈ filter (fun part => part <> "") [last; first; middle])
        as Hin by (rewrite Hparts; left).
      apply list_elem_of_filter in Hin as [Hpart Hin].
      assert (last <> "" \/ first <> "" \/ middle <> "") as Hsome.
      { rewrite !elem_of_cons, elem_of_nil in Hin.
        destruct Hin as [<-|[<-|[<-|[]]]]; auto. }
      rewrite bool_decide_eq_false_2 by (apply join_cons_nonempty, Hpart).
      split.
      * intros Hempty. exfalso.
        exact (join_cons_nonempty " " part rest Hpart Hempty).
      * intros (-> & -> & -> & _). exfalso.
        destruct Hsome as [H|[H|H]]; apply H; reflexivity.
  - intros Hf. rewrite bool_decide_eq_false_2 by exact Hf. reflexivity.
  - intros ->. reflexivity.
Qed.

Lemma account_names_witness :
  Accounts.get_full_name
    (Accounts.mkProfile Scenario.viewer "Anna" "Ivanovna" "Petrova")
  = "Petrova Anna Ivanovna"
  /\ Accounts.get_full_name
       (Accounts.mkProfile Scenario.viewer "" "Ivanovna" "Petrova")
     = "Petrova Ivanovna"
  /\ Accounts.get_full_name
       (Accounts.mkProfile Scenario.viewer "Anna" "" "")
     = "Anna"
  /\ Accounts.get_full_name (Accounts.mkProfile Scenario.viewer "" "" "")
     = "viewer@test.com".
Proof.
  pose proof (account_names
    (Accounts.mkProfile Scenario.viewer "Anna" "Ivanovna" "Petrova"))
    as (Hall & _).
  pose proof (account_names
    (Accounts.mkProfile Scenario.viewer "" "Ivanovna" "Petrova"))
    as (_ & _ & Hlast_middle & _).
  pose proof (account_names (Accounts.mkProfile Scenario.viewer "Anna" "" ""))
    as (_ & _ & _ & _ & _ & Hfirst & _).
  pose proof (account_names (Accounts.mkProfile Scenario.viewer "" "" ""))
    as (_ & _ & _ & _ & _ & _ & _ & Hnone & _).
  split; [apply Hall; discriminate|].
  split; [apply Hlast_middle; first [reflexivity | discriminate]|].
  split; [apply Hfirst; first [reflexivity | discriminate]|].
  apply Hnone; reflexivity.
Defined.

(** ** Soft deletion of an account *)

Lemma filter_none {A} (P : A -> Prop) `{!forall x, Decision (P x)}
    (l : list A) :
  (forall x, x ∈ l -> ~ P x) -> filter P l = [].
Proof.
  intros Hnone. destruct (filter P l) as [|x rest] eqn:Hf; [reflexivity|].
  assert (x ∈ filter P l) as Hin by (rewrite Hf; left).
  apply list_elem_of_filter in Hin as [HP Hin].
  destruct (Hnone x Hin HP).
Qed.


Lemma soft_delete_stored db self key :
  pk self = Some key ->
  (exists r, r ∈ users db /\ pk r = Some key) ->
  Accounts.soft_delete db self
  = ret (Accounts.Stored
           (Accounts.deactivated self,
            Accounts.set_users db
              ((fun r => if decide (pk r = Some key)
                         then Accounts.deactivated r else r)
                 <$> users db))).
Proof.
  intros Hkey (r & Hin & Hr). unfold Accounts.soft_delete.
  cbn [Accounts.deactivated pk]. rewrite Hkey.
  rewrite bool_decide_eq_false_2; [reflexivity|].
  intros Hnil.
  assert (r ∈ filter (fun r => pk r = Some key) (users db)) as Hf
    by (apply list_elem_of_filter; split; assumption).
  rewrite Hnil in Hf. inversion Hf.
Qed.

Lemma soft_deleted_rows_inactive (table : list User) key r' :
  r' ∈ (fun r => if decide (pk r = Some key)
                 then Accounts.deactivated r else r) <$> table ->
  pk r' = Some key -> is_active r' = false.
Proof.
  intros Hin Hk. apply list_elem_of_fmap in Hin as (r & -> & _).
  destruct (decide (pk r = Some key)) as [_|Hn]; [reflexivity|].
  contradiction.
Qed.



Lemma delete_account_view_stored db self key resp db' :
  pk self = Some key ->
  Accounts.delete_account_view db self
  = ret (Accounts.Stored (resp, db')) ->
  (exists r, r ∈ users db /\ pk r = Some key)
  /\ resp = Views.mkResponse (Views.message "Аккаунт успешно удален")
                             Views.HTTP_200_OK
  /\ db' = Accounts.set_users db
             ((fun r => if decide (pk r = Some key)
                        then Accounts.deactivated r else r)
                <$> users db).
Proof.
  intros Hkey Hrun.
  destruct (filter (fun r => pk r = Some key) (users db)) as [|r rest]
    eqn:Hrows.
  - exfalso. revert Hrun. unfold Accounts.delete_account_view.
    unfold Accounts.soft_delete. cbn [Accounts.deactivated pk].
    rewrite Hkey, Hrows. cbn. discriminate.
  - assert (exists r, r ∈ users db /\ pk r = Some key) as Hrow.
    { exists r.
      assert (r ∈ filter (fun r => pk r = Some key) (users db)) as Hin
        by (rewrite Hrows; left).
      apply list_elem_of_filter in Hin as [? ?]. split; assumption. }
    split; [exact Hrow|].
    revert Hrun. unfold Accounts.delete_account_view.
    rewrite (soft_delete_stored db self key Hkey Hrow). cbn.
    intros Hrun. injection Hrun as <- <-. split; reflexivity.
Qed.

(** X24. When [delete_account_view] answers, it answers 200 and every row
    of the user's key is inactive from then on. For such a row the engine
    denies every request and lists no permission, unless the row is a
    superuser: a deleted superuser is still granted everything and still
    holds the wildcard. *)
Theorem deleted_account_access globals db self key resp db' :
  pk self = Some key ->
  Accounts.delete_account_view db self
  = ret (Accounts.Stored (resp, db')) ->
  Views.status resp = Views.HTTP_200_OK
  /\ (exists u, u ∈ users db' /\ pk u = Some key)
  /\ (forall u, u ∈ users db' -> pk u = Some key ->
        is_active u = false
        /\ (is_superuser u = false ->
            get_user_permissions db' u = []
            /\ forall rt act rid,
                 check_permission globals db' (Some u) rt act rid
                 = ret false)
        /\ (is_superuser u = true ->
            get_user_permissions db' u = ["*.*"]
            /\ forall rt act rid,
                 check_permission globals db' (Some u) rt act rid
                 = ret true)).
Proof.
  intros Hkey Hrun.
  destruct (delete_account_view_stored db self key resp db' Hkey Hrun)
    as ((r & Hin & Hr) & -> & ->).
  split; [reflexivity|]. split.
  - exists (if decide (pk r = Some key) then Accounts.deactivated r else r).
    split.
    + cbn [Accounts.set_users users].
      apply list_elem_of_fmap. exists r. split; [reflexivity|exact Hin].
    + destruct (decide (pk r = Some key)); [exact Hr|contradiction].
  - intros u Hu Hk. cbn [Accounts.set_users users] in Hu.
    pose proof (soft_deleted_rows_inactive _ _ _ Hu Hk) as Hinactive.
    split; [exact Hinactive|]. split.
    + intros Hs. split.
      * unfold get_user_permissions. rewrite Hs, Hinactive. reflexivity.
      * intros rt act rid.
        apply check_permission_inactive; assumption.
    + intros Hs. split.
      * unfold get_user_permissions. rewrite Hs. reflexivity.
      * intros rt act rid. apply check_permission_superuser. exact Hs.
Qed.

Lemma deleted_account_access_witness :
  exists resp db',
    Accounts.delete_account_view Scenario.seeded Scenario.root
    = ret (Accounts.Stored (resp, db'))
    /\ get_user_permissions db' (Accounts.deactivated Scenario.root)
       = ["*.*"]
    /\ check_permission services_globals db'
         (Some (Accounts.deactivated Scenario.root))
         "document" "delete" PyNone
       = ret true.
Proof.
  eexists _, _. split; [reflexivity|].
  pose proof (proj2 (proj2 (deleted_account_access services_globals
                Scenario.seeded Scenario.root 1 _ _ eq_refl eq_refl))
                (Accounts.deactivated Scenario.root)) as Hrow.
  destruct Hrow as (_ & _ & Hsuper); [left|reflexivity|].
  destruct (Hsuper eq_refl) as [Hcodes Hgranted].
  split; [exact Hcodes|apply Hgranted].
Defined.

(** ** Logging in *)

Lemma login_invalid cp fu db request :
  Accounts.validated_login request = None ->
  Accounts.login_view cp fu db request
  = ret (Accounts.mkLoginResponse Accounts.login_errors
           Views.HTTP_400_BAD_REQUEST).
Proof. intros Hv. unfold Accounts.login_view. rewrite Hv. reflexivity. Qed.

Lemma login_unknown cp fu db request e p :
  Accounts.validated_login request = Some (e, p) ->
  filter (fun u => email u = e) (users db) = [] ->
  Accounts.login_view cp fu db request
  = ret (Accounts.mkLoginResponse
           (Accounts.login_error "Неверный email или пароль")
           Accounts.HTTP_401_UNAUTHORIZED).
Proof.
  intros Hv Hf. unfold Accounts.login_view. rewrite Hv, Hf. reflexivity.
Qed.

Lemma login_inactive cp fu db request e p u :
  Accounts.validated_login request = Some (e, p) ->
  filter (fun u => email u = e) (users db) = [u] ->
  is_active u = false ->
  Accounts.login_view cp fu db request
  = ret (Accounts.mkLoginResponse
           (Accounts.login_error "Учетная запись деактивирована")
           Accounts.HTTP_401_UNAUTHORIZED).
Proof.
  intros Hv Hf Ha. unfold Accounts.login_view. rewrite Hv, Hf. cbn.
  rewrite Ha. reflexivity.
Qed.

Lemma login_wrong_password cp fu db request e p u :
  Accounts.validated_login request = Some (e, p) ->
  filter (fun u => email u = e) (users db) = [u] ->
  is_active u = true -> cp u p = false ->
  Accounts.login_view cp fu db request
  = ret (Accounts.mkLoginResponse
           (Accounts.login_error "Неверный email или пароль")
           Accounts.HTTP_401_UNAUTHORIZED).
Proof.
  intros Hv Hf Ha Hc. unfold Accounts.login_view. rewrite Hv, Hf. cbn.
  rewrite Ha, Hc. reflexivity.
Qed.

Lemma login_tokens cp fu db request e p u :
  Accounts.validated_login request = Some (e, p) ->
  filter (fun u => email u = e) (users db) = [u] ->
  is_active u = true -> cp u p = true ->
  Accounts.login_view cp fu db request
  = ret (Accounts.mkLoginResponse
           (Accounts.tokens (fst (fu u)) (snd (fu u)) u)
           Views.HTTP_200_OK).
Proof.
  intros Hv Hf Ha Hc. unfold Accounts.login_view. rewrite Hv, Hf. cbn.
  rewrite Ha, Hc. reflexivity.
Qed.

Lemma login_ambiguous cp fu db request e p u v rest :
  Accounts.validated_login request = Some (e, p) ->
  filter (fun u => email u = e) (users db) = u :: v :: rest ->
  Accounts.login_view cp fu db request
  = raise (MultipleObjectsReturned "User").
Proof.
  intros Hv Hf. unfold Accounts.login_view. rewrite Hv, Hf. reflexivity.
Qed.

Ltac login_cases cp fu db request :=
  let e := fresh "e" in
  let p := fresh "p" in
  let u := fresh "u" in
  let Hv := fresh "Hv" in
  let Hf := fresh "Hf" in
  let Ha := fresh "Ha" in
  let Hc := fresh "Hc" in
  destruct (Accounts.validated_login request) as [[e p]|] eqn:Hv;
  [ destruct (filter (fun u => email u = e) (users db))
      as [|u [|? ?]] eqn:Hf;
    [ rewrite (login_unknown cp fu db request e p Hv Hf)
    | destruct (is_active u) eqn:Ha;
      [ destruct (cp u p) eqn:Hc;
        [ rewrite (login_tokens cp fu db request e p u Hv Hf Ha Hc)
        | rewrite (login_wrong_password cp fu db request e p u
                     Hv Hf Ha Hc) ]
      | rewrite (login_inactive cp fu db request e p u Hv Hf Ha) ]
    | rewrite (login_ambiguous cp fu db request e p _ _ _ Hv Hf) ]
  | rewrite (login_invalid cp fu db request Hv) ].

(** X25. [login_view] hands out tokens exactly when the body is valid, one
    row has the e-mail address, the row is active and the password checks;
    the tokens are those made for that row. A wrong password is answered
    as an unknown address is, while a deactivated account is told so
    whatever the password. The view writes no log record and raises only
    when several rows share the address. *)
Theorem login_view_answers cp fu db request :
  (forall access refresh u,
     Accounts.login_view cp fu db request
     = ret (Accounts.mkLoginResponse (Accounts.tokens access refresh u)
              Views.HTTP_200_OK)
     <-> exists e p,
           Accounts.validated_login request = Some (e, p)
           /\ filter (fun x => email x = e) (users db) = [u]
           /\ is_active u = true /\ cp u p = true
           /\ fu u = (access, refresh))
  /\ (forall resp,
        Accounts.login_view cp fu db request = ret resp ->
        Accounts.login_status resp = Views.HTTP_200_OK ->
        exists access refresh u,
          Accounts.login_body resp = Accounts.tokens access refresh u)
  /\ (forall e p u request' e' p',
        Accounts.validated_login request = Some (e, p) ->
        filter (fun x => email x = e) (users db) = [u] ->
        is_active u = true -> cp u p = false ->
        Accounts.validated_login request' = Some (e', p') ->
        filter (fun x => email x = e') (users db) = [] ->
        Accounts.login_view cp fu db request
        = Accounts.login_view cp fu db request')
  /\ (forall e p u,
        Accounts.validated_login request = Some (e, p) ->
        filter (fun x => email x = e) (users db) = [u] ->
        is_active u = false ->
        Accounts.login_view cp fu db request
        = ret (Accounts.mkLoginResponse
                 (Accounts.login_error "Учетная запись деактивирована")
                 Accounts.HTTP_401_UNAUTHORIZED))
  /\ records (Accounts.login_view cp fu db request) = []
  /\ (rejected (Accounts.login_view cp fu db request)
      <-> exists e p u v rest,
            Accounts.validated_login request = Some (e, p)
            /\ filter (fun x => email x = e) (users db) = u :: v :: rest).
Proof.
  split; [|split; [|split; [|split; [|split]]]].
  - intros access refresh u. split.
    + login_cases cp fu db request; intros Hrun; try discriminate Hrun.
      injection Hrun as Ha' Hr' <-.
      exists e, p. repeat split; try assumption.
      rewrite <- Ha', <- Hr'. destruct (fu u0); reflexivity.
    + intros (e & p & Hv & Hf & Ha & Hc & Hfu).
      rewrite (login_tokens cp fu db request e p u Hv Hf Ha Hc), Hfu.
      reflexivity.
  - intros resp.
    login_cases cp fu db request; intros Hrun; try discriminate Hrun;
      injection Hrun as <-; cbn; intros Hstatus; try discriminate Hstatus.
    eexists _, _, _. reflexivity.
  - intros e p u request' e' p' Hv Hf Ha Hc Hv' Hf'.
    rewrite (login_wrong_password cp fu db request e p u Hv Hf Ha Hc).
    rewrite (login_unknown cp fu db request' e' p' Hv' Hf'). reflexivity.
  - intros e p u. apply login_inactive.
  - login_cases cp fu db request; reflexivity.
  - unfold rejected. split.
    + login_cases cp fu db request; intros [ex Hex]; try discriminate Hex.
      eexists _, _, _, _, _. split; [reflexivity|eassumption].
    + intros (e & p & u & v & rest & Hv & Hf).
      rewrite (login_ambiguous cp fu db request e p u v rest Hv Hf).
      eexists. reflexivity.
Qed.

Lemma login_view_answers_witness :
  Accounts.login_view (fun _ p => bool_decide (p = "secret"))
    (fun u => ("access " +:+ email u, "refresh " +:+ email u))
    Scenario.seeded
    (Accounts.mkLoginRequest (Views.Valid "viewer@test.com")
                             (Views.Valid "secret"))
  = ret (Accounts.mkLoginResponse
           (Accounts.tokens "access viewer@test.com"
                            "refresh viewer@test.com" Scenario.viewer)
           Views.HTTP_200_OK).
Proof.
  apply (proj1 (login_view_answers _ _ _ _)).
  exists "viewer@test.com", "secret". repeat split; reflexivity.
Defined.

(** ** Deleting an account, then logging in *)

Lemma filter_fmap_stable {A} (P : A -> Prop) `{!forall x, Decision (P x)}
    (f : A -> A) (l : list A) :
  (forall x, P (f x) <-> P x) ->
  filter P (f <$> l) = f <$> filter P l.
Proof.
  intros Hstable. induction l as [|x l IH]; [reflexivity|].
  rewrite fmap_cons, !filter_cons.
  destruct (decide (P (f x))) as [Hy|Hn], (decide (P x)) as [Hy'|Hn'].
  - rewrite fmap_cons, IH. reflexivity.
  - exfalso. apply Hn', Hstable, Hy.
  - exfalso. apply Hn, Hstable, Hy'.
  - exact IH.
Qed.

Lemma filter_fmap_untouched {A} (P : A -> Prop) `{!forall x, Decision (P x)}
    (f : A -> A) (l : list A) :
  (forall x, P (f x) <-> P x) ->
  (forall x, x ∈ l -> P x -> f x = x) ->
  filter P (f <$> l) = filter P l.
Proof.
  intros Hstable Hsame. rewrite filter_fmap_stable by exact Hstable.
  induction l as [|x l IH]; [reflexivity|].
  assert (forall y, y ∈ l -> P y -> f y = y) as Hrest
    by (intros y Hy; apply Hsame; right; exact Hy).
  rewrite filter_cons. destruct (decide (P x)) as [Hy|Hn].
  - rewrite fmap_cons, (Hsame x) by (first [left|exact Hy]).
    rewrite (IH Hrest). reflexivity.
  - exact (IH Hrest).
Qed.

Lemma soft_deleted_email key (x : User) :
  email (if decide (pk x = Some key) then Accounts.deactivated x else x)
  = email x.
Proof. destruct (decide (pk x = Some key)); reflexivity. Qed.

(** X26. After [delete_account_view] has answered, no login hands out
    tokens for a row of the deleted key, whatever the password check
    says. A login with the address of the deleted row is told that the
    account is deactivated, and a login with an address that no deleted
    row has is answered as before the deletion. *)
Theorem deleted_account_cannot_log_in cp fu db self key resp db' request :
  pk self = Some key ->
  Accounts.delete_account_view db self
  = ret (Accounts.Stored (resp, db')) ->
  (forall access refresh u status,
     Accounts.login_view cp fu db' request
     = ret (Accounts.mkLoginResponse (Accounts.tokens access refresh u)
              status) ->
     pk u <> Some key)
  /\ (forall e p row,
        Accounts.validated_login request = Some (e, p) ->
        filter (fun x => email x = e) (users db) = [row] ->
        pk row = Some key ->
        Accounts.login_view cp fu db' request
        = ret (Accounts.mkLoginResponse
                 (Accounts.login_error "Учетная запись деактивирована")
                 Accounts.HTTP_401_UNAUTHORIZED))
  /\ (forall e p,
        Accounts.validated_login request = Some (e, p) ->
        (forall r, r ∈ users db -> email r = e -> pk r <> Some key) ->
        Accounts.login_view cp fu db' request
        = Accounts.login_view cp fu db request).
Proof.
  intros Hkey Hrun.
  destruct (delete_account_view_stored db self key resp db' Hkey Hrun)
    as (_ & _ & ->).
  split; [|split].
  - intros access refresh u status.
    login_cases cp fu (Accounts.set_users db
                         ((fun r => if decide (pk r = Some key)
                                    then Accounts.deactivated r else r)
                            <$> users db)) request;
      intros Hlogin; try discriminate Hlogin.
    injection Hlogin as _ _ <- _.
    intros Hk.
    assert (u0 ∈ filter (fun u => email u = e)
                   (users (Accounts.set_users db
                      ((fun r => if decide (pk r = Some key)
                                 then Accounts.deactivated r else r)
                         <$> users db)))) as Hin
      by (rewrite Hf; left).
    apply list_elem_of_filter in Hin as [_ Hin].
    cbn [Accounts.set_users users] in Hin.
    pose proof (soft_deleted_rows_inactive _ _ _ Hin Hk) as Hinactive.
    congruence.
  - intros e p row Hv Hf Hrow.
    apply (login_inactive cp fu _ request e p (Accounts.deactivated row));
      [exact Hv| |reflexivity].
    cbn [Accounts.set_users users].
    rewrite filter_fmap_stable
      by (intros x; rewrite soft_deleted_email; reflexivity).
    rewrite Hf. cbn. rewrite decide_True by exact Hrow. reflexivity.
  - intros e p Hv Hother. unfold Accounts.login_view. rewrite Hv.
    cbn [Accounts.set_users users].
    rewrite filter_fmap_untouched; [reflexivity| |].
    + intros x. rewrite soft_deleted_email. reflexivity.
    + intros x Hin Hx.
      rewrite decide_False by (apply Hother; assumption). reflexivity.
Qed.

Lemma deleted_account_cannot_log_in_witness :
  exists resp db',
    Accounts.delete_account_view Scenario.seeded Scenario.viewer
    = ret (Accounts.Stored (resp, db'))
    /\ Accounts.login_view (fun _ _ => true) (fun u => (email u, email u))
         db'
         (Accounts.mkLoginRequest (Views.Valid "viewer@test.com")
                                  (Views.Valid "secret"))
       = ret (Accounts.mkLoginResponse
                (Accounts.login_error "Учетная запись деактивирована")
                Accounts.HTTP_401_UNAUTHORIZED).
Proof.
  eexists _, _. split; [reflexivity|].
  apply (proj1 (proj2 (deleted_account_cannot_log_in
           (fun _ _ => true) (fun u => (email u, email u))
           Scenario.seeded Scenario.viewer 4 _ _
           (Accounts.mkLoginRequest (Views.Valid "viewer@test.com")
                                    (Views.Valid "secret"))
           eq_refl eq_refl))
         "viewer@test.com" "secret" Scenario.viewer);
    reflexivity.
Defined.

(** ** Creating users *)

Lemma next_user_id_above (table : list User) r k :
  r ∈ table -> pk r = Some k -> k < Accounts.next_user_id table.
Proof.
  unfold Accounts.next_user_id. intros Hin Hk.
  enough (k <= foldr Z.max 0 (omap pk table)) by lia.
  induction table as [|x table IH]; [inversion Hin|].
  apply elem_of_cons in Hin as [<-|Hin].
  - cbn [omap list_omap]. rewrite Hk. cbn [foldr]. lia.
  - specialize (IH Hin). cbn [omap list_omap].
    destruct (pk x); cbn [foldr]; lia.
Qed.

Lemma next_user_id_fresh (table : list User) r :
  r ∈ table -> pk r <> Some (Accounts.next_user_id table).
Proof.
  intros Hin Hk. pose proof (next_user_id_above table r _ Hin Hk). lia.
Qed.

Lemma create_user_stored ne db e extra :
  e <> "" ->
  (forall r, r ∈ users db -> email r <> ne e) ->
  Accounts.create_user ne db e extra
  = ret (Accounts.Stored
           (mkUser (Some (Accounts.next_user_id (users db))) (ne e)
                   (default false (Accounts.extra_is_superuser extra))
                   (default true (Accounts.extra_is_active extra))
                   (default false (Accounts.extra_is_staff extra)),
            Accounts.set_users db
              (users db
               ++ [mkUser (Some (Accounts.next_user_id (users db))) (ne e)
                     (default false (Accounts.extra_is_superuser extra))
                     (default true (Accounts.extra_is_active extra))
                     (default false (Accounts.extra_is_staff extra))]))).
Proof.
  intros He Hfree. unfold Accounts.create_user.
  rewrite bool_decide_eq_false_2 by exact He. cbn zeta.
  rewrite (filter_none _ (users db))
    by (intros r Hin; apply Hfree; exact Hin).
  rewrite bool_decide_eq_false_2 by (intros Hn; apply Hn; reflexivity).
  reflexivity.
Qed.

Lemma create_user_stored_inv ne db e extra u db' :
  Accounts.create_user ne db e extra = ret (Accounts.Stored (u, db')) ->
  e <> "" /\ (forall r, r ∈ users db -> email r <> ne e).
Proof.
  unfold Accounts.create_user. case_bool_decide as He; [discriminate|].
  cbn zeta. case_bool_decide as Hrows; [discriminate|].
  intros _. split; [exact He|].
  intros r Hin Hr.
  assert (r ∈ filter (fun r => email r = ne e) (users db)) as Hf
    by (apply list_elem_of_filter; split; assumption).
  rewrite Hrows in Hf. inversion Hf.
Qed.

(** X27. [create_user] raises [ValueError] on an empty e-mail address and
    ends in [IntegrityError] when a row already has the normalised
    address. Otherwise it appends one row and changes nothing else: the
    row has the normalised address, a key that no row had, and the flags
    given, where a flag not given is active, not staff, not superuser.
    Addresses and keys that were unique stay unique. *)
Theorem create_user_outcome ne db e extra :
  (e = "" -> rejected (Accounts.create_user ne db e extra))
  /\ (e <> "" -> (exists r, r ∈ users db /\ email r = ne e) ->
      exists m, Accounts.create_user ne db e extra
                = ret (Accounts.IntegrityError m))
  /\ (e <> "" -> (forall r, r ∈ users db -> email r <> ne e) ->
      exists u db',
        Accounts.create_user ne db e extra
        = ret (Accounts.Stored (u, db'))
        /\ users db' = users db ++ [u]
        /\ email u = ne e
        /\ (exists k, pk u = Some k
                      /\ forall r, r ∈ users db -> pk r <> Some k)
        /\ is_active u = default true (Accounts.extra_is_active extra)
        /\ is_staff u = default false (Accounts.extra_is_staff extra)
        /\ is_superuser u
           = default false (Accounts.extra_is_superuser extra)
        /\ (permissions db', roles db', user_roles db',
            role_permissions db', user_permissions db',
            resource_permissions db')
           = (permissions db, roles db, user_roles db,
              role_permissions db, user_permissions db,
              resource_permissions db)
        /\ (NoDup (email <$> users db) -> NoDup (email <$> users db'))
        /\ (NoDup (omap pk (users db)) -> NoDup (omap pk (users db')))).
Proof.
  split; [|split].
  - intros ->. unfold rejected. eexists. reflexivity.
  - intros He (r & Hin & Hr). unfold Accounts.create_user.
    rewrite bool_decide_eq_false_2 by exact He. cbn zeta.
    rewrite bool_decide_eq_true_2; [eexists; reflexivity|].
    intros Hnil.
    assert (r ∈ filter (fun r => email r = ne e) (users db)) as Hf
      by (apply list_elem_of_filter; split; assumption).
    rewrite Hnil in Hf. inversion Hf.
  - intros He Hfree. eexists _, _.
    split; [exact (create_user_stored ne db e extra He Hfree)|].
    split; [reflexivity|]. split; [reflexivity|].
    split; [eexists; split; [reflexivity|apply next_user_id_fresh]|].
    split; [reflexivity|]. split; [reflexivity|]. split; [reflexivity|].
    split; [reflexivity|].
    cbn [Accounts.set_users users]. split.
    + intros Hnodup. rewrite fmap_app. apply NoDup_app.
      split; [exact Hnodup|]. split; [|apply NoDup_singleton].
      intros x Hx Hx'. cbn in Hx'. apply list_elem_of_singleton in Hx'.
      apply list_elem_of_fmap in Hx as (r & -> & Hin).
      exact (Hfree r Hin Hx').
    + intros Hnodup. rewrite omap_app. apply NoDup_app.
      split; [exact Hnodup|]. split; [|apply NoDup_singleton].
      intros x Hx Hx'. cbn in Hx'. apply list_elem_of_singleton in Hx'.
      apply list_elem_of_omap in Hx as (r & Hin & Hr).
      apply (next_user_id_fresh (users db) r Hin). congruence.
Qed.

Lemma create_user_outcome_witness :
  exists u db',
    Accounts.create_user (fun e => e) Scenario.seeded "new@test.com"
      (Accounts.mkExtraFields None None None)
    = ret (Accounts.Stored (u, db'))
    /\ users db' = users Scenario.seeded ++ [u]
    /\ pk u = Some 7.
Proof.
  destruct (proj2 (proj2 (create_user_outcome (fun e => e) Scenario.seeded
              "new@test.com" (Accounts.mkExtraFields None None None))))
    as (u & db' & Hrun & Hrows & _).
  - discriminate.
  - intros r Hin.
    change (r ∈ [Scenario.root; Scenario.viewer; Scenario.retired;
                 Scenario.auditor]) in Hin.
    rewrite !elem_of_cons, elem_of_nil in Hin.
    destruct Hin as [->|[->|[->|[->|[]]]]]; discriminate.
  - exists u, db'. split; [exact Hrun|]. split; [exact Hrows|].
    injection Hrun as <- _. reflexivity.
Defined.

Lemma create_superuser_checked ne db e extra :
  Accounts.extra_is_staff extra <> Some false ->
  Accounts.extra_is_superuser extra <> Some false ->
  Accounts.create_superuser ne db e extra
  = Accounts.create_user ne db e
      (Accounts.mkExtraFields
         (Some true) (Some true)
         (Some (default true (Accounts.extra_is_active extra)))).
Proof.
  intros Hstaff Hsuper. unfold Accounts.create_superuser.
  destruct extra as [[[]|] [[]|] [active|]]; cbn in *;
    try (exfalso; apply Hstaff; reflexivity);
    try (exfalso; apply Hsuper; reflexivity);
    reflexivity.
Qed.

(** X28. [create_superuser] raises [ValueError] when the caller passes
    [is_staff=False], and when it passes [is_superuser=False], before it
    looks at the e-mail address or the database. Otherwise it is
    [create_user] with both flags set and [is_active] as given, or set
    when not given. The user it stores is staff and superuser, holds the
    wildcard and is granted every request by the engine, also when it was
    created with [is_active=False]. *)
Theorem create_superuser_outcome ne db e extra :
  (Accounts.extra_is_staff extra = Some false ->
   Accounts.create_superuser ne db e extra
   = raise (ValueError "Суперпользователь должен иметь is_staff=True."))
  /\ (Accounts.extra_is_staff extra <> Some false ->
      Accounts.extra_is_superuser extra = Some false ->
      Accounts.create_superuser ne db e extra
      = raise (ValueError
                 "Суперпользователь должен иметь is_superuser=True."))
  /\ (Accounts.extra_is_staff extra <> Some false ->
      Accounts.extra_is_superuser extra <> Some false ->
      Accounts.create_superuser ne db e extra
      = Accounts.create_user ne db e
          (Accounts.mkExtraFields
             (Some true) (Some true)
             (Some (default true (Accounts.extra_is_active extra)))))
  /\ (forall u db',
        Accounts.create_superuser ne db e extra
        = ret (Accounts.Stored (u, db')) ->
        is_staff u = true /\ is_superuser u = true
        /\ is_active u = default true (Accounts.extra_is_active extra)
        /\ u ∈ users db'
        /\ get_user_permissions db' u = ["*.*"]
        /\ forall globals rt act rid,
             check_permission globals db' (Some u) rt act rid = ret true).
Proof.
  split; [|split; [|split]].
  - intros Hstaff. unfold Accounts.create_superuser. rewrite Hstaff.
    reflexivity.
  - intros Hstaff Hsuper. unfold Accounts.create_superuser. rewrite Hsuper.
    destruct (Accounts.extra_is_staff extra) as [[]|]; cbn;
      first [reflexivity | exfalso; apply Hstaff; reflexivity].
  - apply create_superuser_checked.
  - intros u db' Hrun.
    assert (Accounts.extra_is_staff extra <> Some false) as Hstaff.
    { intros Hstaff. revert Hrun. unfold Accounts.create_superuser.
      rewrite Hstaff. discriminate. }
    assert (Accounts.extra_is_superuser extra <> Some false) as Hsuper.
    { intros Hsuper. revert Hrun. unfold Accounts.create_superuser.
      rewrite Hsuper.
      destruct (Accounts.extra_is_staff extra) as [[]|]; discriminate. }
    rewrite (create_superuser_checked ne db e extra Hstaff Hsuper) in Hrun.
    destruct (create_user_stored_inv _ _ _ _ _ _ Hrun) as [He Hfree].
    rewrite (create_user_stored _ _ _ _ He Hfree) in Hrun.
    injection Hrun as <- <-. cbn.
    split; [reflexivity|]. split; [reflexivity|]. split; [reflexivity|].
    split; [apply elem_of_app; right; left|].
    split; [reflexivity|].
    intros globals rt act rid. reflexivity.
Qed.

Lemma create_superuser_outcome_witness :
  Accounts.create_superuser (fun e => e) Scenario.seeded ""
    (Accounts.mkExtraFields (Some false) None None)
  = raise (ValueError "Суперпользователь должен иметь is_staff=True.")
  /\ exists u db',
       Accounts.create_superuser (fun e => e) Scenario.seeded
         "second@test.com" (Accounts.mkExtraFields None None (Some false))
       = ret (Accounts.Stored (u, db'))
       /\ is_active u = false
       /\ check_permission services_globals db' (Some u)
            "document" "delete" PyNone
          = ret true.
Proof.
  split.
  - apply (proj1 (create_superuser_outcome (fun e => e) Scenario.seeded ""
                    (Accounts.mkExtraFields (Some false) None None))).
    reflexivity.
  - eexists _, _. split; [reflexivity|].
    destruct (proj2 (proj2 (proj2 (create_superuser_outcome (fun e => e)
                Scenario.seeded "second@test.com"
                (Accounts.mkExtraFields None None (Some false))))) _ _
                eq_refl)
      as (_ & _ & Hactive & _ & _ & Hgranted).
    split; [exact Hactive|apply Hgranted].
Defined.

(** ** A new user in the engine *)

Lemma no_rows_no_codes db u :
  filter (fun r => Some (ur_user r) = pk u) (user_roles db) = [] ->
  filter (fun r => Some (up_user r) = pk u) (user_permissions db) = [] ->
  is_superuser u = false ->
  get_user_permissions db u = [].
Proof.
  intros Hroles Hdirect Hs. unfold get_user_permissions. rewrite Hs.
  destruct (is_active u); [|reflexivity]. cbn [negb].
  assert (role_permission_codes db u = []) as ->.
  { unfold role_permission_codes, user_role_ids. rewrite Hroles.
    rewrite filter_none; [reflexivity|].
    intros r _ Hin. inversion Hin. }
  assert (forall g, user_permission_codes db u g = []) as Hcodes.
  { intros g. unfold user_permission_codes.
    rewrite filter_none; [reflexivity|].
    intros r Hin [Hr _].
    assert (r ∈ filter (fun r => Some (up_user r) = pk u)
                  (user_permissions db)) as Hf
      by (apply list_elem_of_filter; split; assumption).
    rewrite Hdirect in Hf. inversion Hf. }
  rewrite !Hcodes. cbn.
  apply elements_empty_iff. set_solver.
Qed.

(** X29. On a database whose rows refer to users that exist, the user
    that [create_user] stores, unless created as superuser, starts with
    nothing: no role row, no effective permission, and, in a module scope
    that binds [permission_code], a denial from the engine for every
    request. *)
Theorem new_user_starts_without_access ne db e extra u db' :
  (forall r, r ∈ user_roles db ->
     exists owner, owner ∈ users db /\ pk owner = Some (ur_user r)) ->
  (forall r, r ∈ user_permissions db ->
     exists owner, owner ∈ users db /\ pk owner = Some (up_user r)) ->
  (forall r, r ∈ resource_permissions db ->
     exists owner, owner ∈ users db /\ pk owner = Some (res_user r)) ->
  Accounts.extra_is_superuser extra <> Some true ->
  Accounts.create_user ne db e extra = ret (Accounts.Stored (u, db')) ->
  Services.get_user_roles db' u = []
  /\ get_user_permissions db' u = []
  /\ forall globals c rt act rid,
       globals !! "permission_code" = Some c ->
       value (check_permission globals db' (Some u) rt act rid)
       = Return false.
Proof.
  intros Hroles Hdirect Hresource Hsuper Hrun.
  destruct (create_user_stored_inv _ _ _ _ _ _ Hrun) as [He Hfree].
  rewrite (create_user_stored _ _ _ _ He Hfree) in Hrun.
  injection Hrun as <- <-.
  set (u := mkUser _ _ _ _ _).
  set (db' := Accounts.set_users db _).
  assert (is_superuser u = false) as Hs.
  { subst u. cbn.
    destruct (Accounts.extra_is_superuser extra) as [[]|];
      first [reflexivity | exfalso; apply Hsuper; reflexivity]. }
  assert (filter (fun r => Some (ur_user r) = pk u) (user_roles db') = [])
    as Hnoroles.
  { apply filter_none. intros r Hin Hr.
    destruct (Hroles r Hin) as (owner & Hown & Hk).
    apply (next_user_id_fresh (users db) owner Hown).
    rewrite Hk, Hr. reflexivity. }
  assert (filter (fun r => Some (up_user r) = pk u) (user_permissions db')
          = []) as Hnodirect.
  { apply filter_none. intros r Hin Hr.
    destruct (Hdirect r Hin) as (owner & Hown & Hk).
    apply (next_user_id_fresh (users db) owner Hown).
    rewrite Hk, Hr. reflexivity. }
  split; [exact Hnoroles|].
  split; [exact (no_rows_no_codes db' u Hnoroles Hnodirect Hs)|].
  intros globals c rt act rid Hbound.
  destruct (is_active u) eqn:Ha;
    [|rewrite (check_permission_inactive _ _ _ _ _ _ Hs Ha); reflexivity].
  rewrite (check_permission_bound _ _ _ c _ _ _ Hbound Hs Ha).
  assert (_check_resource_permission db' u c rt rid = ret None) as Hres.
  { unfold _check_resource_permission. rewrite filter_none; [reflexivity|].
    intros r Hin (Hr & _).
    destruct (Hresource r Hin) as (owner & Hown & Hk).
    apply (next_user_id_fresh (users db) owner Hown).
    rewrite Hk, Hr. reflexivity. }
  assert (_check_user_permission db' u c = ret None) as Huser.
  { unfold _check_user_permission. rewrite filter_none; [reflexivity|].
    intros r Hin (Hr & _).
    destruct (Hdirect r Hin) as (owner & Hown & Hk).
    apply (next_user_id_fresh (users db) owner Hown).
    rewrite Hk, Hr. reflexivity. }
  assert (_check_role_permission db' u c = false) as Hrole.
  { unfold _check_role_permission, user_role_ids. rewrite Hnoroles.
    reflexivity. }
  rewrite Hres, Huser, Hrole. destruct (truthy rid); reflexivity.
Qed.

Lemma new_user_starts_without_access_witness :
  exists u db',
    Accounts.create_user (fun e => e) Scenario.seeded "new@test.com"
      (Accounts.mkExtraFields None None None)
    = ret (Accounts.Stored (u, db'))
    /\ get_user_permissions db' u = []
    /\ value (check_permission (Scenario.bound_to "document.read") db'
                (Some u) "document" "read" PyNone)
       = Return false.
Proof.
  eexists _, _. split; [reflexivity|].
  assert (forall r, r ∈ user_roles Scenario.seeded ->
            exists owner, owner ∈ users Scenario.seeded
                          /\ pk owner = Some (ur_user r)) as Hroles.
  { intros r Hin. change (r ∈ [mkUserRole 4 4 None]) in Hin.
    apply list_elem_of_singleton in Hin as ->.
    exists Scenario.viewer. split; [right; left|reflexivity]. }
  assert (forall r, r ∈ user_permissions Scenario.seeded ->
            exists owner, owner ∈ users Scenario.seeded
                          /\ pk owner = Some (up_user r)) as Hdirect.
  { intros r Hin. change (r ∈ []) in Hin. inversion Hin. }
  assert (forall r, r ∈ resource_permissions Scenario.seeded ->
            exists owner, owner ∈ users Scenario.seeded
                          /\ pk owner = Some (res_user r)) as Hresource.
  { intros r Hin. change (r ∈ []) in Hin. inversion Hin. }
  assert (Accounts.extra_is_superuser
            (Accounts.mkExtraFields None None None) <> Some true) as Hflag
    by discriminate.
  destruct (new_user_starts_without_access (fun e => e) Scenario.seeded
              "new@test.com" (Accounts.mkExtraFields None None None) _ _
              Hroles Hdirect Hresource Hflag eq_refl)
    as (_ & Hcodes & Hdenied).
  split; [exact Hcodes|].
  apply (Hdenied _ "document.read").
  unfold Scenario.bound_to. rewrite lookup_insert_eq. reflexivity.
Defined.

(** ** The resource ID once the name is bound *)



